(** * SSMS Query Generator: the data-ingestion and template-expansion engine

    A shallow embedding of the engine of [app/page.tsx] (component [Home]):
    the CSV/TSV parsers with their value coercion, the RowSet validator, the
    load handlers [processManualData] and [onDrop], and the placeholder
    engine [generateSqlScript] / [generateSqlTabs].

    Conventions of the embedding.
    - A JavaScript string is a [string]; a character is a code unit in the
      range U+0000..U+00FF.
    - A JavaScript number is a [number]: NaN, the two infinities, or an exact
      decimal [m * 10^e].  Rounding to binary64 and overflow of finite
      literals are outside the model; [-0] and [+0] are one value (they are
      [===] and print alike).
    - A row is a finite map from field names to scalars ([gmap string
      Value]): the own properties of an object whose values are null,
      numbers or strings ([rowsOf] relates a loaded array to its rows).  A
      missing key is [undefined].  Properties inherited from
      [Object.prototype] are outside the model: the read [row[key]] is the
      lookup [row !! key] for every key that names no member of
      [Object.prototype] ([isInheritedKey]), and the statements that depend
      on the value read say so.
    - [new RegExp(src, 'g')] is modelled on a fragment of the pattern
      language (see [compile]); a pattern outside the fragment makes the
      computation answer [Unmodelled], never a made-up result. *)

From Stdlib Require Import ZArith String Ascii List Lia Bool.
From Stdlib Require Import DecimalString DecimalN.
From stdpp Require Import base strings gmap.

Local Open Scope string_scope.
Local Open Scope Z_scope.

(* ===================================================================== *)
(** ** Outcomes of a computation that can raise *)

Inductive result (A : Type) : Type :=
| Ok (a : A)
| Throw (message : string)
| Unmodelled.

Arguments Ok {A} a.
Arguments Throw {A} message.
Arguments Unmodelled {A}.

Definition bind {A B : Type} (r : result A) (k : A -> result B) : result B :=
  match r with
  | Ok a => k a
  | Throw msg => Throw msg
  | Unmodelled => Unmodelled
  end.

Notation "x <- r ;;; k" := (bind r (fun x => k))
  (at level 100, r at next level, right associativity).

(** [arr.map(f)] where [f] can raise: elements are visited left to right and
    the first exception ends the traversal. *)
Fixpoint mapResult {A B : Type} (f : A -> result B) (l : list A)
  : result (list B) :=
  match l with
  | [] => Ok []
  | a :: l' => b <- f a ;;; bs <- mapResult f l' ;;; Ok (b :: bs)
  end.

(** [arr.forEach(x => { acc = f(acc, x) })] where [f] can raise. *)
Fixpoint foldResult {A B : Type} (f : B -> A -> result B) (l : list A) (acc : B)
  : result B :=
  match l with
  | [] => Ok acc
  | a :: l' => acc' <- f acc a ;;; foldResult f l' acc'
  end.

(* ===================================================================== *)
(** ** Strings *)

Definition code (c : ascii) : N := N_of_ascii c.

(** The double quote and the control characters, by code. *)
Definition dquote : ascii := ascii_of_nat 34.
Definition squote : ascii := ascii_of_nat 39.
Definition LF : ascii := ascii_of_nat 10.
Definition TAB : ascii := ascii_of_nat 9.

Definition str1 (c : ascii) : string := String c EmptyString.

(** WhiteSpace and LineTerminator code units below U+0100: TAB, LF, VT, FF,
    CR, SP and NBSP.  This is the set stripped by [trim], skipped by
    [Number] and matched by the pattern class [\s]. *)
Definition isWhiteSpace (c : ascii) : bool :=
  let n := code c in
  ((9 <=? n) && (n <=? 13) || (n =? 32) || (n =? 160))%N.

Definition isDigit (c : ascii) : bool :=
  let n := code c in ((48 <=? n) && (n <=? 57))%N.

Definition isEmpty (s : string) : bool :=
  match s with EmptyString => true | String _ _ => false end.

Fixpoint trimStart (s : string) : string :=
  match s with
  | EmptyString => EmptyString
  | String c s' => if isWhiteSpace c then trimStart s' else s
  end.

Fixpoint trimEnd (s : string) : string :=
  match s with
  | EmptyString => EmptyString
  | String c s' =>
      let t := trimEnd s' in
      if isWhiteSpace c && isEmpty t then EmptyString else String c t
  end.

(** [s.trim()] *)
Definition trim (s : string) : string := trimEnd (trimStart s).

(** [toLowerCase] of one code unit: A..Z, and the Latin-1 capitals
    U+00C0..U+00DE except the multiplication sign U+00D7. *)
Definition lowerChar (c : ascii) : ascii :=
  let n := code c in
  if ((65 <=? n) && (n <=? 90)
      || (192 <=? n) && (n <=? 222) && negb (n =? 215))%N
  then ascii_of_N (n + 32) else c.

(** [s.toLowerCase()] *)
Fixpoint toLowerCase (s : string) : string :=
  match s with
  | EmptyString => EmptyString
  | String c s' => String (lowerChar c) (toLowerCase s')
  end.

(** [s.startsWith(p)] *)
Fixpoint startsWith (s p : string) : bool :=
  match p, s with
  | EmptyString, _ => true
  | String a p', String b s' => Ascii.eqb a b && startsWith s' p'
  | String _ _, EmptyString => false
  end.

(** [s.includes(sub)] *)
Fixpoint includes (s sub : string) : bool :=
  startsWith s sub
  || match s with
     | EmptyString => false
     | String _ s' => includes s' sub
     end.

Fixpoint dropChars (n : nat) (s : string) : string :=
  match n, s with
  | O, _ => s
  | S n', String _ s' => dropChars n' s'
  | S _, EmptyString => EmptyString
  end.

Fixpoint takeChars (n : nat) (s : string) : string :=
  match n, s with
  | O, _ => EmptyString
  | S n', String c s' => String c (takeChars n' s')
  | S _, EmptyString => EmptyString
  end.

(** [s.endsWith(suffix)] *)
Definition endsWith (s suffix : string) : bool :=
  let n := String.length s in
  let m := String.length suffix in
  (m <=? n)%nat && String.eqb (dropChars (n - m) s) suffix.

(** [s.split(sep)] for a one-character separator; never the empty list. *)
Fixpoint split (sep : ascii) (s : string) : list string :=
  match s with
  | EmptyString => [EmptyString]
  | String c s' =>
      if Ascii.eqb c sep then EmptyString :: split sep s'
      else match split sep s' with
           | h :: t => String c h :: t
           | [] => [str1 c]
           end
  end.

(** [parts.join(sep)] on an array of strings. *)
Fixpoint join (sep : string) (parts : list string) : string :=
  match parts with
  | [] => EmptyString
  | [p] => p
  | p :: rest => p +:+ sep +:+ join sep rest
  end.

Fixpoint filterChars (keep : ascii -> bool) (s : string) : string :=
  match s with
  | EmptyString => EmptyString
  | String c s' =>
      if keep c then String c (filterChars keep s') else filterChars keep s'
  end.

(** Every character of [s] satisfies [p]. *)
Fixpoint allChars (p : ascii -> bool) (s : string) : bool :=
  match s with
  | EmptyString => true
  | String c s' => p c && allChars p s'
  end.

Definition isQuote (c : ascii) : bool := Ascii.eqb c dquote || Ascii.eqb c squote.

(** The characters of the decimal text of a finite number. *)
Definition isNumericChar (c : ascii) : bool :=
  isDigit c || Ascii.eqb c "." || Ascii.eqb c "e" || Ascii.eqb c "+"
  || Ascii.eqb c "-".

(** The text of a number: numeric characters only, a digit first. *)
Definition numericText (s : string) : Prop :=
  allChars isNumericChar s = true
  /\ exists c s', s = String c s' /\ isDigit c = true.
Definition isBrace (c : ascii) : bool := Ascii.eqb c "{" || Ascii.eqb c "}".

(** [s.replace(Q, '')] for Q the global pattern matching one straight
    double or single quote: every quote character is removed. *)
Definition removeQuotes (s : string) : string :=
  filterChars (fun c => negb (isQuote c)) s.

(** [s.replace(/\{|\}/g, '')] *)
Definition removeBraces (s : string) : string :=
  filterChars (fun c => negb (isBrace c)) s.

(** [s.replace(/\{\{|\}\}/g, '')]: the pairs are found left to right and do
    not overlap. *)
Fixpoint removeDoubleBraces (s : string) : string :=
  match s with
  | EmptyString => EmptyString
  | String a t =>
      match t with
      | String b r =>
          if Ascii.eqb a b && isBrace a then removeDoubleBraces r
          else String a (removeDoubleBraces t)
      | EmptyString => s
      end
  end.

Fixpoint stripTrailingQuote (s : string) : string :=
  match s with
  | EmptyString => EmptyString
  | String c EmptyString => if isQuote c then EmptyString else s
  | String c s' => String c (stripTrailingQuote s')
  end.

(** [s.replace(Q, '')] for Q the global pattern matching a quote anchored at
    the start or a quote anchored at the end: one quote at the start and one
    at the end, each if present; a string of one quote becomes empty. *)
Definition stripSurroundingQuotes (s : string) : string :=
  match s with
  | EmptyString => EmptyString
  | String c s' =>
      if isQuote c then stripTrailingQuote s' else stripTrailingQuote s
  end.

(** [s.replace(/'/g, D)] for D two single quotes: every single quote is
    doubled. *)
Fixpoint doubleQuotes (s : string) : string :=
  match s with
  | EmptyString => EmptyString
  | String c s' =>
      if Ascii.eqb c squote then String squote (String squote (doubleQuotes s'))
      else String c (doubleQuotes s')
  end.

(** [s.replace(/[{}]/g, '\\$&')]: a backslash before every brace. *)
Fixpoint escapeBraces (s : string) : string :=
  match s with
  | EmptyString => EmptyString
  | String c s' =>
      if isBrace c then String "\" (String c (escapeBraces s'))
      else String c (escapeBraces s')
  end.

(* ===================================================================== *)
(** ** Numbers *)

(** A number is NaN, an infinity, or the exact decimal [m * 10^e]. *)
Inductive number : Type :=
| NaN
| Infinity (negative : bool)
| Fin (m e : Z).

Definition isNaN (x : number) : bool :=
  match x with NaN => true | _ => false end.

(** [isFinite(x)] *)
Definition isFinite (x : number) : bool :=
  match x with Fin _ _ => true | _ => false end.

(** [x === y] on numbers: NaN equals nothing, finite numbers compare by
    value. *)
Definition number_eqb (x y : number) : bool :=
  match x, y with
  | Fin m1 e1, Fin m2 e2 =>
      let e := Z.min e1 e2 in
      m1 * 10 ^ (e1 - e) =? m2 * 10 ^ (e2 - e)
  | Infinity s1, Infinity s2 => Bool.eqb s1 s2
  | _, _ => false
  end.

Definition negate (x : number) : number :=
  match x with
  | NaN => NaN
  | Infinity s => Infinity (negb s)
  | Fin m e => Fin (- m) e
  end.

Definition digitChar (d : N) : ascii := ascii_of_N (48 + d).
Definition digitVal (c : ascii) : N := (code c - 48)%N.

Fixpoint digitsFuel (fuel : nat) (n : N) (acc : string) : string :=
  match fuel with
  | O => acc
  | S fuel' =>
      let acc' := String (digitChar (n mod 10)) acc in
      if (n <? 10)%N then acc' else digitsFuel fuel' (n / 10) acc'
  end.

(** The decimal digits of a natural number, without leading zeros. *)
Definition natDigits (n : N) : string :=
  digitsFuel (S (N.to_nat (N.log2 n))) n EmptyString.

Fixpoint foldDigits (s : string) (acc : N) : N :=
  match s with
  | EmptyString => acc
  | String c s' => foldDigits s' (10 * acc + digitVal c)%N
  end.

(** The value of a string of decimal digits. *)
Definition digitsToN (s : string) : N := foldDigits s 0%N.

(** A digit string without its trailing zeros, and how many there were. *)
Fixpoint trailingZeros (s : string) : string * nat :=
  match s with
  | EmptyString => (EmptyString, O)
  | String c s' =>
      let (t, z) := trailingZeros s' in
      if Ascii.eqb c "0" && isEmpty t then (EmptyString, S z)
      else (String c t, z)
  end.

Fixpoint zeros (n : nat) : string :=
  match n with
  | O => EmptyString
  | S n' => String "0" (zeros n')
  end.

(** Number::toString for a positive finite number [m * 10^e]: with [s] the
    [k] significant digits and [n] the position of the decimal point, the
    four layouts of the language definition. *)
Definition positiveToString (m : N) (e : Z) : string :=
  let (s, z) := trailingZeros (natDigits m) in
  let k := Z.of_nat (String.length s) in
  let n := k + Z.of_nat z + e in
  if (k <=? n) && (n <=? 21) then
    s +:+ zeros (Z.to_nat (n - k))
  else if (0 <? n) && (n <=? 21) then
    takeChars (Z.to_nat n) s +:+ "." +:+ dropChars (Z.to_nat n) s
  else if (-6 <? n) && (n <=? 0) then
    "0." +:+ zeros (Z.to_nat (- n)) +:+ s
  else
    let x := n - 1 in
    let sign := if x <? 0 then "-" else "+" in
    let mantissa :=
      if k =? 1 then s else takeChars 1 s +:+ "." +:+ dropChars 1 s in
    mantissa +:+ "e" +:+ sign +:+ natDigits (Z.abs_N x).

(** [String(x)] for a number [x]. *)
Definition numberToString (x : number) : string :=
  match x with
  | NaN => "NaN"
  | Infinity false => "Infinity"
  | Infinity true => "-Infinity"
  | Fin m e =>
      if m =? 0 then "0"
      else if m <? 0 then "-" +:+ positiveToString (Z.abs_N m) e
      else positiveToString (Z.abs_N m) e
  end.

Fixpoint spanDigits (s : string) : string * string :=
  match s with
  | EmptyString => (EmptyString, EmptyString)
  | String c s' =>
      if isDigit c then let (d, r) := spanDigits s' in (String c d, r)
      else (EmptyString, s)
  end.

(** ExponentPart_opt followed by the end of the literal. *)
Definition parseExponentPart (s : string) : option Z :=
  match s with
  | EmptyString => Some 0
  | String c r =>
      if Ascii.eqb c "e" || Ascii.eqb c "E" then
        let '(neg, r') :=
          match r with
          | String sign t =>
              if Ascii.eqb sign "+" then (false, t)
              else if Ascii.eqb sign "-" then (true, t)
              else (false, r)
          | EmptyString => (false, r)
          end in
        let (d, rest) := spanDigits r' in
        if negb (isEmpty d) && isEmpty rest then
          Some (if neg then - Z.of_N (digitsToN d) else Z.of_N (digitsToN d))
        else None
      else None
  end.

(** StrUnsignedDecimalLiteral. *)
Definition parseUnsignedDecimal (u : string) : number :=
  if String.eqb u "Infinity" then Infinity false
  else
    let (ip, r1) := spanDigits u in
    if startsWith r1 "." then
      let (fp, r2) := spanDigits (dropChars 1 r1) in
      if isEmpty ip && isEmpty fp then NaN
      else match parseExponentPart r2 with
           | Some x =>
               Fin (Z.of_N (digitsToN (ip +:+ fp)))
                   (x - Z.of_nat (String.length fp))
           | None => NaN
           end
    else
      if isEmpty ip then NaN
      else match parseExponentPart r1 with
           | Some x => Fin (Z.of_N (digitsToN ip)) x
           | None => NaN
           end.

Definition radixDigit (base : N) (c : ascii) : option N :=
  let n := code c in
  let v :=
    if isDigit c then Some (n - 48)%N
    else if ((97 <=? n) && (n <=? 102))%N then Some (n - 87)%N
    else if ((65 <=? n) && (n <=? 70))%N then Some (n - 55)%N
    else None in
  match v with
  | Some d => if (d <? base)%N then Some d else None
  | None => None
  end.

Fixpoint foldRadix (base : N) (s : string) (acc : N) : option N :=
  match s with
  | EmptyString => Some acc
  | String c s' =>
      match radixDigit base c with
      | Some d => foldRadix base s' (base * acc + d)%N
      | None => None
      end
  end.

(** NonDecimalIntegerLiteral: [0x], [0o] and [0b] literals, unsigned. *)
Definition parseNonDecimal (t : string) : option number :=
  match t with
  | String z (String p r) =>
      let base :=
        if Ascii.eqb p "x" || Ascii.eqb p "X" then Some 16%N
        else if Ascii.eqb p "o" || Ascii.eqb p "O" then Some 8%N
        else if Ascii.eqb p "b" || Ascii.eqb p "B" then Some 2%N
        else None in
      match base with
      | Some b =>
          if negb (Ascii.eqb z "0") || isEmpty r then None
          else match foldRadix b r 0%N with
               | Some n => Some (Fin (Z.of_N n) 0)
               | None => None
               end
      | None => None
      end
  | _ => None
  end.

(** [Number(s)] for a string [s] (StringToNumber): surrounding white space
    is ignored, the empty literal is 0, and text that is no numeric literal
    is NaN. *)
Definition StringToNumber (s : string) : number :=
  let t := trim s in
  if isEmpty t then Fin 0 0
  else match parseNonDecimal t with
       | Some n => n
       | None =>
           if startsWith t "+" then parseUnsignedDecimal (dropChars 1 t)
           else if startsWith t "-" then
             negate (parseUnsignedDecimal (dropChars 1 t))
           else parseUnsignedDecimal t
       end.

(* ===================================================================== *)
(** ** Values and rows *)

(** The scalars of a row. *)
Inductive Value : Type :=
| VNull
| VNum (n : number)
| VStr (s : string).

(** A value of type [unknown] read from a row: [None] is [undefined]. *)
Abbreviation unknown := (option Value).

Abbreviation Row := (gmap string Value).

(** [JsonData]: the rows of a loaded RowSet. *)
Abbreviation JsonData := (list Row).

(** The names of the members of [Object.prototype], which every object
    written as a literal or read by [JSON.parse] inherits. *)
Definition objectPrototypeKeys : list string :=
  ["constructor"; "__defineGetter__"; "__defineSetter__"; "hasOwnProperty";
   "__lookupGetter__"; "__lookupSetter__"; "isPrototypeOf";
   "propertyIsEnumerable"; "toString"; "valueOf"; "__proto__";
   "toLocaleString"].

(** [key] names a member of [Object.prototype].  On a row without such a
    key of its own, [row[key]] reads the inherited member and not
    [undefined]; for every other key, [row[key]] is the lookup
    [row !! key], where [None] is [undefined]. *)
Definition isInheritedKey (key : string) : bool :=
  existsb (String.eqb key) objectPrototypeKeys.

(** [a === b] *)
Definition strictEquals (a b : unknown) : bool :=
  match a, b with
  | None, None => true
  | Some VNull, Some VNull => true
  | Some (VNum x), Some (VNum y) => number_eqb x y
  | Some (VStr s), Some (VStr t) => String.eqb s t
  | _, _ => false
  end.

(** [v !== null && v !== undefined] *)
Definition notNullish (v : unknown) : bool :=
  match v with
  | None | Some VNull => false
  | Some _ => true
  end.

(** [String(v)] *)
Definition ToString (v : unknown) : string :=
  match v with
  | None => "undefined"
  | Some VNull => "null"
  | Some (VNum n) => numberToString n
  | Some (VStr s) => s
  end.

(** [arr.indexOf(v)]: the first index holding a value [===] to [v]. *)
Fixpoint indexOf (arr : list unknown) (v : unknown) : option nat :=
  match arr with
  | [] => None
  | x :: arr' =>
      if strictEquals x v then Some O
      else match indexOf arr' v with
           | Some i => Some (S i)
           | None => None
           end
  end.

(** [arr.filter((value, index) => p value index)], from index [i] on. *)
Fixpoint filterIndexed {A : Type} (p : A -> nat -> bool) (i : nat) (l : list A)
  : list A :=
  match l with
  | [] => []
  | x :: l' =>
      if p x i then x :: filterIndexed p (S i) l' else filterIndexed p (S i) l'
  end.

(** The SQL literal of a string: single-quoted, embedded quotes doubled. *)
Definition sqlQuote (s : string) : string :=
  str1 squote +:+ doubleQuotes s +:+ str1 squote.

(* ===================================================================== *)
(** ** Regular expressions built at run time

    [new RegExp(src, 'g')] on this fragment of the pattern language: literal
    characters, a backslash before a syntax character, the dot, the anchors,
    capturing groups, alternation and the greedy quantifiers.  Character
    classes, braces outside an escape, the other escapes, groups opening
    with a question mark and lazy quantifiers are outside the fragment. *)

Inductive regex : Type :=
| REmpty
| RChar (c : ascii)
| RAny
| RBol
| REol
| RSeq (r1 r2 : regex)
| RAlt (r1 r2 : regex)
| RRep (min : nat) (max : option nat) (r : regex)
| RGroup (index : nat) (r : regex).

(** SyntaxCharacter of the pattern grammar, and the solidus. *)
Definition isSyntaxChar (c : ascii) : bool :=
  includes "^$\.*+?()[]{}|/" (str1 c).

Record frame : Type := mkFrame {
  alts : list regex;   (* finished alternatives, the latest first *)
  terms : list regex   (* terms of the current alternative, the latest first *)
}.

Inductive lastTerm : Type := NotQuantifiable | Atom | Quantified.

Record pstate : Type := mkPstate {
  cur : frame;
  stack : list (frame * nat);   (* enclosing frames, each with its group index *)
  ngroups : nat;
  lastParsed : lastTerm
}.

Definition seqOf (ts : list regex) : regex :=
  fold_left (fun acc t => match acc with REmpty => t | _ => RSeq t acc end)
            ts REmpty.

Definition closeFrame (f : frame) : regex :=
  fold_left (fun acc a => RAlt a acc) (alts f) (seqOf (terms f)).

Definition pushTerm (t : regex) (k : lastTerm) (st : pstate) : pstate :=
  mkPstate (mkFrame (alts (cur st)) (t :: terms (cur st)))
           (stack st) (ngroups st) k.

Definition quantify (min : nat) (max : option nat) (st : pstate) : pstate :=
  match terms (cur st) with
  | t :: ts =>
      mkPstate (mkFrame (alts (cur st)) (RRep min max t :: ts))
               (stack st) (ngroups st) Quantified
  | [] => st
  end.

Definition syntaxError (what : string) : string :=
  "SyntaxError: Invalid regular expression: " +:+ what.

Fixpoint parsePattern (s : string) (st : pstate) : result (regex * nat) :=
  match s with
  | EmptyString =>
      match stack st with
      | [] => Ok (closeFrame (cur st), ngroups st)
      | _ :: _ => Throw (syntaxError "Unterminated group")
      end
  | String c s' =>
      if Ascii.eqb c "\" then
        match s' with
        | EmptyString => Throw (syntaxError "\ at end of pattern")
        | String d s'' =>
            if isSyntaxChar d then parsePattern s'' (pushTerm (RChar d) Atom st)
            else Unmodelled
        end
      else if Ascii.eqb c "(" then
        match s' with
        | String "?" _ => Unmodelled
        | _ =>
            parsePattern s'
              (mkPstate (mkFrame [] [])
                        ((cur st, S (ngroups st)) :: stack st)
                        (S (ngroups st)) NotQuantifiable)
        end
      else if Ascii.eqb c ")" then
        match stack st with
        | [] => Throw (syntaxError "Unmatched ')'")
        | (outer, idx) :: outers =>
            parsePattern s'
              (mkPstate
                 (mkFrame (alts outer)
                          (RGroup idx (closeFrame (cur st)) :: terms outer))
                 outers (ngroups st) Atom)
        end
      else if Ascii.eqb c "|" then
        parsePattern s'
          (mkPstate (mkFrame (seqOf (terms (cur st)) :: alts (cur st)) [])
                    (stack st) (ngroups st) NotQuantifiable)
      else if Ascii.eqb c "*" || Ascii.eqb c "+" || Ascii.eqb c "?" then
        match lastParsed st with
        | Atom =>
            parsePattern s'
              (if Ascii.eqb c "*" then quantify 0 None st
               else if Ascii.eqb c "+" then quantify 1 None st
               else quantify 0 (Some 1%nat) st)
        | Quantified =>
            if Ascii.eqb c "?" then Unmodelled
            else Throw (syntaxError "Nothing to repeat")
        | NotQuantifiable => Throw (syntaxError "Nothing to repeat")
        end
      else if Ascii.eqb c "." then parsePattern s' (pushTerm RAny Atom st)
      else if Ascii.eqb c "^" then
        parsePattern s' (pushTerm RBol NotQuantifiable st)
      else if Ascii.eqb c "$" then
        parsePattern s' (pushTerm REol NotQuantifiable st)
      else if Ascii.eqb c "[" || Ascii.eqb c "]" || isBrace c then Unmodelled
      else parsePattern s' (pushTerm (RChar c) Atom st)
  end.

(** A compiled pattern: its syntax tree and its number of groups. *)
Record RegExp : Type := mkRegExp { tree : regex; groupCount : nat }.

(** [new RegExp(src, 'g')] *)
Definition compile (src : string) : result RegExp :=
  p <- parsePattern src (mkPstate (mkFrame [] []) [] O NotQuantifiable) ;;;
  Ok (mkRegExp (fst p) (snd p)).

(** The state of a match: the end index, the text from there on, and for
    each group the interval it captured. *)
Record mstate : Type := mkMstate {
  endIndex : nat;
  remaining : string;
  captures : list (option (nat * nat))
}.

Fixpoint groupsIn (r : regex) : list nat :=
  match r with
  | RSeq r1 r2 | RAlt r1 r2 => groupsIn r1 ++ groupsIn r2
  | RRep _ _ r' => groupsIn r'
  | RGroup i r' => i :: groupsIn r'
  | _ => []
  end.

Definition clearCaptures (gs : list nat) (caps : list (option (nat * nat)))
  : list (option (nat * nat)) :=
  fold_left (fun acc i => <[pred i := None]> acc) gs caps.

Definition isLineTerminator (c : ascii) : bool :=
  Ascii.eqb c LF || Ascii.eqb c (ascii_of_nat 13).

(** The backtracking matcher of the language definition, in continuation
    style: [matcher r x c] matches [r] at [x] and hands every end state to
    [c], the first success winning.  A repetition clears the captures of its
    body before each iteration and rejects an iteration that consumes
    nothing once the minimum is reached. *)
Fixpoint matcher (r : regex) (x : mstate) (c : mstate -> option mstate)
  {struct r} : option mstate :=
  match r with
  | REmpty => c x
  | RChar ch =>
      match remaining x with
      | String a s' =>
          if Ascii.eqb a ch then c (mkMstate (S (endIndex x)) s' (captures x))
          else None
      | EmptyString => None
      end
  | RAny =>
      match remaining x with
      | String a s' =>
          if isLineTerminator a then None
          else c (mkMstate (S (endIndex x)) s' (captures x))
      | EmptyString => None
      end
  | RBol => if Nat.eqb (endIndex x) 0 then c x else None
  | REol => if isEmpty (remaining x) then c x else None
  | RSeq r1 r2 => matcher r1 x (fun y => matcher r2 y c)
  | RAlt r1 r2 =>
      match matcher r1 x c with
      | Some z => Some z
      | None => matcher r2 x c
      end
  | RGroup i r' =>
      matcher r' x
        (fun y =>
           c (mkMstate (endIndex y) (remaining y)
                (<[pred i := Some (endIndex x, endIndex y)]> (captures y))))
  | RRep min max r' =>
      (fix iterate (fuel min : nat) (max : option nat) (x : mstate)
         {struct fuel} : option mstate :=
         match fuel with
         | O => None
         | S fuel' =>
             match max with
             | Some O => c x
             | _ =>
                 let d := fun y =>
                   if Nat.eqb min 0 && Nat.eqb (endIndex y) (endIndex x)
                   then None
                   else iterate fuel' (pred min) (option_map pred max) y in
                 let xr :=
                   mkMstate (endIndex x) (remaining x)
                            (clearCaptures (groupsIn r') (captures x)) in
                 if Nat.eqb min 0 then
                   match matcher r' xr d with
                   | Some z => Some z
                   | None => c x
                   end
                 else matcher r' xr d
             end
         end) (min + String.length (remaining x) + 1)%nat min max x
  end.

(** The leftmost match starting at index [p] or later; [s] is the text from
    [p] on. *)
Fixpoint searchFrom (re : RegExp) (p : nat) (s : string)
  : option (nat * mstate) :=
  match matcher (tree re)
          (mkMstate p s (replicate (groupCount re) None)) Some with
  | Some y => Some (p, y)
  | None =>
      match s with
      | String _ s' => searchFrom re (S p) s'
      | EmptyString => None
      end
  end.

Definition slice (from to : nat) (s : string) : string :=
  takeChars (to - from) (dropChars from s).

(** GetSubstitution: the replacement text for one match, where a dollar sign
    in the template introduces the match, the text around it, or a group. *)
Fixpoint substitute (template matched whole : string) (position : nat)
  (caps : list (option (nat * nat))) : string :=
  let group (i : nat) : string :=
    match caps !! pred i with
    | Some (Some (a, b)) => slice a b whole
    | _ => EmptyString
    end in
  let valid (i : nat) : bool := (1 <=? i)%nat && (i <=? length caps)%nat in
  match template with
  | EmptyString => EmptyString
  | String c t =>
      if negb (Ascii.eqb c "$") then
        String c (substitute t matched whole position caps)
      else
        match t with
        | EmptyString => str1 "$"
        | String d t' =>
            if Ascii.eqb d "$" then
              String "$" (substitute t' matched whole position caps)
            else if Ascii.eqb d "&" then
              matched +:+ substitute t' matched whole position caps
            else if Ascii.eqb d "`" then
              takeChars position whole
              +:+ substitute t' matched whole position caps
            else if Ascii.eqb d squote then
              dropChars (position + String.length matched) whole
              +:+ substitute t' matched whole position caps
            else if isDigit d then
              let i1 := N.to_nat (digitVal d) in
              match t' with
              | String d2 t'' =>
                  let i2 := (10 * i1 + N.to_nat (digitVal d2))%nat in
                  if isDigit d2 && (i2 <=? length caps)%nat then
                    (if valid i2 then group i2
                     else String "$" (String d (str1 d2)))
                    +:+ substitute t'' matched whole position caps
                  else
                    (if valid i1 then group i1 else String "$" (str1 d))
                    +:+ substitute t' matched whole position caps
              | EmptyString =>
                  if valid i1 then group i1 else String "$" (str1 d)
              end
            else String "$" (substitute t matched whole position caps)
        end
  end.

Fixpoint replaceAllFrom (fuel : nat) (re : RegExp) (whole : string) (p : nat)
  (s template : string) : string :=
  match fuel with
  | O => s
  | S fuel' =>
      match searchFrom re p s with
      | None => s
      | Some (start, y) =>
          let before := takeChars (start - p) s in
          let matched := slice start (endIndex y) whole in
          let replacement :=
            substitute template matched whole start (captures y) in
          if Nat.eqb (endIndex y) start then
            match remaining y with
            | EmptyString => before +:+ replacement
            | String ch s' =>
                before +:+ replacement
                +:+ String ch
                      (replaceAllFrom fuel' re whole (S start) s' template)
            end
          else
            before +:+ replacement
            +:+ replaceAllFrom fuel' re whole (endIndex y) (remaining y)
                  template
      end
  end.

(** [s.replace(re, template)] for a pattern [re] with the global flag. *)
Definition replaceRegExp (re : RegExp) (s template : string) : string :=
  replaceAllFrom (String.length s + 2) re s O s template.

Fixpoint findIndex (s sub : string) (i : nat) : option nat :=
  if startsWith s sub then Some i
  else match s with
       | EmptyString => None
       | String _ s' => findIndex s' sub (S i)
       end.

(** [s.replace(pattern, template)] for a string [pattern]: the first
    occurrence only, with the dollar forms of the template but no groups. *)
Definition replaceString (s pattern template : string) : string :=
  match findIndex s pattern O with
  | None => s
  | Some i =>
      takeChars i s
      +:+ substitute template pattern s i []
      +:+ dropChars (i + String.length pattern) s
  end.

(* ===================================================================== *)
(** ** JSON documents *)

(** A value produced by [JSON.parse]. *)
#[warnings="-register-all"]
Inductive Json : Type :=
| JNull
| JBool (b : bool)
| JNumber (n : number)
| JString (s : string)
| JArray (items : list Json)
| JObject (fields : gmap string Json).

Definition jsonSyntaxError : string := "SyntaxError: Unexpected token in JSON".

Definition isJsonSpace (c : ascii) : bool :=
  let n := code c in ((n =? 32) || (n =? 9) || (n =? 10) || (n =? 13))%N.

Fixpoint skipSpace (s : string) : string :=
  match s with
  | String c s' => if isJsonSpace c then skipSpace s' else s
  | EmptyString => EmptyString
  end.

(** The code unit of a [\u] escape with hexadecimal digits [h1 h2 h3 h4]; a
    code unit above U+00FF is outside the character model. *)
Definition unicodeEscape (h1 h2 h3 h4 : ascii) : result ascii :=
  match foldRadix 16 (String h1 (String h2 (String h3 (str1 h4)))) 0%N with
  | Some n => if (n <? 256)%N then Ok (ascii_of_N n) else Unmodelled
  | None => Throw jsonSyntaxError
  end.

(** The characters of a string literal after its opening quote. *)
Fixpoint parseStringBody (s : string) : result (string * string) :=
  match s with
  | EmptyString => Throw jsonSyntaxError
  | String c s' =>
      if Ascii.eqb c dquote then Ok (EmptyString, s')
      else if Ascii.eqb c "\" then
        match s' with
        | EmptyString => Throw jsonSyntaxError
        | String e s'' =>
            let simple (ch : ascii) :=
              p <- parseStringBody s'' ;;; Ok (String ch (fst p), snd p) in
            if Ascii.eqb e dquote || Ascii.eqb e "\" || Ascii.eqb e "/"
            then simple e
            else if Ascii.eqb e "b" then simple (ascii_of_nat 8)
            else if Ascii.eqb e "f" then simple (ascii_of_nat 12)
            else if Ascii.eqb e "n" then simple LF
            else if Ascii.eqb e "r" then simple (ascii_of_nat 13)
            else if Ascii.eqb e "t" then simple TAB
            else if Ascii.eqb e "u" then
              match s'' with
              | String h1 (String h2 (String h3 (String h4 r))) =>
                  ch <- unicodeEscape h1 h2 h3 h4 ;;;
                  p <- parseStringBody r ;;; Ok (String ch (fst p), snd p)
              | _ => Throw jsonSyntaxError
              end
            else Throw jsonSyntaxError
        end
      else if (code c <? 32)%N then Throw jsonSyntaxError
      else p <- parseStringBody s' ;;; Ok (String c (fst p), snd p)
  end.

(** A number literal of the JSON grammar: an optional minus, an integer part
    without a superfluous leading zero, an optional fraction and an optional
    exponent. *)
Definition parseJsonNumber (s : string) : result (number * string) :=
  let '(neg, r0) :=
    match s with
    | String "-" t => (true, t)
    | _ => (false, s)
    end in
  let (ip, r1) := spanDigits r0 in
  if isEmpty ip || (startsWith ip "0" && negb (Nat.eqb (String.length ip) 1))
  then Throw jsonSyntaxError
  else
    let '(fp, r2, fractionOk) :=
      match r1 with
      | String "." t => let (f, r) := spanDigits t in (f, r, negb (isEmpty f))
      | _ => (EmptyString, r1, true)
      end in
    let '(x, r3, exponentOk) :=
      match r2 with
      | String c t =>
          if Ascii.eqb c "e" || Ascii.eqb c "E" then
            let '(eneg, t') :=
              match t with
              | String "+" u => (false, u)
              | String "-" u => (true, u)
              | _ => (false, t)
              end in
            let (d, r) := spanDigits t' in
            (if eneg then - Z.of_N (digitsToN d) else Z.of_N (digitsToN d),
             r, negb (isEmpty d))
          else (0, r2, true)
      | EmptyString => (0, r2, true)
      end in
    if fractionOk && exponentOk then
      let m := Z.of_N (digitsToN (ip +:+ fp)) in
      Ok (Fin (if neg then - m else m) (x - Z.of_nat (String.length fp)), r3)
    else Throw jsonSyntaxError.

(** One JSON value at the head of [s], and the text after it.  [fuel] bounds
    the number of nested calls; [parseJson] supplies enough of it. *)
Fixpoint parseValue (fuel : nat) (s : string) : result (Json * string) :=
  match fuel with
  | O => Unmodelled
  | S fuel' =>
      match skipSpace s with
      | EmptyString => Throw jsonSyntaxError
      | (String c r) as t =>
          if Ascii.eqb c "{" then
            match skipSpace r with
            | String "}" r' => Ok (JObject ∅, r')
            | r1 => parseMembers fuel' r1 ∅
            end
          else if Ascii.eqb c "[" then
            match skipSpace r with
            | String "]" r' => Ok (JArray [], r')
            | r1 => parseElements fuel' r1 []
            end
          else if Ascii.eqb c dquote then
            p <- parseStringBody r ;;; Ok (JString (fst p), snd p)
          else if startsWith t "true" then Ok (JBool true, dropChars 4 t)
          else if startsWith t "false" then Ok (JBool false, dropChars 5 t)
          else if startsWith t "null" then Ok (JNull, dropChars 4 t)
          else p <- parseJsonNumber t ;;; Ok (JNumber (fst p), snd p)
      end
  end
with parseElements (fuel : nat) (s : string) (acc : list Json)
  : result (Json * string) :=
  match fuel with
  | O => Unmodelled
  | S fuel' =>
      p <- parseValue fuel' s ;;;
      match skipSpace (snd p) with
      | String "," r => parseElements fuel' r (fst p :: acc)
      | String "]" r => Ok (JArray (rev (fst p :: acc)), r)
      | _ => Throw jsonSyntaxError
      end
  end
with parseMembers (fuel : nat) (s : string) (acc : gmap string Json)
  : result (Json * string) :=
  match fuel with
  | O => Unmodelled
  | S fuel' =>
      match skipSpace s with
      | String c r =>
          if Ascii.eqb c dquote then
            k <- parseStringBody r ;;;
            match skipSpace (snd k) with
            | String ":" r1 =>
                p <- parseValue fuel' r1 ;;;
                match skipSpace (snd p) with
                | String "," r2 =>
                    parseMembers fuel' r2 (<[fst k := fst p]> acc)
                | String "}" r2 => Ok (JObject (<[fst k := fst p]> acc), r2)
                | _ => Throw jsonSyntaxError
                end
            | _ => Throw jsonSyntaxError
            end
          else Throw jsonSyntaxError
      | EmptyString => Throw jsonSyntaxError
      end
  end.

(** [JSON.parse(text)] *)
Definition parseJson (text : string) : result Json :=
  p <- parseValue (2 * String.length text + 2) text ;;;
  if isEmpty (skipSpace (snd p)) then Ok (fst p) else Throw jsonSyntaxError.

(** A text written with single quotes where JSON has double quotes, to
    write documents down readably. *)
Fixpoint jsonText (s : string) : string :=
  match s with
  | EmptyString => EmptyString
  | String c s' =>
      String (if Ascii.eqb c squote then dquote else c) (jsonText s')
  end.

(* ===================================================================== *)
(** ** The component [Home]: parsers *)

Definition valueToJson (v : Value) : Json :=
  match v with
  | VNull => JNull
  | VNum n => JNumber n
  | VStr s => JString s
  end.

Definition rowToJson (row : Row) : Json := JObject (valueToJson <$> row).

(** The scalar rows of a loaded array; [None] when an element is no object
    or a field is no scalar of the row model. *)
Definition jsonToValue (j : Json) : option Value :=
  match j with
  | JNull => Some VNull
  | JNumber n => Some (VNum n)
  | JString s => Some (VStr s)
  | _ => None
  end.

Definition jsonToRow (j : Json) : option Row :=
  match j with
  | JObject fields =>
      if bool_decide (map_Forall (fun _ f => is_Some (jsonToValue f)) fields)
      then Some (omap jsonToValue fields)
      else None
  | _ => None
  end.

Definition rowsOf (data : list Json) : option JsonData := mapM jsonToRow data.

(** The state of the loop of [parseCsvLine]. *)
Record csvScan : Type := mkCsvScan {
  scanned : list string;   (* [result], the latest token first *)
  current : string;
  inQuotes : bool
}.

Definition csvStep (st : csvScan) (char : ascii) : csvScan :=
  if Ascii.eqb char dquote then
    mkCsvScan (scanned st) (current st) (negb (inQuotes st))
  else if Ascii.eqb char "," && negb (inQuotes st) then
    mkCsvScan (trim (current st) :: scanned st) EmptyString (inQuotes st)
  else
    mkCsvScan (scanned st) (current st +:+ str1 char) (inQuotes st).

Fixpoint csvLoop (line : string) (st : csvScan) : csvScan :=
  match line with
  | EmptyString => st
  | String char line' => csvLoop line' (csvStep st char)
  end.

(** [parseCsvLine(line)] *)
Definition parseCsvLine (line : string) : list string :=
  let st := csvLoop line (mkCsvScan [] EmptyString false) in
  rev (trim (current st) :: scanned st).

(** The coercion of one CSV token, the callback of [parseCsvLine(line).map]. *)
Definition coerceCsvValue (value : string) : Value :=
  let value := stripSurroundingQuotes value in
  if isEmpty value || String.eqb (toLowerCase value) "null" then VNull
  else
    let num := StringToNumber value in
    if negb (isNaN num) && negb (isEmpty value) then VNum num else VStr value.

(** The coercion of one TSV token, the callback of [line.split('\t').map]. *)
Definition coerceTsvValue (value : string) : Value :=
  let value := trim value in
  if isEmpty value || String.eqb (toLowerCase value) "null" then VNull
  else
    let num := StringToNumber value in
    if negb (isNaN num) && negb (isEmpty value) then VNum num else VStr value.

(** [headers.forEach((header, index) => { row[header] = values[index] })]
    from the empty object.  An assignment creates or overwrites an own
    property of the row, except under the name [__proto__] while the row
    still inherits from [Object.prototype]: there it runs the inherited
    setter, which adds no property and, when the value is null, detaches the
    row from its prototype.  [inherits] tells whether the row still has its
    prototype; the values are null, numbers or strings. *)
Fixpoint buildRow (headers : list string) (values : list Value) (row : Row)
  (inherits : bool) : Row :=
  match headers, values with
  | header :: headers', value :: values' =>
      if String.eqb header "__proto__" && inherits then
        buildRow headers' values' row
                 (match value with VNull => false | _ => true end)
      else buildRow headers' values' (<[header := value]> row) inherits
  | _, _ => row
  end.

(** The loop over the data lines, shared in shape by both parsers: blank
    lines and lines of the wrong arity add no row. *)
Fixpoint dataRows (tokens : string -> list Value) (headers : list string)
  (lines : list string) : JsonData :=
  match lines with
  | [] => []
  | l :: lines' =>
      let line := trim l in
      if isEmpty line then dataRows tokens headers lines'
      else
        let values := tokens line in
        if Nat.eqb (length values) (length headers)
        then buildRow headers values ∅ true :: dataRows tokens headers lines'
        else dataRows tokens headers lines'
  end.

Definition csvHeaders (line : string) : list string :=
  map removeQuotes (parseCsvLine line).

(** [parseCSV(csvText)] *)
Definition parseCSV (csvText : string) : result JsonData :=
  let lines := split LF (trim csvText) in
  match lines with
  | first :: second :: more =>
      let headers := csvHeaders first in
      Ok (dataRows (fun line => map coerceCsvValue (parseCsvLine line))
                   headers (second :: more))
  | _ => Throw "CSV must have at least a header row and one data row"
  end.

(** [parseTSV(tsvText)] *)
Definition parseTSV (tsvText : string) : result JsonData :=
  let lines := split LF (trim tsvText) in
  match lines with
  | first :: second :: more =>
      let headers := map trim (split TAB first) in
      Ok (dataRows (fun line => map coerceTsvValue (split TAB line))
                   headers (second :: more))
  | _ => Throw "Data must have at least a header row and one data row"
  end.

(* ===================================================================== *)
(** ** The component [Home]: validation and the load handlers *)

(** [validateJson(data)] *)
Definition validateJson (data : Json) : list string :=
  match data with
  | JArray [] => ["JSON array cannot be empty"]
  | JArray (JArray _ :: _) | JArray (JObject _ :: _) => []
  | JArray (_ :: _) => ["Array elements must be objects"]
  | _ => ["JSON must be an array of objects"]
  end.

Inductive TabType : Type := all | without_null | with_null | batch.

Record SqlTab : Type := mkSqlTab {
  id : string;
  name : string;
  script : string;
  rowCount : nat;
  type : TabType
}.

(** The state of the component that the engine reads and writes. *)
Record State : Type := mkState {
  jsonData : option (list Json);
  sqlTabs : list SqlTab;
  activeTab : nat;
  errors : list string;
  fileName : string;
  isLoading : bool
}.

(** [parseDataText(text)]: JSON first; otherwise TSV when the text has a tab
    and CSV when it has none. *)
Definition parseDataText (text : string) : result Json :=
  match parseJson text with
  | Ok (JArray items) => Ok (JArray items)
  | Ok j => Ok (JArray [j])
  | Throw _ =>
      if includes text (str1 TAB)
      then rows <- parseTSV text ;;; Ok (JArray (map rowToJson rows))
      else rows <- parseCSV text ;;; Ok (JArray (map rowToJson rows))
  | Unmodelled => Unmodelled
  end.

(** The body shared by the two handlers after parsing: the [try] block from
    [validateJson] on, its [catch] and its [finally].  [st] already has the
    updates made before the [try]. *)
Definition finishLoad (label : string) (parsed : result Json) (st : State)
  : result State :=
  match parsed with
  | Ok processedData =>
      let validationErrors := validateJson processedData in
      match validationErrors, processedData with
      | [], JArray items =>
          Ok (mkState (Some items) [] O (errors st) (fileName st) false)
      | _, _ =>
          Ok (mkState None (sqlTabs st) (activeTab st) validationErrors
                      (fileName st) false)
      end
  | Throw msg =>
      Ok (mkState None (sqlTabs st) (activeTab st) [label +:+ msg]
                  (fileName st) false)
  | Unmodelled => Unmodelled
  end.

(** [processManualData()] with [manualData] the pasted text. *)
Definition processManualData (manualData : string) (st : State)
  : result State :=
  if isEmpty (trim manualData) then
    Ok (mkState (jsonData st) (sqlTabs st) (activeTab st)
                ["Please enter some data"] (fileName st) (isLoading st))
  else
    finishLoad "Invalid data format: " (parseDataText manualData)
      (mkState (jsonData st) (sqlTabs st) (activeTab st) [] "Manual Input"
               true).

(** A dropped file, read as text. *)
Record File : Type := mkFile { file_name : string; file_text : string }.

(** [data.collectPoints && Array.isArray(data.collectPoints)] selects the
    array under the key [collectPoints]; reading a property of [null]
    raises. *)
Definition unwrapCollectPoints (data : Json) : result Json :=
  match data with
  | JNull => Throw "TypeError: Cannot read properties of null"
  | JObject fields =>
      match fields !! "collectPoints" with
      | Some (JArray items) => Ok (JArray items)
      | _ => Ok data
      end
  | _ => Ok data
  end.

(** [onDrop(acceptedFiles)] together with the [onload] callback of the
    reader it starts. *)
Definition onDrop (acceptedFiles : list File) (st : State) : result State :=
  match acceptedFiles with
  | [] => Ok st
  | file :: _ =>
      let lower := toLowerCase (file_name file) in
      let text := file_text file in
      let parsed :=
        if endsWith lower ".csv" then
          rows <- parseCSV text ;;; Ok (JArray (map rowToJson rows))
        else if endsWith lower ".tsv" || endsWith lower ".txt" then
          rows <- parseTSV text ;;; Ok (JArray (map rowToJson rows))
        else
          data <- parseJson text ;;; unwrapCollectPoints data in
      finishLoad "Invalid file format: " parsed
        (mkState (jsonData st) (sqlTabs st) (activeTab st) []
                 (file_name file) true)
  end.

(* ===================================================================== *)
(** ** The component [Home]: the placeholder engine *)

(** [s.match(/\{([^}]+)\}/g) || []]: from each opening brace the longest
    run without a closing brace, when it is not empty and a closing brace
    follows.  [opened] is the run read since the pending opening brace. *)
Fixpoint scanSingle (s : string) (opened : option string) : list string :=
  match s with
  | EmptyString => []
  | String c s' =>
      match opened with
      | None =>
          scanSingle s' (if Ascii.eqb c "{" then Some EmptyString else None)
      | Some run =>
          if Ascii.eqb c "}" then
            if isEmpty run then scanSingle s' None
            else (str1 "{" +:+ run +:+ str1 "}") :: scanSingle s' None
          else scanSingle s' (Some (run +:+ str1 c))
      end
  end.

Definition singleCurlyMatches (s : string) : list string := scanSingle s None.

Inductive doubleScan : Type :=
| Outside
| OneBrace
| Inside (run : string)
| Closing (run : string).

(** [s.match(/\{\{([^}]+)\}\}/g) || []]: two opening braces, the longest
    run without a closing brace, not empty, and two closing braces. *)
Fixpoint scanDouble (s : string) (st : doubleScan) : list string :=
  match s with
  | EmptyString => []
  | String c s' =>
      let restart := if Ascii.eqb c "{" then OneBrace else Outside in
      match st with
      | Outside => scanDouble s' restart
      | OneBrace =>
          scanDouble s' (if Ascii.eqb c "{" then Inside EmptyString else Outside)
      | Inside run =>
          if Ascii.eqb c "}" then
            scanDouble s' (if isEmpty run then Outside else Closing run)
          else scanDouble s' (Inside (run +:+ str1 c))
      | Closing run =>
          if Ascii.eqb c "}" then
            ("{{" +:+ run +:+ "}}") :: scanDouble s' Outside
          else scanDouble s' restart
      end
  end.

Definition doubleCurlyMatches (s : string) : list string :=
  scanDouble s Outside.

Fixpoint startsWithIgnoreCase (s p : string) : bool :=
  match p, s with
  | EmptyString, _ => true
  | String a p', String b s' =>
      Ascii.eqb (lowerChar a) (lowerChar b) && startsWithIgnoreCase s' p'
  | String _ _, EmptyString => false
  end.

(** The text before the last occurrence of [ch]. *)
Fixpoint beforeLast (ch : ascii) (s : string) : option string :=
  match s with
  | EmptyString => None
  | String c s' =>
      match beforeLast ch s' with
      | Some t => Some (String c t)
      | None => if Ascii.eqb c ch then Some EmptyString else None
      end
  end.

(** The VALUES pattern of the source (flags [i] and [s]) anchored at the
    head of [s]: the word in any case, white space, an opening parenthesis,
    and as group everything up to the last closing parenthesis of the
    text. *)
Definition valuesAt (s : string) : option string :=
  if startsWithIgnoreCase s "VALUES" then
    match trimStart (dropChars 6 s) with
    | String "(" body => beforeLast ")" body
    | _ => None
    end
  else None.

(** [s.match] with the VALUES pattern: the index of the leftmost match and
    its group. *)
Fixpoint valuesMatchFrom (s : string) (i : nat) : option (nat * string) :=
  match valuesAt s with
  | Some group => Some (i, group)
  | None =>
      match s with
      | EmptyString => None
      | String _ s' => valuesMatchFrom s' (S i)
      end
  end.

Definition valuesMatch (s : string) : option (nat * string) :=
  valuesMatchFrom s O.

(** [validateSqlTemplate(template)] *)
Definition validateSqlTemplate (template : string) : list string :=
  if isEmpty (trim template) then ["SQL template cannot be empty"]
  else if negb (Nat.eqb (length (doubleCurlyMatches template)) 0) then []
  else
    (if includes (toLowerCase template) "insert into"
        && negb (includes (toLowerCase template) "values")
     then ["INSERT statements must contain 'VALUES' clause"] else [])
    ++
    (if includes (toLowerCase template) "insert into" then
       match valuesMatch template with
       | None => ["Invalid VALUES clause format. Use: VALUES ({placeholder})"]
       | Some _ => []
       end
     else []).

(** The values of [key] for an aggregate token: those of all rows, without
    null and undefined, each kept at its first occurrence, as SQL text.
    The read [row[key]] is [row !! key], the value of the row itself: this
    is the code for every key outside [objectPrototypeKeys]. *)
Definition aggregateValues (jsonData : JsonData) (key : string) : list string :=
  let arr := map (fun row : Row => row !! key) jsonData in
  map (fun value : unknown =>
         match value with
         | Some (VStr s) => sqlQuote s
         | _ => ToString value
         end)
      (filterIndexed
         (fun value index =>
            notNullish value
            && match indexOf arr value with
               | Some i => Nat.eqb i index
               | None => false
               end)
         O arr).

(** The loop [doubleCurlyMatches.forEach] that builds the script of the tab
    ALL, from [processedTemplate = sqlTemplate]. *)
Definition allScript (jsonData : JsonData) (sqlTemplate : string)
  (matches : list string) : string :=
  fold_left
    (fun processedTemplate placeholder =>
       let key := removeDoubleBraces placeholder in
       let allValues := aggregateValues jsonData key in
       replaceString processedTemplate placeholder (join "," allValues))
    matches sqlTemplate.

(** The loop [doubleCurlyMatches.forEach] that builds the script of the tab
    without NULL values, from [withoutNullTemplate = sqlTemplate]. *)
Definition withoutNullScript (jsonData : JsonData) (sqlTemplate : string)
  (matches : list string) : string :=
  fold_left
    (fun withoutNullTemplate placeholder =>
       let key := removeDoubleBraces placeholder in
       let valuesWithoutNull := aggregateValues jsonData key in
       replaceString withoutNullTemplate placeholder
         (join "," valuesWithoutNull))
    matches sqlTemplate.

(** [doubleCurlyMatches.some(p => jsonData.some(row => row[key] is neither
    null nor undefined))], with [row[key]] read as [row !! key] (the code
    for every key outside [objectPrototypeKeys]). *)
Definition hasNonNullValues (jsonData : JsonData) (matches : list string)
  : bool :=
  existsb
    (fun placeholder =>
       let key := removeDoubleBraces placeholder in
       existsb (fun row : Row => notNullish (row !! key)) jsonData)
    matches.

(** The row filter of the count of the tab without NULL values, with
    [row[key]] read as [row !! key]. *)
Definition allKeysPresent (matches : list string) (row : Row) : bool :=
  forallb
    (fun placeholder =>
       let key := removeDoubleBraces placeholder in
       notNullish (row !! key))
    matches.

(** The aggregate branch of [generateSqlScript]. *)
Definition aggregateTabs (jsonData : JsonData) (sqlTemplate : string)
  (matches : list string) : list SqlTab :=
  let tabs :=
    [mkSqlTab "all" "ALL" (allScript jsonData sqlTemplate matches)
              (length jsonData) all] in
  if hasNonNullValues jsonData matches then
    tabs ++
    [mkSqlTab "without-null" "Without NULL values"
              (withoutNullScript jsonData sqlTemplate matches)
              (length (List.filter (allKeysPresent matches) jsonData))
              without_null]
  else tabs.

(** What a run of the engine hands to the component: an error list for
    [setErrors], or the tabs for [setSqlTabs]. *)
Inductive Update : Type :=
| SetErrors (messages : list string)
| SetSqlTabs (tabs : list SqlTab).

Definition commaNewline : string := "," +:+ str1 LF.
Definition valuesNewline : string := "VALUES" +:+ str1 LF.

(** The callback of [placeholders.forEach] in the ALL, batch and statement
    paths: only [undefined] becomes NULL; the pattern is rebuilt from the
    placeholder text with its braces escaped.  The read [row[key]] is
    [row !! key], the value of the row itself: this is the code for every
    key outside [objectPrototypeKeys]. *)
Definition substitutePlaceholder (row : Row) (processedRow placeholder : string)
  : result string :=
  let key := removeBraces placeholder in
  let replacementValue :=
    match row !! key with
    | None => "NULL"
    | Some (VStr s) => sqlQuote s
    | Some v => ToString (Some v)
    end in
  re <- compile (escapeBraces placeholder) ;;;
  Ok (replaceRegExp re processedRow replacementValue).

(** The callback of [jsonData.map] for the ALL and batch scripts. *)
Definition renderRow (rowTemplate : string) (row : Row) : result string :=
  let placeholders := singleCurlyMatches rowTemplate in
  processedRow <-
    foldResult (substitutePlaceholder row) placeholders rowTemplate ;;;
  Ok ("(" +:+ processedRow +:+ ")").

(** The callback of [placeholders.forEach] in the split by NULL: [undefined]
    and [null] both become NULL and set [hasNull].  The read [row[key]] is
    [row !! key], as in [substitutePlaceholder]. *)
Definition substituteTracking (row : Row) (acc : string * bool)
  (placeholder : string) : result (string * bool) :=
  let '(processedRow, hasNull) := acc in
  let key := removeBraces placeholder in
  let '(replacementValue, hasNull) :=
    match row !! key with
    | None | Some VNull => ("NULL", true)
    | Some (VStr s) => (sqlQuote s, hasNull)
    | Some v => (ToString (Some v), hasNull)
    end in
  re <- compile (escapeBraces placeholder) ;;;
  Ok (replaceRegExp re processedRow replacementValue, hasNull).

(** The callback of [jsonData.forEach] of the split: the row string and
    whether the row has a NULL. *)
Definition renderRowTracking (rowTemplate : string) (row : Row)
  : result (string * bool) :=
  let placeholders := singleCurlyMatches rowTemplate in
  p <- foldResult (substituteTracking row) placeholders (rowTemplate, false) ;;;
  Ok ("(" +:+ fst p +:+ ")", snd p).

(** The callback of [jsonData.map] for a template without the word
    [values]: the whole statement, no parentheses added. *)
Definition renderStatement (processedTemplate : string) (row : Row)
  : result string :=
  let placeholders := singleCurlyMatches processedTemplate in
  foldResult (substitutePlaceholder row) placeholders processedTemplate.

(** [arr.slice(start, end)]: a negative index counts from the end. *)
Definition arraySlice {A : Type} (arr : list A) (start finish : Z) : list A :=
  let len := Z.of_nat (length arr) in
  let k := if start <? 0 then Z.max (len + start) 0 else Z.min start len in
  let final :=
    if finish <? 0 then Z.max (len + finish) 0 else Z.min finish len in
  take (Z.to_nat (final - k)) (drop (Z.to_nat k) arr).

(** [Math.floor(i / batchSize) + 1] *)
Definition batchNumberOf (i batchSize : Z) : number :=
  if batchSize =? 0 then (if i =? 0 then NaN else Infinity (i <? 0))
  else Fin (i / batchSize + 1) 0.

Definition batchTab (insertStatement : string) (batchNumber : number)
  (batchValueRows : string) (count : nat) : SqlTab :=
  mkSqlTab ("batch-" +:+ numberToString batchNumber)
           ("Batch " +:+ numberToString batchNumber)
           (insertStatement +:+ batchValueRows) count batch.

(** The loop [for (let i = 0; i < jsonData.length; i += batchSize)], run
    for at most [fuel] tests of its condition; [None] when the loop is still
    running after them. *)
Fixpoint batchLoop (fuel : nat) (jsonData : JsonData) (batchSize : Z)
  (insertStatement rowTemplate : string) (i : Z) (tabs : list SqlTab)
  : option (result (list SqlTab)) :=
  match fuel with
  | O => None
  | S fuel' =>
      if i <? Z.of_nat (length jsonData) then
        let batchData := arraySlice jsonData i (i + batchSize) in
        let batchNumber := batchNumberOf i batchSize in
        match mapResult (renderRow rowTemplate) batchData with
        | Ok rowStrings =>
            let batchValueRows := join commaNewline rowStrings in
            batchLoop fuel' jsonData batchSize insertStatement rowTemplate
              (i + batchSize)
              (if isEmpty batchValueRows then tabs
               else tabs ++ [batchTab insertStatement batchNumber
                                      batchValueRows (length batchData)])
        | Throw msg => Some (Throw msg)
        | Unmodelled => Some Unmodelled
        end
      else Some (Ok tabs)
  end.

(** The tabs ALL, without NULL values and with NULL values. *)
Definition initialTabs (insertStatement : string) (total : nat)
  (allRows : list string) (tracked : list (string * bool)) : list SqlTab :=
  let rowsWithoutNull :=
    map fst (List.filter (fun p : string * bool => negb (snd p)) tracked) in
  let rowsWithNull :=
    map fst (List.filter (fun p : string * bool => snd p) tracked) in
  [mkSqlTab "all" "ALL" (insertStatement +:+ join commaNewline allRows)
            total all]
  ++ (if Nat.ltb 0 (length rowsWithoutNull) then
        [mkSqlTab "without-null" "Without NULL values"
                  (insertStatement +:+ join commaNewline rowsWithoutNull)
                  (length rowsWithoutNull) without_null]
      else [])
  ++ (if Nat.ltb 0 (length rowsWithNull) then
        [mkSqlTab "with-null" "With NULL values"
                  (insertStatement +:+ join commaNewline rowsWithNull)
                  (length rowsWithNull) with_null]
      else []).

(** The statement kept in front of the rows: the template up to the match
    and the word VALUES for an INSERT, the word alone otherwise. *)
Definition insertStatementOf (processedTemplate : string) (index : nat)
  : string :=
  if includes (toLowerCase processedTemplate) "insert into"
  then takeChars index processedTemplate +:+ valuesNewline
  else valuesNewline.

(** [generateSqlTabs(processedTemplate)], reading [jsonData] and
    [batchSize]. *)
Definition generateSqlTabs (fuel : nat) (jsonData : JsonData) (batchSize : Z)
  (processedTemplate : string) : option (result Update) :=
  if includes (toLowerCase processedTemplate) "values" then
    match valuesMatch processedTemplate with
    | None | Some (_, EmptyString) =>
        Some (Ok (SetErrors
          ["Invalid SQL template. Could not find a 'VALUES (...)' clause."]))
    | Some (index, rowTemplate) =>
        let insertStatement := insertStatementOf processedTemplate index in
        match mapResult (renderRow rowTemplate) jsonData with
        | Ok allRows =>
            match mapResult (renderRowTracking rowTemplate) jsonData with
            | Ok tracked =>
                let tabs :=
                  initialTabs insertStatement (length jsonData) allRows
                              tracked in
                if batchSize <? Z.of_nat (length jsonData) then
                  match batchLoop fuel jsonData batchSize insertStatement
                          rowTemplate 0 tabs with
                  | Some (Ok tabs') => Some (Ok (SetSqlTabs tabs'))
                  | Some (Throw msg) => Some (Throw msg)
                  | Some Unmodelled => Some Unmodelled
                  | None => None
                  end
                else Some (Ok (SetSqlTabs tabs))
            | Throw msg => Some (Throw msg)
            | Unmodelled => Some Unmodelled
            end
        | Throw msg => Some (Throw msg)
        | Unmodelled => Some Unmodelled
        end
    end
  else
    match mapResult (renderStatement processedTemplate) jsonData with
    | Ok statements =>
        Some (Ok (SetSqlTabs
          [mkSqlTab "all" "ALL" (join (str1 LF) statements)
                    (length jsonData) all]))
    | Throw msg => Some (Throw msg)
    | Unmodelled => Some Unmodelled
    end.

(** [generateSqlScript()], reading [jsonData], [sqlTemplate] and
    [batchSize].  Without aggregate tokens the template goes to
    [generateSqlTabs] as it is. *)
Definition generateSqlScript (fuel : nat) (jsonData : option JsonData)
  (sqlTemplate : string) (batchSize : Z) : option (result Update) :=
  match jsonData with
  | None => Some (Ok (SetErrors ["JSON data is not loaded"]))
  | Some rows =>
      match validateSqlTemplate sqlTemplate with
      | (_ :: _) as templateErrors => Some (Ok (SetErrors templateErrors))
      | [] =>
          let matches := doubleCurlyMatches sqlTemplate in
          if Nat.ltb 0 (length matches) then
            Some (Ok (SetSqlTabs (aggregateTabs rows sqlTemplate matches)))
          else generateSqlTabs fuel rows batchSize sqlTemplate
      end
  end.

(** The tab of a given kind, when the run produced tabs and one of them has
    that kind. *)
Definition tabOfType (t : TabType) (tabs : list SqlTab) : option SqlTab :=
  find (fun tab => match type tab, t with
                   | all, all | without_null, without_null
                   | with_null, with_null | batch, batch => true
                   | _, _ => false
                   end) tabs.

Definition batchTabs (tabs : list SqlTab) : list SqlTab :=
  List.filter (fun tab => match type tab with batch => true | _ => false end)
              tabs.

(** Consecutive chunks of [n] elements, the last one possibly shorter, by
    at most [fuel] cuts. *)
Fixpoint chunksOf {A : Type} (fuel n : nat) (l : list A) : list (list A) :=
  match fuel with
  | O => []
  | S fuel' =>
      match l with
      | [] => []
      | _ :: _ => take n l :: chunksOf fuel' n (drop n l)
      end
  end.

(** The row strings of a chunk whose rendering succeeds. *)
Definition renderedRows (rowTemplate : string) (chunk : JsonData)
  : list string :=
  match mapResult (renderRow rowTemplate) chunk with
  | Ok rowStrings => rowStrings
  | _ => []
  end.

(* ===================================================================== *)
(** ** Scenarios *)

Definition num (z : Z) : Value := VNum (Fin z 0).

(** The RowSet [[{id:1, name:'A'}, {id:2, name:null}]]. *)
Definition scenarioRows : JsonData :=
  [ {[ "id" := num 1; "name" := VStr "A" ]};
    {[ "id" := num 2; "name" := VNull ]} ].

Definition scenarioTemplate : string :=
  "INSERT INTO t (id,name) VALUES ({id},{name});".

Definition scenarioPrefix : string := "INSERT INTO t (id,name) " +:+ valuesNewline.

(** The RowSet [[{a:1}]]. *)
Definition oneRow : JsonData := [ {[ "a" := num 1 ]} ].

(** The RowSet [[{a:1, b:null}]]. *)
Definition halfNullRow : JsonData := [ {[ "a" := num 1; "b" := VNull ]} ].

(** The RowSet [[{a:1}, {a:2}]]. *)
Definition twoRows : JsonData := [ {[ "a" := num 1 ]}; {[ "a" := num 2 ]} ].

(** A JSON file whose document is an envelope around an array, under the
    key [items] and under the key [collectPoints]. *)
Definition itemsFile : File :=
  mkFile "data.json" (jsonText "{'items':[{'a':1}]}").

Definition collectPointsFile : File :=
  mkFile "data.json" (jsonText "{'collectPoints':[{'a':1}]}").

Definition emptyState : State := mkState None [] O [] EmptyString false.

(** A state with a RowSet loaded and a script generated from it. *)
Definition loadedState : State :=
  mkState (Some (map rowToJson oneRow))
          [mkSqlTab "all" "ALL" "SELECT 1" 1 all] O [] "rows.json" false.

Definition badPasteMessage : string :=
  "Invalid data format: CSV must have at least a header row and one data row".

(** [loadedState] after the text [x] was pasted and processed. *)
Definition afterBadPaste : State :=
  mkState None (sqlTabs loadedState) O [badPasteMessage] "Manual Input" false.

(* ===================================================================== *)
(** ** The component [Home]: building a template by clicks *)

Fixpoint countChar (ch : ascii) (s : string) : nat :=
  match s with
  | EmptyString => O
  | String c s' => (if Ascii.eqb c ch then 1 else 0) + countChar ch s'
  end.

(** [s.indexOf(ch)] for a one-character string; [None] is -1. *)
Fixpoint indexOfChar (ch : ascii) (s : string) : option nat :=
  match s with
  | EmptyString => None
  | String c s' =>
      if Ascii.eqb c ch then Some O
      else match indexOfChar ch s' with
           | Some i => Some (S i)
           | None => None
           end
  end.

(** The updater that [handlePlaceholderClick(key, event)] passes to
    [setSqlTemplate]; [isModifierHeld] is [event.ctrlKey || event.metaKey]
    and [prev] the template before the click. *)
Definition handlePlaceholderClick (key : string) (isModifierHeld : bool)
  (prev : string) : string :=
  let placeholder := "{" +:+ key +:+ "}" in
  if isModifierHeld then
    if isEmpty prev then placeholder
    else
      let openParens := countChar "(" prev in
      let closeParens := countChar ")" prev in
      let atEnd := prev +:+ " " +:+ placeholder in
      if Nat.eqb openParens 1 && Nat.eqb closeParens 1 then
        match indexOfChar ")" prev, indexOfChar "(" prev with
        | Some closeParenIndex, Some openParenIndex =>
            if Nat.ltb openParenIndex closeParenIndex then
              let beforeParen := takeChars closeParenIndex prev in
              let afterParen := dropChars closeParenIndex prev in
              let insideContent :=
                trim (slice (S openParenIndex) closeParenIndex prev) in
              let separator :=
                if isEmpty insideContent then EmptyString else ", " in
              beforeParen +:+ separator +:+ placeholder +:+ afterParen
            else atEnd
        | _, _ => atEnd
        end
      else atEnd
  else placeholder.

(* ===================================================================== *)
(** ** The component [Home]: template history *)

Module Templates.

Record TemplateHistory : Type := mkTemplateHistory {
  id : string;
  name : string;
  template : string;
  createdAt : string;
  lastUsed : string
}.

(** The state that the history functions read and write. *)
Record State : Type := mkState {
  templateHistory : list TemplateHistory;
  templateName : string;
  sqlTemplate : string;
  errors : list string;
  showHistory : bool
}.

(** [saveTemplate()]; [newId] is the result of [uuidv4()], [created] and
    [used] those of the two calls of [new Date().toISOString()]. *)
Definition saveTemplate (newId created used : string) (st : State) : State :=
  if isEmpty (trim (templateName st)) || isEmpty (trim (sqlTemplate st)) then
    mkState (templateHistory st) (templateName st) (sqlTemplate st)
            ["Template name and content are required"] (showHistory st)
  else
    let newTemplate :=
      mkTemplateHistory newId (trim (templateName st)) (sqlTemplate st)
                        created used in
    let updatedHistory :=
      newTemplate
      :: List.filter
           (fun t => negb (String.eqb (template t) (sqlTemplate st)))
           (templateHistory st) in
    mkState updatedHistory EmptyString (sqlTemplate st) [] (showHistory st).

(** [loadTemplate(template)]; [now i] is the time stamp read for the entry
    at index [i]. *)
Definition loadTemplate (now : nat -> string) (chosen : TemplateHistory)
  (st : State) : State :=
  let updatedHistory :=
    imap (fun i t =>
            if String.eqb (id t) (id chosen)
            then mkTemplateHistory (id t) (name t) (template t) (createdAt t)
                                   (now i)
            else t)
         (templateHistory st) in
  mkState updatedHistory (templateName st) (template chosen) (errors st) false.

(** [deleteTemplate(templateId)] *)
Definition deleteTemplate (templateId : string) (st : State) : State :=
  let updatedHistory :=
    List.filter (fun t => negb (String.eqb (id t) templateId))
                (templateHistory st) in
  mkState updatedHistory (templateName st) (sqlTemplate st) (errors st)
          (showHistory st).

End Templates.

(* ===================================================================== *)
(** ** Vocabulary of the properties *)

(** A data line that makes a row: not blank, and with as many tokens as
    there are headers. *)
Definition usableLine (tokens : string -> list Value) (headers : list string)
  (l : string) : bool :=
  negb (isEmpty (trim l))
  && Nat.eqb (length (tokens (trim l))) (length headers).

(** The value that the [onload] callback of [onDrop] parses the text of a
    dropped file to, by the extension of its name. *)
Definition parseFile (file : File) : result Json :=
  let lower := toLowerCase (file_name file) in
  let text := file_text file in
  if endsWith lower ".csv" then
    rows <- parseCSV text ;;; Ok (JArray (map rowToJson rows))
  else if endsWith lower ".tsv" || endsWith lower ".txt" then
    rows <- parseTSV text ;;; Ok (JArray (map rowToJson rows))
  else
    data <- parseJson text ;;; unwrapCollectPoints data.

(** A text without parentheses. *)
Definition noParens (s : string) : Prop :=
  countChar "(" s = O /\ countChar ")" s = O.

(** The placeholder that a click on [key] writes. *)
Definition placeholderOf (key : string) : string := "{" +:+ key +:+ "}".

(** A character that a run-time pattern takes literally once the braces are
    escaped: a brace, or no syntax character of the pattern language. *)
Definition isPatternSafe (c : ascii) : bool :=
  isBrace c || negb (isSyntaxChar c).

(** The row count of the tab of kind [t], 0 when there is none. *)
Definition rowCountOf (t : TabType) (tabs : list SqlTab) : nat :=
  match tabOfType t tabs with
  | Some tab => rowCount tab
  | None => O
  end.

(** The sum of the row counts of a list of tabs. *)
Definition totalRowCount (tabs : list SqlTab) : nat :=
  fold_right (fun tab acc => (rowCount tab + acc)%nat) O tabs.


(** Some placeholder of [rowTemplate] names a key that [row] lacks or holds
    as null. *)
Definition hasNullKey (rowTemplate : string) (row : Row) : bool :=
  existsb (fun placeholder =>
             negb (notNullish (row !! removeBraces placeholder)))
          (singleCurlyMatches rowTemplate).

(** The scan of the placeholders of a part of a text against the scan of
    the text: where the part has a run open, the text has one that ends
    with it. *)
Definition scanCovers (inner outer : option string) : Prop :=
  match inner, outer with
  | None, _ => True
  | Some r1, Some r2 => exists pre, r2 = pre +:+ r1
  | Some _, None => False
  end.

(** The SQL text of a value in an aggregate list: a string is quoted, any
    other value is written as [String] writes it. *)
Definition sqlText (value : unknown) : string :=
  match value with
  | Some (VStr s) => sqlQuote s
  | _ => ToString value
  end.

(** The pattern that matches the text [s] and nothing else: its characters
    in sequence. *)
Definition literalTree (s : string) : regex :=
  seqOf (rev (map RChar (list_ascii_of_string s))).

(** The text [s] with every occurrence of [pattern] replaced by [value]:
    occurrences are found from left to right and do not overlap, and the
    text put in is not searched again.  [skip] is the number of characters
    of an occurrence still to pass over. *)
Fixpoint replaceEvery (pattern value s : string) (skip : nat) : string :=
  match s with
  | EmptyString => EmptyString
  | String c s' =>
      match skip with
      | S skip' => replaceEvery pattern value s' skip'
      | O =>
          if startsWith s pattern
          then value +:+ replaceEvery pattern value s'
                           (String.length pattern - 1)
          else String c (replaceEvery pattern value s' O)
      end
  end.

(** The text that the ALL, batch and statement paths put in the place of a
    placeholder. *)
Definition replacementValue (row : Row) (placeholder : string) : string :=
  match row !! removeBraces placeholder with
  | None => "NULL"
  | Some (VStr s) => sqlQuote s
  | Some v => ToString (Some v)
  end.

(* ===================================================================== *)
(** * Properties *)

(** ** Traversals that can raise *)

Section Traversal.
Context {A B : Type} (f : A -> result B).

(** One step of a traversal that returned: the head and the tail did. *)
Lemma mapResult_cons_Ok (a : A) (l : list A) (ys : list B) :
  mapResult f (a :: l) = Ok ys ->
  exists b bs, f a = Ok b /\ mapResult f l = Ok bs /\ ys = b :: bs.
Proof.
  cbn [mapResult]. intros H.
  destruct (f a) as [b| |]; try discriminate H. cbn [bind] in H.
  destruct (mapResult f l) as [bs| |]; try discriminate H.
  cbn [bind] in H. injection H as <-. eauto.
Qed.

Lemma mapResult_take_drop (l : list A) (ys : list B) (n k : nat) :
  mapResult f l = Ok ys ->
  mapResult f (take n (drop k l)) = Ok (take n (drop k ys)).
Proof.
  revert ys n k. induction l as [|a l IH]; intros ys n k H.
  - injection H as <-. rewrite !drop_nil, !take_nil. reflexivity.
  - apply mapResult_cons_Ok in H. destruct H as (b & bs & Hfa & Hl & ->).
    destruct k as [|k].
    + destruct n as [|n]; [reflexivity|].
      pose proof (IH bs n 0%nat Hl) as IH0. rewrite !drop_0 in IH0.
      rewrite !drop_0. cbn [take mapResult]. rewrite Hfa. cbn [bind].
      rewrite IH0. reflexivity.
    + rewrite !skipn_cons. apply IH. exact Hl.
Qed.

Lemma mapResult_length (l : list A) (ys : list B) :
  mapResult f l = Ok ys -> length ys = length l.
Proof.
  revert ys. induction l as [|a l IH]; intros ys H.
  - injection H as <-. reflexivity.
  - apply mapResult_cons_Ok in H. destruct H as (b & bs & _ & Hl & ->).
    cbn [length]. f_equal. apply IH. exact Hl.
Qed.

Lemma mapResult_Forall (P : B -> Prop) (l : list A) (ys : list B) :
  (forall a b, f a = Ok b -> P b) ->
  mapResult f l = Ok ys -> Forall P ys.
Proof.
  intros HP. revert ys. induction l as [|a l IH]; intros ys H.
  - injection H as <-. constructor.
  - apply mapResult_cons_Ok in H. destruct H as (b & bs & Hfa & Hl & ->).
    constructor; [exact (HP a b Hfa)|]. apply IH. exact Hl.
Qed.

Lemma mapResult_app_inv (l1 l2 : list A) (ys : list B) :
  mapResult f (l1 ++ l2) = Ok ys ->
  exists y1 y2, mapResult f l1 = Ok y1 /\ mapResult f l2 = Ok y2.
Proof.
  revert ys. induction l1 as [|a l1 IH]; intros ys H.
  - exists [], ys. split; [reflexivity|exact H].
  - rewrite <- app_comm_cons in H. apply mapResult_cons_Ok in H.
    destruct H as (b & bs & Hfa & Hl & ->).
    destruct (IH bs Hl) as (y1 & y2 & H1 & H2).
    cbn [mapResult]. rewrite Hfa, H1. cbn [bind]. eauto.
Qed.

Lemma mapResult_concat_inv (chunks : list (list A)) (ys : list B) :
  mapResult f (concat chunks) = Ok ys ->
  Forall (fun chunk => exists strs, mapResult f chunk = Ok strs) chunks.
Proof.
  revert ys. induction chunks as [|c cs IH]; intros ys H; [constructor|].
  cbn [concat] in H. apply mapResult_app_inv in H.
  destruct H as (y1 & y2 & H1 & H2).
  constructor; [eauto|]. exact (IH y2 H2).
Qed.
End Traversal.

(** ** Unfolding the per-row branch *)

Lemma generateSqlScript_per_row (fuel : nat) (rows : JsonData)
  (template : string) (batchSize : Z) (index : nat) (rowTemplate : string)
  (allRows : list string) (tracked : list (string * bool)) :
  validateSqlTemplate template = [] ->
  doubleCurlyMatches template = [] ->
  includes (toLowerCase template) "values" = true ->
  valuesMatch template = Some (index, rowTemplate) ->
  isEmpty rowTemplate = false ->
  mapResult (renderRow rowTemplate) rows = Ok allRows ->
  mapResult (renderRowTracking rowTemplate) rows = Ok tracked ->
  generateSqlScript fuel (Some rows) template batchSize =
  let insertStatement := insertStatementOf template index in
  let tabs := initialTabs insertStatement (length rows) allRows tracked in
  if batchSize <? Z.of_nat (length rows) then
    match batchLoop fuel rows batchSize insertStatement rowTemplate 0 tabs with
    | Some (Ok tabs') => Some (Ok (SetSqlTabs tabs'))
    | Some (Throw msg) => Some (Throw msg)
    | Some Unmodelled => Some Unmodelled
    | None => None
    end
  else Some (Ok (SetSqlTabs tabs)).
Proof.
  intros Hvalid Hdouble Hvalues Hmatch Hgroup Hall Htracked.
  unfold generateSqlScript, generateSqlTabs.
  rewrite Hvalid, Hdouble, Hvalues, Hmatch. cbn [length Nat.ltb Nat.leb].
  destruct rowTemplate as [|c rowTemplate']; [discriminate Hgroup|].
  rewrite Hall, Htracked. reflexivity.
Qed.

Lemma foldResult_tracking_ok (row : Row) (placeholders : list string) :
  forall (acc r : string) (acc' : string * bool),
    foldResult (substitutePlaceholder row) placeholders acc = Ok r ->
    exists r', foldResult (substituteTracking row) placeholders acc' = Ok r'.
Proof.
  induction placeholders as [|p ps IH]; intros acc r acc' H.
  - eexists. reflexivity.
  - cbn [foldResult] in *. unfold substitutePlaceholder at 1 in H.
    unfold substituteTracking at 1. destruct acc' as [processedRow hasNull].
    destruct (compile (escapeBraces p)) as [re| |]; try discriminate H.
    cbn [bind] in *.
    destruct (row !! removeBraces p) as [[| |]|]; cbn [bind]; eapply IH; exact H.
Qed.

Lemma renderRowTracking_ok (rowTemplate : string) (rows : JsonData)
  (allRows : list string) :
  mapResult (renderRow rowTemplate) rows = Ok allRows ->
  exists tracked, mapResult (renderRowTracking rowTemplate) rows = Ok tracked.
Proof.
  revert allRows. induction rows as [|row rows IH]; intros allRows H.
  - eexists. reflexivity.
  - cbn [mapResult] in *.
    destruct (renderRow rowTemplate row) as [s| |] eqn:Hrow; try discriminate H.
    cbn [bind] in H.
    destruct (mapResult (renderRow rowTemplate) rows) as [ss| |];
      try discriminate H.
    destruct (IH ss eq_refl) as [tracked Htracked]. rewrite Htracked.
    unfold renderRow in Hrow. unfold renderRowTracking.
    destruct (foldResult (substitutePlaceholder row) _ _) as [r| |] eqn:Hfold;
      try discriminate Hrow.
    destruct (foldResult_tracking_ok row _ _ _ (rowTemplate, false) Hfold)
      as [r' Hr'].
    rewrite Hr'. cbn [bind]. eexists. reflexivity.
Qed.

(** A placeholder whose pattern does not compile makes the rendering of a row
    raise, and with it the expansion of a RowSet that has a row. *)
Lemma renderRow_raises (rowTemplate : string) (row : Row) (p : string)
  (ps : list string) (msg : string) :
  singleCurlyMatches rowTemplate = p :: ps ->
  compile (escapeBraces p) = Throw msg ->
  renderRow rowTemplate row = Throw msg.
Proof.
  intros Hps Hcompile. unfold renderRow. rewrite Hps. cbn [foldResult].
  unfold substitutePlaceholder at 1. rewrite Hcompile. reflexivity.
Qed.

Lemma generateSqlScript_raises (fuel : nat) (row : Row) (rows : JsonData)
  (template : string) (batchSize : Z) (index : nat) (rowTemplate p : string)
  (ps : list string) (msg : string) :
  validateSqlTemplate template = [] ->
  doubleCurlyMatches template = [] ->
  includes (toLowerCase template) "values" = true ->
  valuesMatch template = Some (index, rowTemplate) ->
  isEmpty rowTemplate = false ->
  singleCurlyMatches rowTemplate = p :: ps ->
  compile (escapeBraces p) = Throw msg ->
  generateSqlScript fuel (Some (row :: rows)) template batchSize =
  Some (Throw msg).
Proof.
  intros Hvalid Hdouble Hvalues Hmatch Hgroup Hps Hcompile.
  unfold generateSqlScript, generateSqlTabs.
  rewrite Hvalid, Hdouble, Hvalues, Hmatch. cbn [length Nat.ltb Nat.leb].
  destruct rowTemplate as [|c rowTemplate']; [discriminate Hgroup|].
  cbn [mapResult]. rewrite (renderRow_raises _ row p ps msg Hps Hcompile).
  reflexivity.
Qed.

(** C1 (code as it is): in the scenario the engine returns the three tabs
    ALL, without NULL values and with NULL values and no batch tab; the
    second row reads [(2,NULL)] in the tab with NULL values but [(2,null)],
    in lower case, in the tab ALL. *)
Theorem C1_scenario_tabs (fuel : nat) :
  generateSqlScript fuel (Some scenarioRows) scenarioTemplate 1000 =
  Some (Ok (SetSqlTabs
    [ mkSqlTab "all" "ALL"
        (scenarioPrefix +:+ "(1,'A')" +:+ commaNewline +:+ "(2,null)") 2 all;
      mkSqlTab "without-null" "Without NULL values"
        (scenarioPrefix +:+ "(1,'A')") 1 without_null;
      mkSqlTab "with-null" "With NULL values"
        (scenarioPrefix +:+ "(2,NULL)") 1 with_null ])).
Proof.
  destruct fuel; vm_compute; reflexivity.
Qed.

(** C6 (code as it is): for the RowSet [[{a:1}]] and the valid per-row
    template [VALUES ({(})], whose placeholder identifier is an opening
    parenthesis, the expansion raises a SyntaxError while it builds the
    pattern of the placeholder. *)
Theorem C6_metacharacter_raises (fuel : nat) :
  validateSqlTemplate "VALUES ({(})" = []
  /\ generateSqlScript fuel (Some oneRow) "VALUES ({(})" 1000 =
     Some (Throw (syntaxError "Unterminated group")).
Proof.
  split; [reflexivity|].
  apply (generateSqlScript_raises fuel _ [] "VALUES ({(})" 1000 0 "{(}" "{(}"
           []);
    reflexivity.
Qed.

(** ** Headers of a CSV text *)

Lemma filterChars_excludes (keep : ascii -> bool) (c : ascii) (s : string) :
  keep c = false -> includes (filterChars keep s) (str1 c) = false.
Proof.
  intros Hc. induction s as [|a s IH]; [reflexivity|].
  cbn [filterChars]. destruct (keep a) eqn:Ha; [|exact IH].
  cbn [includes startsWith str1]. rewrite IH.
  destruct (Ascii.eqb_spec c a) as [->|_]; [congruence|reflexivity].
Qed.

(** C9 (corrected statement): every header of a CSV header line is a token of
    [parseCsvLine] with every straight double or single quote removed,
    wherever it stands in the token: no header contains a quote. *)
Theorem C9_header_quotes_all_removed (line : string) :
  csvHeaders line = map removeQuotes (parseCsvLine line)
  /\ Forall (fun header =>
               includes header (str1 squote) = false
               /\ includes header (str1 dquote) = false)
            (csvHeaders line).
Proof.
  split; [reflexivity|].
  unfold csvHeaders. apply Forall_forall. intros header Hin.
  apply list_elem_of_In, in_map_iff in Hin. destruct Hin as [token [<- _]].
  split; apply filterChars_excludes; reflexivity.
Qed.

(** C9 (counterexample): the header token [O'Brien] has a quote in its
    interior; the field name that results has lost it. *)
Lemma C9_interior_quote_removed :
  csvHeaders "id,O'Brien" = ["id"; "OBrien"]
  /\ ~ In "O'Brien" (csvHeaders "id,O'Brien").
Proof.
  split; [reflexivity|].
  intros [H|[H|[]]]; discriminate H.
Qed.

(** ** Loading *)

(** C4 (counterexample): the document of [itemsFile] is an object whose
    field [items] is an array of one row, yet the loader does not unwrap it:
    the document fails validation and no RowSet is loaded. *)
Lemma C4_other_field_not_unwrapped :
  exists fields items,
    parseJson (file_text itemsFile) = Ok (JObject fields)
    /\ fields !! "items" = Some (JArray items)
    /\ validateJson (JArray items) = []
    /\ onDrop [itemsFile] emptyState =
       Ok (mkState None [] O ["JSON must be an array of objects"]
                   "data.json" false).
Proof.
  eexists _, _. repeat split; vm_compute; reflexivity.
Qed.

(** C4 (corrected statement): for a file that is neither [.csv], [.tsv] nor [.txt]
    and whose text parses as a JSON object, the loader unwraps to an array
    exactly when that array is the field named [collectPoints]: then a valid
    array becomes the RowSet; when [collectPoints] holds no array the object
    itself is validated, is rejected as not being an array, and no RowSet is
    loaded, whatever other fields hold arrays. *)
Theorem C4_unwraps_collectPoints_only (file : File) (st : State)
  (fields : gmap string Json) :
  endsWith (toLowerCase (file_name file)) ".csv" = false ->
  endsWith (toLowerCase (file_name file)) ".tsv" = false ->
  endsWith (toLowerCase (file_name file)) ".txt" = false ->
  parseJson (file_text file) = Ok (JObject fields) ->
  (forall items,
      fields !! "collectPoints" = Some (JArray items) ->
      validateJson (JArray items) = [] ->
      exists st', onDrop [file] st = Ok st' /\ jsonData st' = Some items)
  /\ ((forall items, fields !! "collectPoints" <> Some (JArray items)) ->
      exists st',
        onDrop [file] st = Ok st'
        /\ jsonData st' = None
        /\ errors st' = ["JSON must be an array of objects"]).
Proof.
  intros Hcsv Htsv Htxt Hparse. unfold onDrop.
  rewrite Hcsv, Htsv, Htxt, Hparse. cbn [orb bind unwrapCollectPoints].
  split.
  - intros items Hfield Hvalid. rewrite Hfield. unfold finishLoad.
    rewrite Hvalid. eexists. split; reflexivity.
  - intros Hnone.
    destruct (fields !! "collectPoints") as [[| | | |items|]|] eqn:Hfield;
      try (eexists; repeat split; reflexivity).
    exfalso. exact (Hnone items eq_refl).
Qed.

Lemma C4_unwraps_collectPoints_only_witness :
  (exists st',
      onDrop [collectPointsFile] emptyState = Ok st'
      /\ jsonData st' = Some [JObject {[ "a" := JNumber (Fin 1 0) ]}])
  /\ (exists st',
        onDrop [itemsFile] emptyState = Ok st'
        /\ jsonData st' = None
        /\ errors st' = ["JSON must be an array of objects"]).
Proof.
  split.
  - refine (proj1 (C4_unwraps_collectPoints_only collectPointsFile emptyState
                     {[ "collectPoints" :=
                          JArray [JObject {[ "a" := JNumber (Fin 1 0) ]}] ]}
                     _ _ _ _) _ _ _);
      vm_compute; reflexivity.
  - refine (proj2 (C4_unwraps_collectPoints_only itemsFile emptyState
                     {[ "items" :=
                          JArray [JObject {[ "a" := JNumber (Fin 1 0) ]}] ]}
                     _ _ _ _) _).
    all: try (vm_compute; reflexivity).
    intros items H. vm_compute in H. discriminate H.
Defined.

(** C3 (counterexample): with a RowSet loaded and a script generated, the
    pasted text [x] fails to parse; the handler reports the error and the
    RowSet that was loaded is gone. *)
Lemma C3_error_clears_rowset :
  processManualData "x" loadedState = Ok afterBadPaste
  /\ errors afterBadPaste = [badPasteMessage]
  /\ jsonData loadedState <> None
  /\ jsonData afterBadPaste = None.
Proof.
  repeat split; try (vm_compute; reflexivity). discriminate.
Qed.

Lemma finishLoad_outcomes (label : string) (parsed : result Json) (st : State) :
  (forall msg,
      parsed = Throw msg ->
      finishLoad label parsed st =
      Ok (mkState None (sqlTabs st) (activeTab st) [label +:+ msg]
                  (fileName st) false))
  /\ (forall data,
        parsed = Ok data -> validateJson data <> [] ->
        finishLoad label parsed st =
        Ok (mkState None (sqlTabs st) (activeTab st) (validateJson data)
                    (fileName st) false))
  /\ (forall data,
        parsed = Ok data -> validateJson data = [] ->
        exists items,
          data = JArray items
          /\ finishLoad label parsed st =
             Ok (mkState (Some items) [] O (errors st) (fileName st) false)).
Proof.
  unfold finishLoad. repeat split.
  - intros msg ->. reflexivity.
  - intros data -> Hinvalid.
    destruct (validateJson data) as [|e es]; [contradiction|].
    destruct data; reflexivity.
  - intros data -> Hvalid. rewrite Hvalid.
    destruct data as [| | | |items|]; try discriminate Hvalid.
    exists items. split; reflexivity.
Qed.

Lemma onDrop_parseFile (file : File) (others : list File) (st : State) :
  onDrop (file :: others) st =
  finishLoad "Invalid file format: " (parseFile file)
    (mkState (jsonData st) (sqlTabs st) (activeTab st) [] (file_name file)
             true).
Proof. reflexivity. Qed.

(** C3 (corrected statement): what each handler does with a text, case by
    case.  When the text fails to parse, or parses to a value that fails the
    validation, the handler reports the errors (one message that starts
    with the label of the handler, or the list of the validation, which is
    not empty), leaves the script variants and the active tab as they were
    and clears the RowSet.  When the text parses to a value that passes the
    validation, that value is an array, which becomes the RowSet, and the
    script variants and the error list are emptied.  A blank paste is
    refused before any parsing and leaves the RowSet as it was.  Neither
    handler lets an exception out. *)
Theorem C3_load_failure_clears_rowset (manualData : string) (file : File)
  (others : list File) (st : State) :
  let failed (messages : list string) (name : string) :=
    mkState None (sqlTabs st) (activeTab st) messages name false in
  let loaded (items : list Json) (name : string) :=
    mkState (Some items) [] O [] name false in
  (isEmpty (trim manualData) = true ->
   processManualData manualData st =
   Ok (mkState (jsonData st) (sqlTabs st) (activeTab st)
               ["Please enter some data"] (fileName st) (isLoading st)))
  /\ (isEmpty (trim manualData) = false ->
      (forall msg,
          parseDataText manualData = Throw msg ->
          exists detail,
            processManualData manualData st =
            Ok (failed ["Invalid data format: " +:+ detail] "Manual Input"))
      /\ (forall data,
            parseDataText manualData = Ok data -> validateJson data <> [] ->
            processManualData manualData st =
            Ok (failed (validateJson data) "Manual Input"))
      /\ (forall data,
            parseDataText manualData = Ok data -> validateJson data = [] ->
            exists items,
              data = JArray items
              /\ processManualData manualData st =
                 Ok (loaded items "Manual Input")))
  /\ (forall msg,
        parseFile file = Throw msg ->
        exists detail,
          onDrop (file :: others) st =
          Ok (failed ["Invalid file format: " +:+ detail] (file_name file)))
  /\ (forall data,
        parseFile file = Ok data -> validateJson data <> [] ->
        onDrop (file :: others) st =
        Ok (failed (validateJson data) (file_name file)))
  /\ (forall data,
        parseFile file = Ok data -> validateJson data = [] ->
        exists items,
          data = JArray items
          /\ onDrop (file :: others) st = Ok (loaded items (file_name file)))
  /\ (forall msg, processManualData manualData st <> Throw msg)
  /\ (forall msg, onDrop (file :: others) st <> Throw msg).
Proof.
  cbv zeta.
  pose proof (finishLoad_outcomes "Invalid data format: "
                (parseDataText manualData)
                (mkState (jsonData st) (sqlTabs st) (activeTab st) []
                         "Manual Input" true)) as (Hthrow & Hinvalid & Hvalid).
  pose proof (finishLoad_outcomes "Invalid file format: " (parseFile file)
                (mkState (jsonData st) (sqlTabs st) (activeTab st) []
                         (file_name file) true))
    as (Hthrow' & Hinvalid' & Hvalid').
  rewrite onDrop_parseFile. unfold processManualData.
  split; [intros ->; reflexivity|].
  split.
  { intros ->. split; [|split].
    - intros msg Hparse. exists msg. exact (Hthrow msg Hparse).
    - intros data Hparse Hv. exact (Hinvalid data Hparse Hv).
    - intros data Hparse Hv. exact (Hvalid data Hparse Hv). }
  split; [intros msg Hparse; exists msg; exact (Hthrow' msg Hparse)|].
  split; [intros data Hparse Hv; exact (Hinvalid' data Hparse Hv)|].
  split; [intros data Hparse Hv; exact (Hvalid' data Hparse Hv)|].
  split.
  - intros msg. destruct (isEmpty (trim manualData)); [discriminate|].
    unfold finishLoad. destruct (parseDataText manualData) as [data|m|];
      try discriminate.
    destruct (validateJson data), data; discriminate.
  - intros msg. unfold finishLoad.
    destruct (parseFile file) as [data|m|]; try discriminate.
    destruct (validateJson data), data; discriminate.
Qed.

Lemma C3_load_failure_clears_rowset_witness :
  exists detail,
    processManualData "x" loadedState =
    Ok (mkState None (sqlTabs loadedState) (activeTab loadedState)
                ["Invalid data format: " +:+ detail] "Manual Input" false).
Proof.
  apply (proj1 (proj1 (proj2
           (C3_load_failure_clears_rowset "x" itemsFile [] loadedState))
           eq_refl)
           "CSV must have at least a header row and one data row").
  vm_compute. reflexivity.
Defined.

(** ** Aggregate mode *)

Lemma generateSqlScript_aggregate (fuel : nat) (rows : JsonData)
  (template : string) (batchSize : Z) :
  isEmpty (trim template) = false ->
  doubleCurlyMatches template <> [] ->
  generateSqlScript fuel (Some rows) template batchSize =
  Some (Ok (SetSqlTabs
    (aggregateTabs rows template (doubleCurlyMatches template)))).
Proof.
  intros Hblank Hmatches. unfold generateSqlScript, validateSqlTemplate.
  rewrite Hblank.
  destruct (doubleCurlyMatches template) as [|p ps]; [contradiction|].
  reflexivity.
Qed.

(** C10: in aggregate mode, whenever the tabs ALL and without NULL values
    are both produced, their scripts are the same string. *)
Theorem C10_aggregate_scripts_equal (fuel : nat) (rows : JsonData)
  (template : string) (batchSize : Z) (tabs : list SqlTab)
  (tabAll tabWithout : SqlTab) :
  doubleCurlyMatches template <> [] ->
  generateSqlScript fuel (Some rows) template batchSize =
    Some (Ok (SetSqlTabs tabs)) ->
  tabOfType all tabs = Some tabAll ->
  tabOfType without_null tabs = Some tabWithout ->
  script tabAll = script tabWithout.
Proof.
  intros Hmatches Hrun Hall Hwithout.
  unfold generateSqlScript in Hrun.
  destruct (validateSqlTemplate template) as [|e es] eqn:Hvalid;
    [|discriminate Hrun].
  destruct (doubleCurlyMatches template) as [|p ps] eqn:Hdouble;
    [contradiction|].
  cbn [length Nat.ltb Nat.leb] in Hrun. injection Hrun as <-.
  unfold aggregateTabs in Hall, Hwithout.
  destruct (hasNonNullValues rows (p :: ps)).
  - cbn in Hall, Hwithout. injection Hall as <-. injection Hwithout as <-.
    reflexivity.
  - cbn in Hwithout. discriminate Hwithout.
Qed.

Lemma C10_aggregate_scripts_equal_witness :
  script (mkSqlTab "all" "ALL" "WHERE a IN (1,2)" 2 all) =
  script (mkSqlTab "without-null" "Without NULL values" "WHERE a IN (1,2)" 2
                   without_null).
Proof.
  apply (C10_aggregate_scripts_equal 0 twoRows "WHERE a IN ({{a}})" 1000
           [mkSqlTab "all" "ALL" "WHERE a IN (1,2)" 2 all;
            mkSqlTab "without-null" "Without NULL values" "WHERE a IN (1,2)" 2
                     without_null]);
    [discriminate | vm_compute; reflexivity | reflexivity | reflexivity].
Defined.

(** C2 (counterexample): with the aggregate keys [a] and [b], where [b] is
    null in every row, the tab without NULL values is produced all the same,
    because [a] has a value. *)
Lemma C2_one_key_suffices :
  exists tabs tab,
    generateSqlScript 0 (Some halfNullRow) "{{a}} {{b}}" 1000 =
      Some (Ok (SetSqlTabs tabs))
    /\ tabOfType without_null tabs = Some tab
    /\ map removeDoubleBraces (doubleCurlyMatches "{{a}} {{b}}") = ["a"; "b"]
    /\ ~ (exists row, In row halfNullRow /\ notNullish (row !! "b") = true).
Proof.
  eexists _, _. repeat split; try (vm_compute; reflexivity).
  intros [row [[<-|[]] H]]. vm_compute in H. discriminate H.
Qed.

(** C2 (corrected statement): in aggregate mode, for aggregate keys that
    name no member of [Object.prototype] (so that what the code reads under
    a key is a value of the row itself or [undefined]), the tab without NULL
    values is produced if and only if some aggregate key has a value that
    is neither null nor undefined in some row; when it is produced, its row
    count is the number of rows in which every aggregate key has such a
    value. *)
Theorem C2_without_null_iff_some_key (fuel : nat) (rows : JsonData)
  (template : string) (batchSize : Z) :
  isEmpty (trim template) = false ->
  doubleCurlyMatches template <> [] ->
  Forall (fun key => isInheritedKey key = false)
         (map removeDoubleBraces (doubleCurlyMatches template)) ->
  exists tabs,
    generateSqlScript fuel (Some rows) template batchSize =
      Some (Ok (SetSqlTabs tabs))
    /\ ((exists tab, tabOfType without_null tabs = Some tab)
        <-> (exists key row,
               In key (map removeDoubleBraces (doubleCurlyMatches template))
               /\ In row rows /\ notNullish (row !! key) = true))
    /\ (forall tab (complete : Row -> bool),
          tabOfType without_null tabs = Some tab ->
          (forall row,
              complete row = true <->
              (forall key,
                  In key (map removeDoubleBraces (doubleCurlyMatches template))
                  -> notNullish (row !! key) = true)) ->
          rowCount tab = length (List.filter complete rows)).
Proof.
  intros Hblank Hmatches _.
  rewrite (generateSqlScript_aggregate fuel rows template batchSize Hblank Hmatches).
  eexists. split; [reflexivity|].
  set (matches := doubleCurlyMatches template). unfold aggregateTabs.
  destruct (hasNonNullValues rows matches) eqn:Hsome.
  - split.
    + split; [intros _|intros _; eexists; reflexivity].
      unfold hasNonNullValues in Hsome.
      apply existsb_exists in Hsome. destruct Hsome as [p [Hp Hrow]].
      apply existsb_exists in Hrow. destruct Hrow as [row [Hrow Hval]].
      exists (removeDoubleBraces p), row. repeat split; try assumption.
      apply in_map. exact Hp.
    + intros tab complete Htab Hcomplete. cbn in Htab. injection Htab as <-.
      cbn [rowCount]. f_equal. apply filter_ext. intros row.
      apply eq_true_iff_eq. rewrite Hcomplete. unfold allKeysPresent.
      rewrite forallb_forall. split.
      * intros H key Hkey. apply in_map_iff in Hkey.
        destruct Hkey as [p [<- Hp]]. exact (H p Hp).
      * intros H p Hp. apply H. apply in_map. exact Hp.
  - split.
    + split; [intros [tab Htab]; cbn in Htab; discriminate Htab|].
      intros [key [row [Hkey [Hrow Hval]]]]. exfalso.
      apply in_map_iff in Hkey. destruct Hkey as [p [<- Hp]].
      assert (hasNonNullValues rows matches = true) as Habs.
      { unfold hasNonNullValues. apply existsb_exists. exists p.
        split; [exact Hp|]. apply existsb_exists. exists row. split; assumption. }
      congruence.
    + intros tab complete Htab. cbn in Htab. discriminate Htab.
Qed.

Lemma C2_without_null_iff_some_key_witness :
  exists tabs,
    generateSqlScript 0 (Some halfNullRow) "{{a}} {{b}}" 1000 =
      Some (Ok (SetSqlTabs tabs))
    /\ ((exists tab, tabOfType without_null tabs = Some tab)
        <-> (exists key row,
               In key (map removeDoubleBraces
                         (doubleCurlyMatches "{{a}} {{b}}"))
               /\ In row halfNullRow /\ notNullish (row !! key) = true))
    /\ (forall tab (complete : Row -> bool),
          tabOfType without_null tabs = Some tab ->
          (forall row,
              complete row = true <->
              (forall key,
                  In key (map removeDoubleBraces
                            (doubleCurlyMatches "{{a}} {{b}}"))
                  -> notNullish (row !! key) = true)) ->
          rowCount tab = length (List.filter complete halfNullRow)).
Proof.
  apply (C2_without_null_iff_some_key 0 halfNullRow "{{a}} {{b}}" 1000);
    [reflexivity | discriminate | repeat constructor].
Defined.

(** ** Batches *)

Lemma renderRow_not_empty (rowTemplate : string) (row : Row) (s : string) :
  renderRow rowTemplate row = Ok s -> isEmpty s = false.
Proof.
  unfold renderRow. intros H.
  destruct (foldResult _ _ _) as [r| |]; try discriminate H.
  injection H as <-. reflexivity.
Qed.

Lemma join_not_empty (sep s : string) (l : list string) :
  isEmpty s = false -> isEmpty (join sep (s :: l)) = false.
Proof.
  intros Hs. destruct s as [|c s]; [discriminate Hs|].
  destruct l; reflexivity.
Qed.

Lemma arraySlice_forward {A : Type} (arr : list A) (k n : nat) :
  (k <= length arr)%nat ->
  arraySlice arr (Z.of_nat k) (Z.of_nat k + Z.of_nat n) = take n (drop k arr).
Proof.
  intros Hk. unfold arraySlice.
  replace (Z.of_nat k <? 0) with false by (symmetry; apply Z.ltb_ge; lia).
  replace (Z.of_nat k + Z.of_nat n <? 0) with false
    by (symmetry; apply Z.ltb_ge; lia).
  rewrite (Z.min_l (Z.of_nat k)) by lia. rewrite Nat2Z.id.
  destruct (Z.le_ge_cases (Z.of_nat k + Z.of_nat n) (Z.of_nat (length arr)))
    as [Hle|Hge].
  - rewrite Z.min_l by lia. f_equal. lia.
  - rewrite Z.min_r by lia.
    rewrite !take_ge; [reflexivity| |]; rewrite length_drop; lia.
Qed.

(** With a batch size of zero or below, the loop variable starts at 0 and
    never grows: whatever the number of tests of its condition, the loop is
    still running. *)
Lemma batchLoop_nonpositive_never_finishes (rows : JsonData) (batchSize : Z)
  (insertStatement rowTemplate : string) (allRows : list string) :
  rows <> [] ->
  batchSize <= 0 ->
  mapResult (renderRow rowTemplate) rows = Ok allRows ->
  forall (fuel : nat) (i : Z) (tabs : list SqlTab),
    i <= 0 ->
    batchLoop fuel rows batchSize insertStatement rowTemplate i tabs = None.
Proof.
  intros Hrows Hsize Hall. induction fuel as [|fuel IH]; intros i tabs Hi;
    [reflexivity|].
  cbn [batchLoop].
  replace (i <? Z.of_nat (length rows)) with true
    by (symmetry; apply Z.ltb_lt; destruct rows; [contradiction|];
        cbn [length]; lia).
  unfold arraySlice at 1. erewrite mapResult_take_drop by exact Hall.
  apply IH. lia.
Qed.

(** For a per-row template with a VALUES clause whose placeholders
    substitute without raising, a RowSet that has a row and a batch size of
    zero or below, the expansion never returns. *)
Lemma generateSqlScript_nonpositive_batch_diverges (fuel : nat)
  (rows : JsonData) (template : string) (batchSize : Z) (index : nat)
  (rowTemplate : string) (allRows : list string) :
  validateSqlTemplate template = [] ->
  doubleCurlyMatches template = [] ->
  includes (toLowerCase template) "values" = true ->
  valuesMatch template = Some (index, rowTemplate) ->
  isEmpty rowTemplate = false ->
  mapResult (renderRow rowTemplate) rows = Ok allRows ->
  rows <> [] ->
  batchSize <= 0 ->
  generateSqlScript fuel (Some rows) template batchSize = None.
Proof.
  intros Hvalid Hdouble Hvalues Hmatch Hgroup Hall Hrows Hsize.
  destruct (renderRowTracking_ok _ _ _ Hall) as [tracked Htracked].
  rewrite (generateSqlScript_per_row fuel rows template batchSize index
             rowTemplate allRows tracked) by assumption.
  cbv zeta.
  replace (batchSize <? Z.of_nat (length rows)) with true
    by (symmetry; apply Z.ltb_lt; destruct rows; [contradiction|];
        cbn [length]; lia).
  rewrite (batchLoop_nonpositive_never_finishes rows batchSize _ rowTemplate
             allRows Hrows Hsize Hall) by lia.
  reflexivity.
Qed.

(** C7 (code as it is): for the RowSet [[{a:1}]], the valid template
    [VALUES ({a})] and the batch size 0, the batch loop is still running
    after any number of tests of its condition: the expansion does not
    terminate. *)
Theorem C7_zero_batch_size_diverges (fuel : nat) :
  validateSqlTemplate "VALUES ({a})" = []
  /\ generateSqlScript fuel (Some oneRow) "VALUES ({a})" 0 = None.
Proof.
  split; [reflexivity|].
  apply (generateSqlScript_nonpositive_batch_diverges fuel oneRow
           "VALUES ({a})" 0 0 "{a}" ["(1)"]);
    first [ vm_compute; reflexivity | discriminate | lia ].
Qed.

Lemma batchLoop_chunks (rows : JsonData) (n : nat)
  (insertStatement rowTemplate : string) (allRows : list string) :
  (1 <= n)%nat ->
  mapResult (renderRow rowTemplate) rows = Ok allRows ->
  forall (fuel j : nat) (tabs : list SqlTab),
    (length (drop (j * n) rows) < fuel)%nat ->
    batchLoop fuel rows (Z.of_nat n) insertStatement rowTemplate
              (Z.of_nat (j * n)) tabs =
    Some (Ok (tabs ++
      imap (fun i chunk =>
              batchTab insertStatement (Fin (Z.of_nat (j + i) + 1) 0)
                       (join commaNewline (renderedRows rowTemplate chunk))
                       (length chunk))
           (chunksOf fuel n (drop (j * n) rows)))%list).
Proof.
  intros Hn Hall. induction fuel as [|fuel IH]; intros j tabs Hfuel; [lia|].
  cbn [batchLoop chunksOf].
  destruct (drop (j * n) rows) as [|row rest] eqn:Hdrop.
  - assert (length rows <= j * n)%nat as Hlen.
    { apply (f_equal length) in Hdrop. rewrite length_drop in Hdrop.
      cbn [length] in Hdrop. lia. }
    replace (Z.of_nat (j * n) <? Z.of_nat (length rows)) with false
      by (symmetry; apply Z.ltb_ge; lia).
    cbn [imap]. rewrite app_nil_r. reflexivity.
  - assert (j * n < length rows)%nat as Hlen.
    { apply (f_equal length) in Hdrop. rewrite length_drop in Hdrop.
      cbn [length] in Hdrop. lia. }
    replace (Z.of_nat (j * n) <? Z.of_nat (length rows)) with true
      by (symmetry; apply Z.ltb_lt; lia).
    rewrite arraySlice_forward by lia. rewrite Hdrop.
    pose proof (mapResult_take_drop _ _ _ n (j * n)%nat Hall) as Hchunk.
    rewrite Hdrop in Hchunk. rewrite Hchunk.
    assert (isEmpty (join commaNewline (take n (drop (j * n) allRows)))
            = false) as Hjoin.
    { pose proof (mapResult_Forall _ (fun s => isEmpty s = false) _ _
                    (renderRow_not_empty rowTemplate) Hchunk) as Hne.
      destruct n as [|n']; [lia|]. cbn [take] in Hne, Hchunk.
      destruct (take (S n') (drop (j * S n') allRows)) as [|s ss] eqn:Htake.
      - apply mapResult_length in Hchunk. discriminate Hchunk.
      - apply join_not_empty. inversion Hne; assumption. }
    rewrite Hjoin.
    replace (Z.of_nat (j * n) + Z.of_nat n) with (Z.of_nat (S j * n))
      by (clear; lia).
    assert (drop (S j * n) rows = drop n (row :: rest)) as Hnext.
    { rewrite <- Hdrop, drop_drop. f_equal. clear. lia. }
    rewrite IH
      by (rewrite Hnext, length_drop; clear - Hfuel Hn; cbn [length] in *; lia).
    rewrite Hnext, <- app_assoc. cbn [app imap]. do 4 f_equal.
    + unfold batchNumberOf.
      replace (Z.of_nat n =? 0) with false by (symmetry; apply Z.eqb_neq; lia).
      unfold renderedRows. rewrite Hchunk.
      rewrite Nat2Z.inj_mul, Z.div_mul by lia.
      rewrite Nat.add_0_r. reflexivity.
    + apply imap_ext. intros i chunk _. cbn. do 3 f_equal. lia.
Qed.

Lemma chunksOf_partition {A : Type} (n : nat) :
  (1 <= n)%nat ->
  forall (fuel : nat) (l : list A),
    (length l < fuel)%nat ->
    concat (chunksOf fuel n l) = l
    /\ Forall (fun chunk => chunk <> [] /\ (length chunk <= n)%nat)
              (chunksOf fuel n l)
    /\ (forall j chunk,
          chunksOf fuel n l !! j = Some chunk ->
          (S j < length (chunksOf fuel n l))%nat ->
          length chunk = n).
Proof.
  intros Hn. induction fuel as [|fuel IH]; intros l Hfuel; [lia|].
  cbn [chunksOf]. destruct l as [|a l'].
  - repeat split; [constructor|]. intros j chunk H. discriminate H.
  - destruct (IH (drop n (a :: l'))) as (Hconcat & Hall & Hfull).
    { rewrite length_drop. cbn [length] in *. lia. }
    repeat split.
    + cbn [concat]. rewrite Hconcat. apply take_drop.
    + constructor; [|exact Hall]. split.
      * destruct n; [lia|]. discriminate.
      * rewrite length_take. lia.
    + intros [|j] chunk Hj Hlast.
      * injection Hj as <-. cbn [length] in Hlast.
        destruct (chunksOf fuel n (drop n (a :: l'))) as [|c cs] eqn:Hcs;
          [cbn [length] in Hlast; lia|].
        assert (drop n (a :: l') <> []) as Hrest.
        { intros Hnil. rewrite Hnil in Hcs. destruct fuel; discriminate Hcs. }
        rewrite length_take. apply Nat.min_l.
        destruct (Nat.le_gt_cases n (length (a :: l'))) as [H|H]; [exact H|].
        exfalso. apply Hrest. apply drop_ge. lia.
      * cbn [lookup list_lookup] in Hj. cbn [length] in Hlast.
        apply (Hfull j chunk Hj). lia.
Qed.

Lemma batchTabs_imap {A : Type} (l : list A) :
  forall f : nat -> A -> SqlTab,
    (forall i x, type (f i x) = batch) -> batchTabs (imap f l) = imap f l.
Proof.
  induction l as [|x l IH]; intros f Hf; [reflexivity|].
  cbn [imap]. unfold batchTabs in *. cbn [List.filter]. rewrite Hf.
  f_equal. apply IH. intros i y. apply Hf.
Qed.

Lemma batchTabs_initialTabs (insertStatement : string) (total : nat)
  (allRows : list string) (tracked : list (string * bool)) :
  batchTabs (initialTabs insertStatement total allRows tracked) = [].
Proof.
  unfold initialTabs, batchTabs.
  destruct (Nat.ltb 0 _); destruct (Nat.ltb 0 _); reflexivity.
Qed.

(** C8 (counterexample): a per-row template without the word [values] goes
    through the statement path, which makes the single tab ALL: with two
    rows and a batch size of 1 no batch tab is produced. *)
Lemma C8_statement_path_has_no_batches :
  validateSqlTemplate "UPDATE t SET a={a};" = []
  /\ doubleCurlyMatches "UPDATE t SET a={a};" = []
  /\ 1 <= 1 < Z.of_nat (length twoRows)
  /\ exists tabs,
       generateSqlScript 3 (Some twoRows) "UPDATE t SET a={a};" 1 =
         Some (Ok (SetSqlTabs tabs))
       /\ batchTabs tabs = [].
Proof.
  repeat split; try reflexivity.
  eexists. split; vm_compute; reflexivity.
Qed.

(** C8 (corrected statement): a valid per-row template without the word
    [values] goes through the statement path and never has a batch tab,
    whatever the rows and the batch size.  For a per-row template with a
    VALUES clause whose placeholders substitute without raising, and a batch
    size of at least 1, the expansion returns its tabs once the loop may
    test its condition more often than there are rows.  When the batch size
    is below the row count, the batch tabs stand for consecutive chunks of
    the rows: the chunks concatenate to the RowSet, none is empty or longer
    than the batch size, all but the last have exactly the batch size, and
    the tab of chunk [j] (from 0) has the identifier [batch-(j+1)] and the
    name [Batch (j+1)] and counts the rows of the chunk; when the keys of
    the placeholders name no member of [Object.prototype], its script is
    the statement followed by the row strings of the chunk.  When the batch
    size is at least the row count there is no batch tab. *)
Theorem C8_batches_partition_rows (fuel : nat) (rows : JsonData)
  (template : string) (batchSize : Z) :
  validateSqlTemplate template = [] ->
  doubleCurlyMatches template = [] ->
  (includes (toLowerCase template) "values" = false ->
   forall tabs,
     generateSqlScript fuel (Some rows) template batchSize =
       Some (Ok (SetSqlTabs tabs)) ->
     batchTabs tabs = [])
  /\ (forall (index : nat) (rowTemplate : string) (allRows : list string),
        includes (toLowerCase template) "values" = true ->
        valuesMatch template = Some (index, rowTemplate) ->
        isEmpty rowTemplate = false ->
        mapResult (renderRow rowTemplate) rows = Ok allRows ->
        1 <= batchSize ->
        (length rows < fuel)%nat ->
        exists tabs,
          generateSqlScript fuel (Some rows) template batchSize =
            Some (Ok (SetSqlTabs tabs))
          /\ (Z.of_nat (length rows) <= batchSize -> batchTabs tabs = [])
          /\ (batchSize < Z.of_nat (length rows) ->
              exists chunks : list JsonData,
                concat chunks = rows
                /\ Forall (fun chunk =>
                             chunk <> []
                             /\ Z.of_nat (length chunk) <= batchSize)
                          chunks
                /\ (forall j chunk,
                      chunks !! j = Some chunk ->
                      (S j < length chunks)%nat ->
                      Z.of_nat (length chunk) = batchSize)
                /\ length (batchTabs tabs) = length chunks
                /\ (forall j chunk tab,
                      chunks !! j = Some chunk ->
                      batchTabs tabs !! j = Some tab ->
                      id tab =
                        "batch-" +:+ numberToString (Fin (Z.of_nat j + 1) 0)
                      /\ name tab =
                           "Batch " +:+ numberToString (Fin (Z.of_nat j + 1) 0)
                      /\ rowCount tab = length chunk
                      /\ type tab = batch
                      /\ (Forall (fun p =>
                                    isInheritedKey (removeBraces p) = false)
                                 (singleCurlyMatches rowTemplate) ->
                          exists rowStrings,
                            mapResult (renderRow rowTemplate) chunk =
                              Ok rowStrings
                            /\ script tab =
                               insertStatementOf template index
                               +:+ join commaNewline rowStrings)))).
Proof.
  intros Hvalid Hdouble. split.
  { intros Hvalues tabs Hrun. unfold generateSqlScript in Hrun.
    rewrite Hvalid, Hdouble in Hrun. cbn [length Nat.ltb Nat.leb] in Hrun.
    unfold generateSqlTabs in Hrun. rewrite Hvalues in Hrun.
    destruct (mapResult (renderStatement template) rows);
      [|discriminate Hrun..].
    injection Hrun as <-. reflexivity. }
  intros index rowTemplate allRows Hvalues Hmatch Hgroup Hall Hsize Hfuel.
  destruct (renderRowTracking_ok _ _ _ Hall) as [tracked Htracked].
  rewrite (generateSqlScript_per_row fuel rows template batchSize index
             rowTemplate allRows tracked) by assumption.
  cbv zeta.
  set (ins := insertStatementOf template index).
  set (initial := initialTabs ins (length rows) allRows tracked).
  destruct (Z.ltb_spec batchSize (Z.of_nat (length rows))) as [Hlt|Hge].
  - set (n := Z.to_nat batchSize).
    assert (batchSize = Z.of_nat n) as Hb by (unfold n; clear - Hsize; lia).
    assert (1 <= n)%nat as Hn by (unfold n; clear - Hsize; lia).
    pose proof (batchLoop_chunks rows n ins rowTemplate allRows Hn Hall
                  fuel 0%nat initial) as Hloop.
    rewrite Nat.mul_0_l, drop_0 in Hloop. change (Z.of_nat 0) with 0 in Hloop.
    rewrite Hb. rewrite Hloop by exact Hfuel.
    eexists. split; [reflexivity|].
    destruct (chunksOf_partition (A := Row) n Hn fuel rows Hfuel)
      as (Hconcat & Hchunks & Hfull).
    set (chunks := chunksOf fuel n rows) in *.
    assert (Hbatch : batchTabs
              (initial ++
               imap (fun i chunk =>
                       batchTab ins (Fin (Z.of_nat (0 + i) + 1) 0)
                         (join commaNewline (renderedRows rowTemplate chunk))
                         (length chunk)) chunks)%list
            = imap (fun i chunk =>
                      batchTab ins (Fin (Z.of_nat (0 + i) + 1) 0)
                        (join commaNewline (renderedRows rowTemplate chunk))
                        (length chunk)) chunks).
    { unfold batchTabs at 1. rewrite List.filter_app.
      fold (batchTabs initial). unfold initial.
      rewrite batchTabs_initialTabs. cbn [app].
      apply batchTabs_imap. reflexivity. }
    rewrite Hbatch. split; [intros Habs; clear - Habs Hlt Hb; lia|].
    intros _. exists chunks. split; [|split; [|split; [|split]]].
    + exact Hconcat.
    + eapply Forall_impl; [exact Hchunks|]. cbn beta.
      intros chunk [Hne Hlen]. split; [exact Hne|]. clear - Hlen. lia.
    + intros j chunk Hj Hlast. rewrite (Hfull j chunk Hj Hlast). reflexivity.
    + apply length_imap.
    + intros j chunk tab Hj Htab.
      rewrite list_lookup_imap, Hj in Htab. cbn in Htab.
      injection Htab as <-.
      cbn [batchTab id name rowCount type script Nat.add].
      do 4 (split; [reflexivity|]). intros _.
      assert (Hok : Forall (fun chunk =>
                exists strs, mapResult (renderRow rowTemplate) chunk = Ok strs)
                chunks).
      { apply (mapResult_concat_inv _ _ allRows). rewrite Hconcat. exact Hall. }
      rewrite Forall_forall in Hok.
      destruct (Hok chunk) as [strs Hstrs].
      { eapply list_elem_of_lookup_2. exact Hj. }
      exists strs. split; [exact Hstrs|].
      unfold renderedRows. rewrite Hstrs. reflexivity.
  - eexists. split; [reflexivity|]. split.
    + intros _. apply batchTabs_initialTabs.
    + intros Habs. clear - Habs Hge. lia.
Qed.

Lemma C8_batches_partition_rows_witness :
  exists tabs,
    generateSqlScript 3 (Some twoRows) "VALUES ({a})" 1 =
      Some (Ok (SetSqlTabs tabs))
    /\ (Z.of_nat (length twoRows) <= 1 -> batchTabs tabs = [])
    /\ (1 < Z.of_nat (length twoRows) ->
        exists chunks : list JsonData,
          concat chunks = twoRows
          /\ Forall (fun chunk => chunk <> [] /\ Z.of_nat (length chunk) <= 1)
                    chunks
          /\ (forall j chunk,
                chunks !! j = Some chunk -> (S j < length chunks)%nat ->
                Z.of_nat (length chunk) = 1)
          /\ length (batchTabs tabs) = length chunks
          /\ (forall j chunk tab,
                chunks !! j = Some chunk -> batchTabs tabs !! j = Some tab ->
                id tab = "batch-" +:+ numberToString (Fin (Z.of_nat j + 1) 0)
                /\ name tab =
                     "Batch " +:+ numberToString (Fin (Z.of_nat j + 1) 0)
                /\ rowCount tab = length chunk
                /\ type tab = batch
                /\ (Forall (fun p => isInheritedKey (removeBraces p) = false)
                           (singleCurlyMatches "{a}") ->
                    exists rowStrings,
                      mapResult (renderRow "{a}") chunk = Ok rowStrings
                      /\ script tab =
                         insertStatementOf "VALUES ({a})" 0
                         +:+ join commaNewline rowStrings))).
Proof.
  apply (proj2 (C8_batches_partition_rows 3 twoRows "VALUES ({a})" 1
                  eq_refl eq_refl) 0%nat "{a}" ["(1)"; "(2)"]);
    first [ vm_compute; reflexivity | lia | (cbn [length twoRows]; lia) ].
Defined.

(** ** Decimal text of numbers *)

Lemma append_cons (c : ascii) (a b : string) :
  String c a +:+ b = String c (a +:+ b).
Proof. reflexivity. Qed.

Lemma append_nil (b : string) : EmptyString +:+ b = b.
Proof. reflexivity. Qed.

Lemma append_assoc (a b c : string) : (a +:+ b) +:+ c = a +:+ (b +:+ c).
Proof.
  induction a as [|x a IH]; [reflexivity|].
  rewrite !append_cons, IH. reflexivity.
Qed.

Lemma append_empty_r (a : string) : a +:+ EmptyString = a.
Proof.
  induction a as [|x a IH]; [reflexivity|]. rewrite append_cons, IH.
  reflexivity.
Qed.

Lemma length_append (a b : string) :
  String.length (a +:+ b) = (String.length a + String.length b)%nat.
Proof.
  induction a as [|x a IH]; [reflexivity|]. rewrite append_cons.
  cbn [String.length]. rewrite IH. reflexivity.
Qed.

Lemma allChars_append (p : ascii -> bool) (a b : string) :
  allChars p (a +:+ b) = allChars p a && allChars p b.
Proof.
  induction a as [|x a IH]; [reflexivity|]. rewrite append_cons.
  cbn [allChars]. rewrite IH. destruct (p x); reflexivity.
Qed.

Lemma allChars_impl (p q : ascii -> bool) (s : string) :
  (forall c, p c = true -> q c = true) ->
  allChars p s = true -> allChars q s = true.
Proof.
  intros Hpq. induction s as [|c s IH]; [reflexivity|]. cbn.
  intros H. apply andb_prop in H. destruct H as [Hc Hs].
  rewrite (Hpq c Hc), (IH Hs). reflexivity.
Qed.

Lemma take_drop_chars (n : nat) (s : string) :
  takeChars n s +:+ dropChars n s = s.
Proof.
  revert s. induction n as [|n IH]; intros s; [reflexivity|].
  destruct s as [|c s]; [reflexivity|].
  cbn [takeChars dropChars]. rewrite append_cons, IH. reflexivity.
Qed.

Lemma length_dropChars (n : nat) (s : string) :
  String.length (dropChars n s) = (String.length s - n)%nat.
Proof.
  revert s. induction n as [|n IH]; intros s; [cbn; lia|].
  destruct s as [|c s]; [reflexivity|]. cbn. apply IH.
Qed.

Lemma digitChar_spec (d : N) :
  (d < 10)%N -> isDigit (digitChar d) = true /\ digitVal (digitChar d) = d.
Proof.
  intros H.
  assert (d = 0 \/ d = 1 \/ d = 2 \/ d = 3 \/ d = 4 \/ d = 5 \/ d = 6
          \/ d = 7 \/ d = 8 \/ d = 9)%N as Hd by lia.
  repeat (destruct Hd as [->|Hd]; [split; reflexivity|]).
  subst d. split; reflexivity.
Qed.

Lemma foldDigits_append (a b : string) (acc : N) :
  foldDigits (a +:+ b) acc = foldDigits b (foldDigits a acc).
Proof.
  revert acc. induction a as [|c a IH]; intros acc; [reflexivity|].
  rewrite append_cons. cbn [foldDigits]. apply IH.
Qed.

Lemma foldDigits_zeros (z : nat) (acc : N) :
  foldDigits (zeros z) acc = (acc * 10 ^ N.of_nat z)%N.
Proof.
  revert acc. induction z as [|z IH]; intros acc.
  - cbn. lia.
  - cbn [zeros foldDigits]. rewrite IH.
    change (digitVal "0") with 0%N.
    rewrite Nat2N.inj_succ, N.pow_succ_r'. lia.
Qed.

Lemma foldDigits_digitsFuel (fuel : nat) :
  forall (n : N) (acc : string),
    (n < 2 ^ N.of_nat fuel)%N ->
    foldDigits (digitsFuel fuel n acc) 0 = foldDigits acc n.
Proof.
  induction fuel as [|fuel IH]; intros n acc Hn.
  - cbn in Hn. assert (n = 0%N) as -> by lia. reflexivity.
  - cbn [digitsFuel].
    pose proof (N.mod_upper_bound n 10 ltac:(lia)) as Hmod.
    destruct (digitChar_spec (n mod 10) Hmod) as [_ Hval].
    destruct (N.ltb_spec n 10) as [Hsmall|Hbig].
    + cbn [foldDigits]. rewrite Hval, N.mod_small by exact Hsmall.
      f_equal.
    + rewrite IH.
      * cbn [foldDigits]. rewrite Hval. f_equal.
        pose proof (N.div_mod n 10 ltac:(lia)). lia.
      * rewrite Nat2N.inj_succ, N.pow_succ_r' in Hn.
        apply N.Div0.div_lt_upper_bound; lia.
Qed.

Lemma digitsToN_natDigits (n : N) : digitsToN (natDigits n) = n.
Proof.
  unfold digitsToN, natDigits. rewrite foldDigits_digitsFuel; [reflexivity|].
  rewrite Nat2N.inj_succ, N2Nat.id.
  destruct n as [|p]; [reflexivity|].
  apply N.log2_spec. reflexivity.
Qed.

Lemma allDigits_digitsFuel (fuel : nat) :
  forall (n : N) (acc : string),
    allChars isDigit acc = true ->
    allChars isDigit (digitsFuel fuel n acc) = true.
Proof.
  induction fuel as [|fuel IH]; intros n acc Hacc; [exact Hacc|].
  cbn [digitsFuel].
  pose proof (N.mod_upper_bound n 10 ltac:(lia)) as Hmod.
  destruct (digitChar_spec (n mod 10) Hmod) as [Hdigit _].
  assert (allChars isDigit (String (digitChar (n mod 10)) acc) = true) as H
    by (cbn [allChars]; rewrite Hdigit, Hacc; reflexivity).
  destruct (n <? 10)%N; [exact H|]. apply IH. exact H.
Qed.

Lemma allDigits_natDigits (n : N) : allChars isDigit (natDigits n) = true.
Proof. apply allDigits_digitsFuel. reflexivity. Qed.

Lemma digitsFuel_not_empty (fuel : nat) :
  forall (n : N) (acc : string),
    isEmpty acc = false -> isEmpty (digitsFuel fuel n acc) = false.
Proof.
  induction fuel as [|fuel IH]; intros n acc Hacc; [exact Hacc|].
  cbn [digitsFuel]. destruct (n <? 10)%N; [reflexivity|].
  apply IH. reflexivity.
Qed.

Lemma natDigits_not_empty (n : N) : isEmpty (natDigits n) = false.
Proof.
  unfold natDigits. cbn [digitsFuel]. destruct (n <? 10)%N; [reflexivity|].
  apply digitsFuel_not_empty. reflexivity.
Qed.

Lemma trailingZeros_spec (s t : string) (z : nat) :
  trailingZeros s = (t, z) -> s = t +:+ zeros z.
Proof.
  revert t z. induction s as [|c s IH]; intros t z H.
  - injection H as <- <-. reflexivity.
  - cbn [trailingZeros] in H.
    destruct (trailingZeros s) as [t' z'] eqn:Hrec.
    specialize (IH t' z' eq_refl).
    destruct (Ascii.eqb_spec c "0") as [->|Hc]; cbn [andb] in H.
    + destruct t' as [|x t']; cbn [isEmpty] in H; injection H as <- <-.
      * rewrite IH. reflexivity.
      * rewrite IH. reflexivity.
    + injection H as <- <-. rewrite IH. reflexivity.
Qed.

Lemma spanDigits_append (d r : string) :
  allChars isDigit d = true ->
  match r with
  | EmptyString => True
  | String c _ => isDigit c = false
  end ->
  spanDigits (d +:+ r) = (d, r).
Proof.
  intros Hd Hr. induction d as [|c d IH].
  - rewrite append_nil. destruct r as [|c r]; [reflexivity|].
    cbn [spanDigits]. rewrite Hr. reflexivity.
  - cbn [allChars] in Hd. apply andb_prop in Hd. destruct Hd as [Hc Hd].
    rewrite append_cons. cbn [spanDigits]. rewrite Hc, (IH Hd). reflexivity.
Qed.

Lemma spanDigits_all (d : string) :
  allChars isDigit d = true -> spanDigits d = (d, EmptyString).
Proof.
  intros Hd. rewrite <- (append_empty_r d) at 1.
  apply spanDigits_append; [exact Hd|exact I].
Qed.

Lemma numericChar_facts (c : ascii) :
  isNumericChar c = true ->
  isWhiteSpace c = false /\ isQuote c = false
  /\ Ascii.eqb c "x" = false /\ Ascii.eqb c "X" = false
  /\ Ascii.eqb c "o" = false /\ Ascii.eqb c "O" = false
  /\ Ascii.eqb c "b" = false /\ Ascii.eqb c "B" = false.
Proof.
  destruct c as [[] [] [] [] [] [] [] []]; vm_compute; intros H;
    first [discriminate H | repeat split].
Qed.

Lemma digit_facts (c : ascii) :
  isDigit c = true ->
  isNumericChar c = true
  /\ Ascii.eqb c "+" = false /\ Ascii.eqb c "-" = false
  /\ Ascii.eqb c "." = false /\ Ascii.eqb c "I" = false
  /\ Ascii.eqb (lowerChar c) "n" = false.
Proof.
  destruct c as [[] [] [] [] [] [] [] []]; vm_compute; intros H;
    first [discriminate H | repeat split].
Qed.

Lemma trimEnd_id (s : string) :
  allChars (fun c => negb (isWhiteSpace c)) s = true -> trimEnd s = s.
Proof.
  induction s as [|c s IH]; [reflexivity|]. cbn [allChars trimEnd].
  intros H. apply andb_prop in H. destruct H as [Hc Hs].
  rewrite (IH Hs). destruct (isWhiteSpace c); [discriminate Hc|reflexivity].
Qed.

Lemma trim_id (s : string) :
  allChars (fun c => negb (isWhiteSpace c)) s = true -> trim s = s.
Proof.
  intros H. unfold trim.
  assert (trimStart s = s) as ->.
  { destruct s as [|c s]; [reflexivity|]. cbn [allChars trimStart] in *.
    destruct (isWhiteSpace c); [discriminate H|reflexivity]. }
  apply trimEnd_id. exact H.
Qed.

Lemma stripTrailingQuote_id (s : string) :
  allChars (fun c => negb (isQuote c)) s = true -> stripTrailingQuote s = s.
Proof.
  induction s as [|c s IH]; [reflexivity|]. cbn [allChars].
  intros H. apply andb_prop in H. destruct H as [Hc Hs].
  cbn [stripTrailingQuote]. destruct s as [|c' s'].
  - destruct (isQuote c); [discriminate Hc|reflexivity].
  - rewrite (IH Hs). reflexivity.
Qed.

Lemma stripSurroundingQuotes_id (s : string) :
  allChars (fun c => negb (isQuote c)) s = true ->
  stripSurroundingQuotes s = s.
Proof.
  intros H. destruct s as [|c s]; [reflexivity|].
  unfold stripSurroundingQuotes. pose proof H as H'.
  cbn [allChars] in H'. apply andb_prop in H'. destruct H' as [Hc _].
  destruct (isQuote c); [discriminate Hc|].
  apply stripTrailingQuote_id. exact H.
Qed.

Lemma numericText_clean (s : string) :
  allChars isNumericChar s = true ->
  trim s = s /\ stripSurroundingQuotes s = s /\ parseNonDecimal s = None.
Proof.
  intros H. repeat split.
  - apply trim_id. eapply allChars_impl; [|exact H].
    intros c Hc. destruct (numericChar_facts c Hc) as (-> & _). reflexivity.
  - apply stripSurroundingQuotes_id. eapply allChars_impl; [|exact H].
    intros c Hc. destruct (numericChar_facts c Hc) as (_ & -> & _).
    reflexivity.
  - destruct s as [|z [|p r]]; try reflexivity.
    cbn [allChars] in H. apply andb_prop in H. destruct H as [_ H].
    apply andb_prop in H. destruct H as [Hp _].
    unfold parseNonDecimal.
    destruct (numericChar_facts p Hp) as (_ & _ & -> & -> & -> & -> & -> & ->).
    reflexivity.
Qed.

Lemma StringToNumber_numericText (s : string) :
  numericText s ->
  StringToNumber s = parseUnsignedDecimal s
  /\ StringToNumber ("-" +:+ s) = negate (parseUnsignedDecimal s).
Proof.
  intros [Hall (c & s' & -> & Hc)].
  destruct (digit_facts c Hc) as (_ & Hplus & Hminus & _).
  split.
  - destruct (numericText_clean _ Hall) as (Htrim & _ & Hnd).
    unfold StringToNumber. rewrite Htrim, Hnd. cbn [isEmpty startsWith].
    rewrite Ascii.eqb_sym, Hplus. rewrite Ascii.eqb_sym, Hminus. reflexivity.
  - assert (allChars isNumericChar ("-" +:+ String c s') = true) as Hall'
      by (rewrite allChars_append, Hall; reflexivity).
    destruct (numericText_clean _ Hall') as (Htrim & _ & Hnd).
    unfold StringToNumber. rewrite Htrim, Hnd. reflexivity.
Qed.

Lemma parseExponentPart_digits (x : Z) :
  parseExponentPart
    ("e" +:+ (if x <? 0 then "-" else "+") +:+ natDigits (Z.abs_N x)) = Some x.
Proof.
  pose proof (allDigits_natDigits (Z.abs_N x)) as Hd.
  pose proof (natDigits_not_empty (Z.abs_N x)) as Hne.
  pose proof (digitsToN_natDigits (Z.abs_N x)) as Hval.
  destruct (Z.ltb_spec x 0) as [Hneg|Hpos].
  - change ("e" +:+ "-" +:+ natDigits (Z.abs_N x))
      with (String "e" (String "-" (natDigits (Z.abs_N x)))).
    cbn [parseExponentPart Ascii.eqb Bool.eqb orb andb].
    rewrite (spanDigits_all _ Hd), Hne, Hval. cbn [negb andb isEmpty].
    f_equal. lia.
  - change ("e" +:+ "+" +:+ natDigits (Z.abs_N x))
      with (String "e" (String "+" (natDigits (Z.abs_N x)))).
    cbn [parseExponentPart Ascii.eqb Bool.eqb orb andb].
    rewrite (spanDigits_all _ Hd), Hne, Hval. cbn [negb andb isEmpty].
    f_equal. lia.
Qed.

Lemma number_eqb_shift (a e : Z) (z : nat) :
  number_eqb (Fin a (Z.of_nat z + e)) (Fin (a * 10 ^ Z.of_nat z) e) = true.
Proof.
  unfold number_eqb. rewrite Z.min_r by lia.
  replace (Z.of_nat z + e - e) with (Z.of_nat z) by lia.
  rewrite Z.sub_diag, Z.pow_0_r. apply Z.eqb_eq. lia.
Qed.

Lemma number_eqb_integer (a e : Z) (z : nat) :
  0 <= Z.of_nat z + e ->
  number_eqb (Fin (a * 10 ^ (Z.of_nat z + e)) 0) (Fin (a * 10 ^ Z.of_nat z) e)
  = true.
Proof.
  intros H. unfold number_eqb. apply Z.eqb_eq.
  destruct (Z.le_ge_cases 0 e) as [He|He].
  - rewrite Z.min_l by lia. rewrite !Z.sub_0_r, Z.pow_0_r.
    rewrite Z.pow_add_r by lia. lia.
  - rewrite Z.min_r by lia. rewrite Z.sub_diag, Z.pow_0_r, Z.sub_0_l.
    rewrite <- Z.mul_assoc, <- Z.pow_add_r by lia.
    replace (Z.of_nat z + e + - e) with (Z.of_nat z) by lia. lia.
Qed.

Lemma number_eqb_negate (m1 e1 m2 e2 : Z) :
  number_eqb (Fin m1 e1) (Fin m2 e2) = true ->
  number_eqb (Fin (- m1) e1) (Fin (- m2) e2) = true.
Proof.
  unfold number_eqb. intros H. apply Z.eqb_eq in H. apply Z.eqb_eq.
  rewrite !Z.mul_opp_l, H. reflexivity.
Qed.

Lemma allDigits_zeros (z : nat) : allChars isDigit (zeros z) = true.
Proof. induction z as [|z IH]; [reflexivity|]. cbn [zeros allChars]. exact IH. Qed.

Lemma allChars_take_drop (p : ascii -> bool) (n : nat) (s : string) :
  allChars p s = true ->
  allChars p (takeChars n s) = true /\ allChars p (dropChars n s) = true.
Proof.
  intros H. rewrite <- (take_drop_chars n s), allChars_append in H.
  apply andb_prop in H. exact H.
Qed.

Lemma digits_numeric (s : string) :
  allChars isDigit s = true -> allChars isNumericChar s = true.
Proof.
  apply allChars_impl. intros c Hc. exact (proj1 (digit_facts c Hc)).
Qed.

Lemma not_Infinity (c : ascii) (s : string) :
  isDigit c = true -> String.eqb (String c s) "Infinity" = false.
Proof.
  intros Hc. destruct (digit_facts c Hc) as (_ & _ & _ & _ & HI & _).
  cbn [String.eqb]. rewrite HI. reflexivity.
Qed.

Lemma startsWith_empty (s : string) : startsWith s EmptyString = true.
Proof. destruct s; reflexivity. Qed.

(** A literal with integer part [ip] and no fraction. *)
Lemma parse_integer (c : ascii) (ip' r1 : string) (x : Z) :
  isDigit c = true -> allChars isDigit ip' = true ->
  match r1 with
  | EmptyString => True
  | String d _ => isDigit d = false
  end ->
  startsWith r1 "." = false ->
  parseExponentPart r1 = Some x ->
  parseUnsignedDecimal (String c ip' +:+ r1) =
  Fin (Z.of_N (digitsToN (String c ip'))) x.
Proof.
  intros Hc Hip Hr1 Hdot Hexp. unfold parseUnsignedDecimal.
  rewrite append_cons, (not_Infinity c _ Hc), <- append_cons.
  rewrite spanDigits_append;
    [|cbn [allChars]; rewrite Hc, Hip; reflexivity|exact Hr1].
  rewrite Hdot, Hexp. reflexivity.
Qed.

(** A literal with integer part [ip], fraction [fp] and the rest [r2]. *)
Lemma parse_fraction (c : ascii) (ip' fp r2 : string) (x : Z) :
  isDigit c = true -> allChars isDigit ip' = true ->
  allChars isDigit fp = true ->
  match r2 with
  | EmptyString => True
  | String d _ => isDigit d = false
  end ->
  parseExponentPart r2 = Some x ->
  parseUnsignedDecimal (String c ip' +:+ "." +:+ fp +:+ r2) =
  Fin (Z.of_N (digitsToN (String c ip' +:+ fp)))
      (x - Z.of_nat (String.length fp)).
Proof.
  intros Hc Hip Hfp Hr2 Hexp. unfold parseUnsignedDecimal.
  rewrite append_cons, (not_Infinity c _ Hc), <- append_cons.
  rewrite spanDigits_append;
    [|cbn [allChars]; rewrite Hc, Hip; reflexivity|reflexivity].
  change ("." +:+ fp +:+ r2) with (String "." (fp +:+ r2)).
  cbn [startsWith Ascii.eqb Bool.eqb andb dropChars].
  rewrite startsWith_empty.
  rewrite (spanDigits_append fp r2 Hfp Hr2). cbn [isEmpty andb].
  rewrite Hexp. reflexivity.
Qed.

Lemma significant_digits (m : N) (s : string) (z : nat) :
  (0 < m)%N -> trailingZeros (natDigits m) = (s, z) ->
  allChars isDigit s = true
  /\ (exists c s', s = String c s' /\ isDigit c = true)
  /\ Z.of_N m = Z.of_N (digitsToN s) * 10 ^ Z.of_nat z.
Proof.
  intros Hm Htz. apply trailingZeros_spec in Htz.
  pose proof (allDigits_natDigits m) as Hd.
  rewrite Htz, allChars_append in Hd. apply andb_prop in Hd.
  destruct Hd as [Hs _].
  pose proof (digitsToN_natDigits m) as Hv. rewrite Htz in Hv.
  unfold digitsToN in Hv. rewrite foldDigits_append, foldDigits_zeros in Hv.
  split; [exact Hs|]. split.
  - destruct s as [|c s'].
    + cbn [foldDigits] in Hv. lia.
    + exists c, s'. split; [reflexivity|]. cbn [allChars] in Hs.
      apply andb_prop in Hs. exact (proj1 Hs).
  - unfold digitsToN. rewrite <- Hv, N2Z.inj_mul, N2Z.inj_pow, nat_N_Z.
    reflexivity.
Qed.

Lemma positiveToString_parse (m : N) (e : Z) :
  (0 < m)%N ->
  numericText (positiveToString m e)
  /\ exists m' e',
       parseUnsignedDecimal (positiveToString m e) = Fin m' e'
       /\ number_eqb (Fin m' e') (Fin (Z.of_N m) e) = true.
Proof.
  intros Hm. unfold positiveToString.
  destruct (trailingZeros (natDigits m)) as [s z] eqn:Htz.
  destruct (significant_digits m s z Hm Htz)
    as (Hs & (c & s' & -> & Hc) & Hval).
  pose proof Hs as Hs'. cbn [allChars] in Hs'. apply andb_prop in Hs'.
  destruct Hs' as [_ Hs'].
  cbn [String.length]. set (len := String.length s').
  rewrite Hval. set (a := Z.of_N (digitsToN (String c s'))).
  set (k := Z.of_nat (S len)). set (n := k + Z.of_nat z + e).
  destruct ((k <=? n) && (n <=? 21)) eqn:H1.
  { (* digits followed by zeros *)
    apply andb_prop in H1. destruct H1 as [Hkn _]. apply Z.leb_le in Hkn.
    set (j := Z.to_nat (n - k)).
    assert (Hall : allChars isDigit (String c s' +:+ zeros j) = true)
      by (rewrite allChars_append, Hs, allDigits_zeros; reflexivity).
    split.
    - split; [apply digits_numeric; exact Hall|].
      rewrite append_cons. eauto.
    - exists (a * 10 ^ (Z.of_nat z + e)), 0. split.
      + rewrite <- (append_empty_r (String c s' +:+ zeros j)), append_cons.
        rewrite (parse_integer c (s' +:+ zeros j) EmptyString 0 Hc);
          try reflexivity.
        * f_equal. rewrite <- append_cons. unfold digitsToN.
          rewrite foldDigits_append, foldDigits_zeros.
          rewrite N2Z.inj_mul, N2Z.inj_pow, nat_N_Z. unfold a, digitsToN.
          f_equal. f_equal. unfold j, n. lia.
        * rewrite append_cons in Hall. cbn [allChars] in Hall.
          apply andb_prop in Hall. exact (proj2 Hall).
      + apply number_eqb_integer. unfold n in Hkn. lia. }
  destruct ((0 <? n) && (n <=? 21)) eqn:H2.
  { (* a decimal point inside the digits *)
    apply andb_prop in H2. destruct H2 as [H0n Hn21].
    apply Z.ltb_lt in H0n. apply Z.leb_le in Hn21.
    assert (n < k) as Hnk.
    { destruct (Z.leb_spec k n) as [Hle|Hgt]; [|exact Hgt].
      destruct (Z.leb_spec n 21) as [Hle'|Hgt']; [discriminate H1|lia]. }
    destruct (Z.to_nat n) as [|j'] eqn:Hj; [lia|].
    assert (j' <= len)%nat as Hjlen by (unfold k in Hnk; lia).
    cbn [takeChars dropChars].
    destruct (allChars_take_drop isDigit j' s' Hs') as [Htake Hdrop].
    split.
    - split.
      + rewrite append_cons. cbn [allChars].
        rewrite !allChars_append, (digits_numeric _ Htake),
          (digits_numeric _ Hdrop).
        rewrite (proj1 (digit_facts c Hc)). reflexivity.
      + rewrite append_cons. eauto.
    - exists a, (Z.of_nat z + e). split; [|apply number_eqb_shift].
      rewrite <- (append_empty_r (dropChars j' s')).
      rewrite (parse_fraction c (takeChars j' s') (dropChars j' s')
                 EmptyString 0 Hc Htake Hdrop I eq_refl).
      rewrite append_cons, take_drop_chars, length_dropChars.
      fold a. f_equal. fold len. unfold n, k in *. lia. }
  destruct ((-6 <? n) && (n <=? 0)) eqn:H3.
  { (* zero, the point, zeros and the digits *)
    apply andb_prop in H3. destruct H3 as [_ Hn0]. apply Z.leb_le in Hn0.
    set (j := Z.to_nat (- n)).
    assert (Hfp : allChars isDigit (zeros j +:+ String c s') = true)
      by (rewrite allChars_append, allDigits_zeros, Hs; reflexivity).
    change ("0." +:+ zeros j +:+ String c s')
      with (String "0" EmptyString +:+ "." +:+ (zeros j +:+ String c s')).
    split.
    - split; [|rewrite append_cons; eexists _, _; split; reflexivity].
      rewrite (allChars_append _ (String "0" EmptyString)),
        (allChars_append _ "."), (digits_numeric _ Hfp). reflexivity.
    - exists a, (Z.of_nat z + e). split; [|apply number_eqb_shift].
      rewrite <- (append_empty_r (zeros j +:+ String c s')).
      rewrite (parse_fraction "0" EmptyString (zeros j +:+ String c s')
                 EmptyString 0 eq_refl eq_refl Hfp I eq_refl).
      rewrite length_append. f_equal.
      + f_equal. rewrite append_cons, append_nil. unfold digitsToN.
        cbn [foldDigits]. change (10 * 0 + digitVal "0")%N with 0%N.
        rewrite foldDigits_append, foldDigits_zeros. reflexivity.
      + assert (String.length (zeros j) = j) as ->
          by (clear; induction j as [|j IH]; [reflexivity|];
              cbn [zeros String.length]; rewrite IH; reflexivity).
        cbn [String.length]. fold len. unfold j, n, k in *. lia. }
  (* exponent notation *)
  set (x := n - 1).
  set (r := "e" +:+ (if x <? 0 then "-" else "+") +:+ natDigits (Z.abs_N x)).
  assert (Hr : r = String "e" ((if x <? 0 then "-" else "+")
                               +:+ natDigits (Z.abs_N x))) by reflexivity.
  assert (Hrnum : allChars isNumericChar r = true).
  { unfold r. rewrite !allChars_append.
    rewrite (digits_numeric _ (allDigits_natDigits _)).
    destruct (x <? 0); reflexivity. }
  pose proof (parseExponentPart_digits x) as Hexp. fold r in Hexp.
  destruct (k =? 1) eqn:Hk1.
  { (* one digit *)
    apply Z.eqb_eq in Hk1.
    assert (s' = EmptyString) as ->.
    { destruct s'; [reflexivity|]. unfold k, len in Hk1.
      cbn [String.length] in Hk1. lia. }
    split.
    - split; [|rewrite append_cons; eauto].
      rewrite allChars_append, Hrnum, (digits_numeric _ Hs). reflexivity.
    - exists a, (Z.of_nat z + e). split; [|apply number_eqb_shift].
      rewrite (parse_integer c EmptyString r x Hc eq_refl);
        [|rewrite Hr; reflexivity|rewrite Hr; reflexivity|exact Hexp].
      fold a. f_equal. unfold x, n. lia. }
  { (* one digit, the point and the other digits *)
    cbn [takeChars dropChars].
    rewrite !append_assoc.
    split.
    - split; [|rewrite append_cons; eauto].
      rewrite !allChars_append, Hrnum, (digits_numeric _ Hs').
      cbn [allChars]. rewrite (proj1 (digit_facts c Hc)). reflexivity.
    - exists a, (Z.of_nat z + e). split; [|apply number_eqb_shift].
      rewrite (parse_fraction c EmptyString s' r x Hc eq_refl Hs');
        [|rewrite Hr; reflexivity|exact Hexp].
      rewrite append_cons, append_nil. fold a. f_equal. fold len.
      unfold x, n, k. lia. }
Qed.

Lemma lowerChar_null_letters (c : ascii) :
  (lowerChar c = "n"%char -> c = "n"%char \/ c = "N"%char)
  /\ (lowerChar c = "u"%char -> c = "u"%char \/ c = "U"%char)
  /\ (lowerChar c = "l"%char -> c = "l"%char \/ c = "L"%char).
Proof.
  destruct c as [[] [] [] [] [] [] [] []]; vm_compute;
    repeat split; intros H; first [discriminate H | auto].
Qed.

(** The word [null], in any case, is no numeric literal. *)
Lemma null_is_NaN (v : string) :
  toLowerCase v = "null" -> StringToNumber v = NaN.
Proof.
  destruct v as [|c1 [|c2 [|c3 [|c4 [|c5 v]]]]]; try discriminate.
  cbn [toLowerCase]. intros H. injection H as H1 H2 H3 H4.
  apply (proj1 (lowerChar_null_letters c1)) in H1.
  apply (proj1 (proj2 (lowerChar_null_letters c2))) in H2.
  apply (proj2 (proj2 (lowerChar_null_letters c3))) in H3.
  apply (proj2 (proj2 (lowerChar_null_letters c4))) in H4.
  destruct H1 as [-> | ->], H2 as [-> | ->], H3 as [-> | ->],
    H4 as [-> | ->]; reflexivity.
Qed.

(** The three outcomes of the test shared by the two coercions, on the
    text [v] it is applied to. *)
Lemma coerced_value_spec (v : string) (r : Value) :
  r = (if isEmpty v || String.eqb (toLowerCase v) "null" then VNull
       else if negb (isNaN (StringToNumber v)) && negb (isEmpty v)
            then VNum (StringToNumber v) else VStr v) ->
  (r = VNull <-> v = EmptyString \/ toLowerCase v = "null")
  /\ (forall x,
        r = VNum x <->
        v <> EmptyString /\ isNaN (StringToNumber v) = false
        /\ x = StringToNumber v)
  /\ (forall s,
        r = VStr s <->
        v <> EmptyString /\ toLowerCase v <> "null"
        /\ isNaN (StringToNumber v) = true /\ s = v).
Proof.
  intros ->.
  assert (Hnan : toLowerCase v = "null" -> isNaN (StringToNumber v) = true)
    by (intros H; rewrite (null_is_NaN v H); reflexivity).
  destruct v as [|c v']; cbn [isEmpty orb negb andb].
  - repeat split; intros;
      repeat match goal with
             | H : _ /\ _ |- _ => destruct H
             end;
      first [discriminate | congruence | auto].
  - set (v := String c v') in *.
    destruct (String.eqb_spec (toLowerCase v) "null") as [Hnull|Hnull];
      [specialize (Hnan Hnull)|];
      destruct (isNaN (StringToNumber v)) eqn:Hparse; cbn [negb andb];
      repeat split; intros;
      repeat match goal with
             | H : _ /\ _ |- _ => destruct H
             | H : _ \/ _ |- _ => destruct H
             | H : VNum _ = VNum _ |- _ => injection H as <-
             | H : VStr _ = VStr _ |- _ => injection H as <-
             end;
      subst; first [discriminate | congruence | auto].
Qed.

(** Coercing the text of a finite number gives that number back. *)
Lemma coerce_numberToString (m e : Z) :
  exists x,
    coerceTsvValue (numberToString (Fin m e)) = VNum x
    /\ coerceCsvValue (numberToString (Fin m e)) = VNum x
    /\ number_eqb x (Fin m e) = true.
Proof.
  destruct (Z.eqb_spec m 0) as [->|Hm0].
  { exists (Fin 0 0). repeat split; try reflexivity.
    all: unfold number_eqb; apply Z.eqb_eq; lia. }
  assert (0 < Z.abs_N m)%N as Hpos by lia.
  destruct (positiveToString_parse (Z.abs_N m) e Hpos)
    as (Htext & m' & e' & Hparse & Heq).
  destruct (StringToNumber_numericText _ Htext) as [Hplain Hminus].
  pose proof Htext as [Hall (c & s' & Hc & Hdigit)].
  assert (forall t x,
            allChars isNumericChar t = true ->
            (exists d t', t = String d t'
                          /\ Ascii.eqb (lowerChar d) "n" = false) ->
            StringToNumber t = x -> isNaN x = false ->
            coerceTsvValue t = VNum x /\ coerceCsvValue t = VNum x) as Hcoerce.
  { intros t x Ht (d & t' & -> & Hd) Hx Hnan.
    destruct (numericText_clean _ Ht) as (Htrim & Hstrip & _).
    unfold coerceTsvValue, coerceCsvValue. rewrite Htrim, Hstrip, Hx, Hnan.
    cbn [isEmpty orb negb andb toLowerCase String.eqb]. rewrite Hd.
    split; reflexivity. }
  unfold numberToString. rewrite (proj2 (Z.eqb_neq m 0) Hm0).
  destruct (Z.ltb_spec m 0) as [Hneg|Hnonneg].
  - exists (Fin (- m') e').
    assert (coerceTsvValue ("-" +:+ positiveToString (Z.abs_N m) e)
              = VNum (Fin (- m') e')
            /\ coerceCsvValue ("-" +:+ positiveToString (Z.abs_N m) e)
              = VNum (Fin (- m') e')) as [H1 H2].
    { apply Hcoerce.
      - rewrite allChars_append, Hall. reflexivity.
      - eexists _, _. split; reflexivity.
      - rewrite Hminus, Hparse. reflexivity.
      - reflexivity. }
    repeat split; [exact H1|exact H2|].
    replace (Fin m e) with (Fin (- Z.of_N (Z.abs_N m)) e) by (f_equal; lia).
    apply number_eqb_negate. exact Heq.
  - exists (Fin m' e').
    assert (coerceTsvValue (positiveToString (Z.abs_N m) e) = VNum (Fin m' e')
            /\ coerceCsvValue (positiveToString (Z.abs_N m) e)
               = VNum (Fin m' e')) as [H1 H2].
    { apply Hcoerce.
      - exact Hall.
      - exists c, s'. split; [exact Hc|].
        exact (proj2 (proj2 (proj2 (proj2 (proj2 (digit_facts c Hdigit)))))).
      - rewrite Hplain, Hparse. reflexivity.
      - reflexivity. }
    repeat split; [exact H1|exact H2|].
    replace (Fin m e) with (Fin (Z.of_N (Z.abs_N m)) e) by (f_equal; lia).
    exact Heq.
Qed.

(** C5 (counterexample): the token [Infinity] is not empty and its numeric
    parse is not a finite number, yet the coercion returns a number. *)
Lemma C5_infinity_is_a_number :
  coerceTsvValue "Infinity" = VNum (Infinity false)
  /\ coerceCsvValue "Infinity" = VNum (Infinity false)
  /\ isFinite (StringToNumber (trim "Infinity")) = false.
Proof. repeat split. Qed.

(** C5 (corrected statement): with [v] the trimmed token for TSV, and for CSV the
    token of [parseCsvLine] without its surrounding quotes, the coercion
    returns null exactly when [v] is empty or is [null] in any case; returns
    a number, the numeric parse of [v], exactly when [v] is not empty and
    that parse is not NaN, so that [Infinity] is returned as a number; and
    returns [v] itself as a string otherwise.  Applied to the decimal text
    of a finite number, it returns that number. *)
Theorem C5_coercion_by_NaN_test (token : string) (m e : Z) :
  ((coerceTsvValue token = VNull <->
    trim token = EmptyString \/ toLowerCase (trim token) = "null")
   /\ (forall x,
         coerceTsvValue token = VNum x <->
         trim token <> EmptyString
         /\ isNaN (StringToNumber (trim token)) = false
         /\ x = StringToNumber (trim token))
   /\ (forall s,
         coerceTsvValue token = VStr s <->
         trim token <> EmptyString /\ toLowerCase (trim token) <> "null"
         /\ isNaN (StringToNumber (trim token)) = true /\ s = trim token))
  /\ ((coerceCsvValue token = VNull <->
       stripSurroundingQuotes token = EmptyString
       \/ toLowerCase (stripSurroundingQuotes token) = "null")
      /\ (forall x,
            coerceCsvValue token = VNum x <->
            stripSurroundingQuotes token <> EmptyString
            /\ isNaN (StringToNumber (stripSurroundingQuotes token)) = false
            /\ x = StringToNumber (stripSurroundingQuotes token))
      /\ (forall s,
            coerceCsvValue token = VStr s <->
            stripSurroundingQuotes token <> EmptyString
            /\ toLowerCase (stripSurroundingQuotes token) <> "null"
            /\ isNaN (StringToNumber (stripSurroundingQuotes token)) = true
            /\ s = stripSurroundingQuotes token))
  /\ coerceTsvValue "Infinity" = VNum (Infinity false)
  /\ (exists x,
        coerceTsvValue (numberToString (Fin m e)) = VNum x
        /\ coerceCsvValue (numberToString (Fin m e)) = VNum x
        /\ number_eqb x (Fin m e) = true).
Proof.
  split; [apply coerced_value_spec; reflexivity|].
  split; [apply coerced_value_spec; reflexivity|].
  split; [reflexivity|]. apply coerce_numberToString.
Qed.

(* ===================================================================== *)
(** * Further properties of the code *)

(** ** Validation *)

(** X1: [validateJson] reports at most one error, accepts exactly the
    non-empty arrays whose first element is an object or an array, and never
    looks past the first element. *)
Theorem validateJson_first_element_only (data first : Json)
  (rest rest' : list Json) :
  (length (validateJson data) <= 1)%nat
  /\ (validateJson data = [] <->
      exists head tail,
        data = JArray (head :: tail)
        /\ ((exists items, head = JArray items)
            \/ (exists fields, head = JObject fields)))
  /\ validateJson (JArray (first :: rest)) = validateJson (JArray (first :: rest')).
Proof.
  split; [|split].
  - destruct data as [| | | |[|[] ?]|]; cbn; lia.
  - split.
    + destruct data as [| | | |[|head tail]|]; try discriminate.
      destruct head; try discriminate; intros _; eexists _, _;
        (split; [reflexivity|]); eauto.
    + intros (head & tail & -> & [[items ->]|[fields ->]]); reflexivity.
  - destruct first; reflexivity.
Qed.

Lemma startsWithIgnoreCase_values (s : string) :
  startsWithIgnoreCase s "VALUES" = true ->
  startsWith (toLowerCase s) "values" = true.
Proof.
  destruct s as [|c1 [|c2 [|c3 [|c4 [|c5 [|c6 s]]]]]];
    cbn [startsWithIgnoreCase andb]; try discriminate;
    try (rewrite ?andb_false_r; discriminate).
  change (lowerChar "V") with "v"%char. change (lowerChar "A") with "a"%char.
  change (lowerChar "L") with "l"%char. change (lowerChar "U") with "u"%char.
  change (lowerChar "E") with "e"%char. change (lowerChar "S") with "s"%char.
  intros H. cbn [toLowerCase startsWith].
  repeat (apply andb_prop in H; destruct H as [-> H]).
  destruct s; reflexivity.
Qed.

Lemma includes_tail (c : ascii) (s sub : string) :
  includes s sub = true -> includes (String c s) sub = true.
Proof.
  intros H. cbn [includes]. rewrite H. apply orb_true_r.
Qed.

Lemma includes_startsWith (s sub : string) :
  startsWith s sub = true -> includes s sub = true.
Proof. intros H. destruct s; cbn [includes]; rewrite H; reflexivity. Qed.

(** Where the VALUES pattern matches, the lower-case text has the word. *)
Lemma valuesMatchFrom_includes (s : string) :
  forall (i : nat) (found : nat * string),
    valuesMatchFrom s i = Some found ->
    includes (toLowerCase s) "values" = true.
Proof.
  induction s as [|c s IH]; intros i found H.
  - cbn in H. discriminate H.
  - cbn [valuesMatchFrom] in H.
    destruct (valuesAt (String c s)) as [group|] eqn:Hat.
    + apply includes_startsWith. apply startsWithIgnoreCase_values.
      unfold valuesAt in Hat.
      destruct (startsWithIgnoreCase (String c s) "VALUES");
        [reflexivity|discriminate Hat].
    + cbn [toLowerCase]. apply includes_tail. exact (IH _ _ H).
Qed.

(** X2: [validateSqlTemplate] accepts a template exactly when it is not
    blank and has an aggregate token, or lacks the words [insert into], or
    matches the VALUES pattern. *)
Theorem validateSqlTemplate_accepts_iff (template : string) :
  validateSqlTemplate template = [] <->
  isEmpty (trim template) = false
  /\ (doubleCurlyMatches template <> []
      \/ includes (toLowerCase template) "insert into" = false
      \/ valuesMatch template <> None).
Proof.
  unfold validateSqlTemplate.
  destruct (isEmpty (trim template)).
  { split; [discriminate|]. intros [H _]. discriminate H. }
  destruct (doubleCurlyMatches template) as [|p ps]; cbn [length Nat.eqb negb].
  2:{ split; [|reflexivity]. intros _. split; [reflexivity|].
      left. discriminate. }
  destruct (includes (toLowerCase template) "insert into") eqn:Hinsert;
    cbn [andb].
  2:{ split; [|reflexivity]. intros _. split; [reflexivity|]. right. left.
      reflexivity. }
  destruct (valuesMatch template) as [found|] eqn:Hmatch.
  - pose proof (valuesMatchFrom_includes _ _ _ Hmatch) as Hword.
    rewrite Hword. cbn [negb app]. split; [|reflexivity].
    intros _. split; [reflexivity|]. right. right. discriminate.
  - split.
    + destruct (negb _); discriminate.
    + intros [_ [H|[H|H]]]; [contradiction|discriminate H|contradiction].
Qed.

(** X3: an INSERT template without the word [values] and without aggregate
    token is refused with both messages, in this order. *)
Theorem validateSqlTemplate_insert_without_values (template : string) :
  isEmpty (trim template) = false ->
  doubleCurlyMatches template = [] ->
  includes (toLowerCase template) "insert into" = true ->
  includes (toLowerCase template) "values" = false ->
  validateSqlTemplate template =
  ["INSERT statements must contain 'VALUES' clause";
   "Invalid VALUES clause format. Use: VALUES ({placeholder})"].
Proof.
  intros Hblank Hdouble Hinsert Hvalues. unfold validateSqlTemplate.
  rewrite Hblank, Hdouble, Hinsert, Hvalues. cbn [length Nat.eqb negb andb].
  destruct (valuesMatch template) as [found|] eqn:Hmatch; [|reflexivity].
  pose proof (valuesMatchFrom_includes _ _ _ Hmatch) as Hword. congruence.
Qed.

Lemma validateSqlTemplate_insert_without_values_witness :
  validateSqlTemplate "INSERT INTO t (a)" =
  ["INSERT statements must contain 'VALUES' clause";
   "Invalid VALUES clause format. Use: VALUES ({placeholder})"].
Proof.
  apply validateSqlTemplate_insert_without_values; reflexivity.
Defined.

(** ** The CSV line splitter *)

Lemma split_not_nil (sep : ascii) (s : string) :
  exists h t, split sep s = h :: t.
Proof.
  destruct s as [|c s]; cbn [split]; [eauto|].
  destruct (Ascii.eqb c sep); [eauto|]. destruct (split sep s); eauto.
Qed.

Lemma includes_char_cons (c d : ascii) (s : string) :
  includes (String c s) (str1 d) = Ascii.eqb d c || includes s (str1 d).
Proof.
  cbn [includes startsWith str1]. rewrite startsWith_empty, andb_true_r.
  reflexivity.
Qed.

Lemma append_cons' (c : ascii) (a b : string) :
  (a +:+ str1 c) +:+ b = a +:+ String c b.
Proof. rewrite append_assoc. reflexivity. Qed.

(** The loop outside quotes, on text without a double quote, against
    [split]: the pending text [cur] goes in front of the first piece. *)
Lemma csvLoop_unquoted (line : string) :
  forall (tokens : list string) (cur : string),
    includes line (str1 dquote) = false ->
    let st := csvLoop line (mkCsvScan tokens cur false) in
    rev (trim (current st) :: scanned st) =
    (rev tokens ++
     map trim (match split "," line with
               | h :: t => (cur +:+ h) :: t
               | [] => [cur]
               end))%list.
Proof.
  induction line as [|c line IH]; intros tokens cur Hq; cbv zeta.
  - cbn [csvLoop split map current scanned rev]. rewrite append_empty_r.
    reflexivity.
  - rewrite includes_char_cons in Hq. apply orb_false_elim in Hq.
    destruct Hq as [Hc Hq]. cbn [csvLoop]. unfold csvStep.
    rewrite (Ascii.eqb_sym c dquote), Hc.
    cbn [inQuotes scanned current negb andb].
    destruct (split_not_nil "," line) as (h & t & Hsplit).
    pose proof (IH (trim cur :: tokens) EmptyString Hq) as IHcomma.
    pose proof (IH tokens (cur +:+ str1 c) Hq) as IHchar.
    cbv zeta in IHcomma, IHchar. rewrite Hsplit in IHcomma, IHchar.
    cbn [split]. rewrite Hsplit.
    destruct (Ascii.eqb c ","); cbn [andb].
    + rewrite IHcomma. cbn [rev map]. rewrite append_nil, append_empty_r.
      rewrite <- app_assoc. reflexivity.
    + rewrite IHchar. rewrite append_cons'. reflexivity.
Qed.

(** X4: on a line without a double quote, [parseCsvLine] is the split on
    commas followed by the trimming of every piece. *)
Theorem parseCsvLine_unquoted (line : string) :
  includes line (str1 dquote) = false ->
  parseCsvLine line = map trim (split "," line).
Proof.
  intros Hq. unfold parseCsvLine.
  pose proof (csvLoop_unquoted line [] EmptyString Hq) as H. cbv zeta in H.
  rewrite H. cbn [rev app].
  destruct (split_not_nil "," line) as (h & t & ->). reflexivity.
Qed.

Lemma parseCsvLine_unquoted_witness :
  parseCsvLine "id, name ,age" = map trim (split "," "id, name ,age").
Proof. apply parseCsvLine_unquoted. reflexivity. Defined.

(** The tokens already split off play no part in the rest of the loop. *)
Lemma csvLoop_base (line : string) :
  forall (tokens base : list string) (cur : string) (q : bool),
    csvLoop line (mkCsvScan (tokens ++ base) cur q) =
    mkCsvScan (scanned (csvLoop line (mkCsvScan tokens cur q)) ++ base)
              (current (csvLoop line (mkCsvScan tokens cur q)))
              (inQuotes (csvLoop line (mkCsvScan tokens cur q))).
Proof.
  induction line as [|c line IH]; intros tokens base cur q; [reflexivity|].
  cbn [csvLoop]. unfold csvStep. cbn [scanned current inQuotes].
  destruct (Ascii.eqb c dquote); [apply IH|].
  destruct (Ascii.eqb c "," && negb q); [|apply IH].
  rewrite app_comm_cons. apply IH.
Qed.

(** Inside quotes every character but the double quote is kept, the comma
    included. *)
Lemma csvLoop_quoted (s rest : string) :
  forall (tokens : list string) (cur : string),
    includes s (str1 dquote) = false ->
    csvLoop (s +:+ rest) (mkCsvScan tokens cur true) =
    csvLoop rest (mkCsvScan tokens (cur +:+ s) true).
Proof.
  induction s as [|c s IH]; intros tokens cur Hq.
  - rewrite append_nil, append_empty_r. reflexivity.
  - rewrite includes_char_cons in Hq. apply orb_false_elim in Hq.
    destruct Hq as [Hc Hq]. rewrite append_cons. cbn [csvLoop].
    unfold csvStep. rewrite (Ascii.eqb_sym c dquote), Hc.
    cbn [inQuotes scanned current negb]. rewrite andb_false_r.
    rewrite (IH tokens (cur +:+ str1 c) Hq), append_cons'. reflexivity.
Qed.

(** X5: a field in double quotes, itself without a double quote, is one
    token whatever commas it holds: alone on the line it is the only token,
    and followed by a comma it is the first token, the rest of the line
    being split on its own. *)
Theorem parseCsvLine_quoted_field (s rest : string) :
  includes s (str1 dquote) = false ->
  parseCsvLine (str1 dquote +:+ s +:+ str1 dquote) = [trim s]
  /\ parseCsvLine (str1 dquote +:+ s +:+ str1 dquote +:+ "," +:+ rest) =
     trim s :: parseCsvLine rest.
Proof.
  intros Hq. unfold parseCsvLine. split.
  - change (str1 dquote +:+ s +:+ str1 dquote)
      with (String dquote (s +:+ str1 dquote)).
    cbn [csvLoop]. change (csvStep (mkCsvScan [] EmptyString false) dquote)
      with (mkCsvScan [] EmptyString true).
    rewrite (csvLoop_quoted s _ [] EmptyString Hq). reflexivity.
  - change (str1 dquote +:+ s +:+ str1 dquote +:+ "," +:+ rest)
      with (String dquote (s +:+ String dquote (String "," rest))).
    cbn [csvLoop]. change (csvStep (mkCsvScan [] EmptyString false) dquote)
      with (mkCsvScan [] EmptyString true).
    rewrite (csvLoop_quoted s _ [] EmptyString Hq). rewrite append_nil.
    cbn [csvLoop].
    change (csvStep (csvStep (mkCsvScan [] s true) dquote) ",")
      with (mkCsvScan ([] ++ [trim s]) EmptyString false).
    rewrite csvLoop_base. cbn [scanned current].
    rewrite app_comm_cons, rev_app_distr. reflexivity.
Qed.

Lemma parseCsvLine_quoted_field_witness :
  parseCsvLine (str1 dquote +:+ "Doe, Jane" +:+ str1 dquote) = [trim "Doe, Jane"]
  /\ parseCsvLine
       (str1 dquote +:+ "Doe, Jane" +:+ str1 dquote +:+ "," +:+ "42,x") =
     trim "Doe, Jane" :: parseCsvLine "42,x".
Proof. apply parseCsvLine_quoted_field. reflexivity. Defined.

Lemma trimEnd_idempotent (s : string) : trimEnd (trimEnd s) = trimEnd s.
Proof.
  induction s as [|c s IH]; [reflexivity|]. cbn [trimEnd].
  destruct (isWhiteSpace c && isEmpty (trimEnd s)) eqn:Hdrop; [reflexivity|].
  cbn [trimEnd]. rewrite IH, Hdrop. reflexivity.
Qed.

Lemma trimEnd_head (c : ascii) (s : string) :
  isWhiteSpace c = false -> trimEnd (String c s) = String c (trimEnd s).
Proof. intros H. cbn [trimEnd]. rewrite H. reflexivity. Qed.

Lemma trimStart_head (s : string) :
  match trimStart s with
  | EmptyString => True
  | String c _ => isWhiteSpace c = false
  end.
Proof.
  induction s as [|c s IH]; [exact I|]. cbn [trimStart].
  destruct (isWhiteSpace c) eqn:Hc; [exact IH|exact Hc].
Qed.

(** [trim] is idempotent. *)
Lemma trim_idempotent (s : string) : trim (trim s) = trim s.
Proof.
  unfold trim. pose proof (trimStart_head s) as Hhead.
  destruct (trimStart s) as [|c t]; [reflexivity|].
  rewrite (trimEnd_head c t Hhead). cbn [trimStart]. rewrite Hhead.
  rewrite (trimEnd_head c _ Hhead), trimEnd_idempotent. reflexivity.
Qed.

Lemma allChars_trimStart (p : ascii -> bool) (s : string) :
  allChars p s = true -> allChars p (trimStart s) = true.
Proof.
  induction s as [|c s IH]; [reflexivity|]. intros H. cbn [trimStart].
  destruct (isWhiteSpace c); [|exact H].
  cbn [allChars] in H. apply andb_prop in H. exact (IH (proj2 H)).
Qed.

Lemma allChars_trimEnd (p : ascii -> bool) (s : string) :
  allChars p s = true -> allChars p (trimEnd s) = true.
Proof.
  induction s as [|c s IH]; [reflexivity|]. intros H. cbn [trimEnd].
  cbn [allChars] in H. apply andb_prop in H. destruct H as [Hc Hs].
  destruct (isWhiteSpace c && isEmpty (trimEnd s)); [reflexivity|].
  cbn [allChars]. rewrite Hc, (IH Hs). reflexivity.
Qed.

Lemma allChars_trim (p : ascii -> bool) (s : string) :
  allChars p s = true -> allChars p (trim s) = true.
Proof. intros H. apply allChars_trimEnd, allChars_trimStart, H. Qed.

Lemma allChars_excludes (c : ascii) (s : string) :
  allChars (fun d => negb (Ascii.eqb d c)) s = true <->
  includes s (str1 c) = false.
Proof.
  induction s as [|d s IH]; [split; reflexivity|].
  rewrite includes_char_cons. cbn [allChars].
  rewrite (Ascii.eqb_sym c d). destruct (Ascii.eqb d c); cbn [negb andb orb].
  - split; discriminate.
  - exact IH.
Qed.

Lemma csvLoop_tokens (line : string) :
  let clean := allChars (fun d => negb (Ascii.eqb d dquote)) in
  forall (tokens : list string) (cur : string) (q : bool),
    Forall (fun t => clean t = true /\ trim t = t) tokens ->
    clean cur = true ->
    Forall (fun t => clean t = true /\ trim t = t)
           (scanned (csvLoop line (mkCsvScan tokens cur q)))
    /\ clean (current (csvLoop line (mkCsvScan tokens cur q))) = true.
Proof.
  intros clean. induction line as [|c line IH]; intros tokens cur q Ht Hc.
  - split; assumption.
  - cbn [csvLoop]. unfold csvStep. cbn [scanned current inQuotes].
    destruct (Ascii.eqb c dquote) eqn:Hdq; [apply IH; assumption|].
    destruct (Ascii.eqb c "," && negb q).
    + apply IH; [|reflexivity]. constructor; [|exact Ht].
      split; [apply allChars_trim; exact Hc|apply trim_idempotent].
    + apply IH; [exact Ht|]. unfold clean in *. rewrite allChars_append, Hc.
      unfold str1. cbn [allChars andb]. rewrite Hdq. reflexivity.
Qed.

(** X6: [parseCsvLine] always returns at least one token, and every token
    is trimmed and free of double quotes. *)
Theorem parseCsvLine_tokens (line : string) :
  parseCsvLine line <> []
  /\ Forall (fun token =>
               includes token (str1 dquote) = false /\ trim token = token)
            (parseCsvLine line).
Proof.
  unfold parseCsvLine. split.
  - cbn [rev]. intros H. apply app_eq_nil in H. destruct H as [_ H].
    discriminate H.
  - destruct (csvLoop_tokens line [] EmptyString false) as [Hs Hc];
      [constructor|reflexivity|].
    apply Forall_rev. constructor.
    + split; [|apply trim_idempotent].
      apply allChars_excludes, allChars_trim. exact Hc.
    + eapply Forall_impl; [exact Hs|]. cbn beta. intros t [H1 H2].
      split; [apply allChars_excludes; exact H1|exact H2].
Qed.

(** ** The CSV and TSV parsers *)

Lemma buildRow_keys (headers : list string) :
  forall (values : list Value) (row : Row) (inherits : bool),
    length values = length headers ->
    (forall key,
        key ∈ dom (buildRow headers values row inherits) ->
        key ∈ headers \/ key ∈ dom row)
    /\ (forall key,
          (key ∈ headers /\ key <> "__proto__") \/ key ∈ dom row ->
          key ∈ dom (buildRow headers values row inherits)).
Proof.
  induction headers as [|h hs IH]; intros values row inherits Hlen.
  - destruct values; [|discriminate Hlen]. cbn [buildRow]. split.
    + intros key Hkey. right. exact Hkey.
    + intros key [[Hin _]|Hkey]; [inversion Hin|exact Hkey].
  - destruct values as [|v vs]; [discriminate Hlen|].
    assert (length vs = length hs) as Hlen'
      by (cbn [length] in Hlen; lia).
    cbn [buildRow]. destruct (String.eqb h "__proto__" && inherits) eqn:Hset.
    + apply andb_prop in Hset as [Hh _]. apply String.eqb_eq in Hh. subst h.
      destruct (IH vs row (match v with VNull => false | _ => true end) Hlen')
        as [IHsub IHsup].
      split.
      * intros key Hkey. destruct (IHsub key Hkey) as [Hin|Hin];
          [left; right; exact Hin|right; exact Hin].
      * intros key [[Hin Hne]|Hkey]; apply IHsup; [left|right; exact Hkey].
        apply elem_of_cons in Hin as [->|Hin]; [contradiction|].
        split; assumption.
    + destruct (IH vs (<[h := v]> row) inherits Hlen') as [IHsub IHsup].
      split.
      * intros key Hkey. destruct (IHsub key Hkey) as [Hin|Hin];
          [left; right; exact Hin|].
        rewrite dom_insert in Hin. apply elem_of_union in Hin as [Hin|Hin];
          [|right; exact Hin].
        apply elem_of_singleton in Hin. subst key. left. left.
      * intros key Hkey. apply IHsup. rewrite dom_insert.
        destruct Hkey as [[Hin Hne]|Hkey].
        -- apply elem_of_cons in Hin as [->|Hin].
           ++ right. apply elem_of_union_l, elem_of_singleton. reflexivity.
           ++ left. split; assumption.
        -- right. apply elem_of_union_r. exact Hkey.
Qed.

Lemma dataRows_spec (tokens : string -> list Value) (headers : list string)
  (lines : list string) :
  Forall (fun row : Row =>
            (forall key, key ∈ dom row -> key ∈ headers)
            /\ (forall header,
                  header ∈ headers -> header <> "__proto__" ->
                  header ∈ dom row))
         (dataRows tokens headers lines)
  /\ length (dataRows tokens headers lines) =
     length (List.filter (usableLine tokens headers) lines).
Proof.
  induction lines as [|l lines [IHkeys IHlen]];
    [split; [apply Forall_nil_2|reflexivity]|].
  cbn [dataRows List.filter].
  change (usableLine tokens headers l)
    with (negb (isEmpty (trim l))
          && Nat.eqb (length (tokens (trim l))) (length headers)).
  destruct (isEmpty (trim l)); cbn [negb andb];
    [split; [exact IHkeys|exact IHlen]|].
  destruct (Nat.eqb_spec (length (tokens (trim l))) (length headers))
    as [Hlen|_]; [|split; [exact IHkeys|exact IHlen]].
  split; [|cbn [length]; rewrite IHlen; reflexivity].
  constructor; [|exact IHkeys].
  destruct (buildRow_keys headers (tokens (trim l)) ∅ true Hlen)
    as [Hsub Hsup].
  split.
  - intros key Hkey. destruct (Hsub key Hkey) as [Hin|Hin]; [exact Hin|].
    rewrite dom_empty in Hin. apply elem_of_empty in Hin. contradiction.
  - intros header Hin Hne. apply Hsup. left. split; assumption.
Qed.

Lemma exact_keys (headers : list string) (rows : JsonData) :
  Forall (fun row : Row =>
            (forall key, key ∈ dom row -> key ∈ headers)
            /\ (forall header,
                  header ∈ headers -> header <> "__proto__" ->
                  header ∈ dom row)) rows ->
  "__proto__" ∉ headers ->
  Forall (fun row : Row => dom row =@{gset string} list_to_set headers) rows.
Proof.
  intros Hrows Hproto. eapply Forall_impl; [exact Hrows|]. cbn beta.
  intros row [Hsub Hsup]. apply set_eq. intros key.
  rewrite elem_of_list_to_set. split; [apply Hsub|].
  intros Hin. apply Hsup; [exact Hin|]. intros ->. contradiction.
Qed.

(** X7: [parseCSV] makes exactly one row for each data line that is not
    blank and has as many tokens as there are headers; a blank line or a
    line of another length adds no row.  Every key of a row is a header
    name (quotes removed), and every header name other than [__proto__] is
    a key of every row; so when no header is [__proto__], the keys of each
    row are exactly the header names. *)
Theorem parseCSV_rows_have_header_keys (csvText : string) (rows : JsonData) :
  parseCSV csvText = Ok rows ->
  exists first rest,
    split LF (trim csvText) = first :: rest
    /\ Forall (fun row : Row =>
                 (forall key, key ∈ dom row -> key ∈ csvHeaders first)
                 /\ (forall header,
                       header ∈ csvHeaders first -> header <> "__proto__" ->
                       header ∈ dom row)) rows
    /\ ("__proto__" ∉ csvHeaders first ->
        Forall (fun row : Row =>
                  dom row =@{gset string} list_to_set (csvHeaders first))
               rows)
    /\ length rows =
       length (List.filter
                 (usableLine
                    (fun line => map coerceCsvValue (parseCsvLine line))
                    (csvHeaders first)) rest).
Proof.
  unfold parseCSV. destruct (split LF (trim csvText)) as [|first [|second more]];
    try discriminate.
  intros H. injection H as <-. exists first, (second :: more).
  split; [reflexivity|].
  destruct (dataRows_spec
              (fun line => map coerceCsvValue (parseCsvLine line))
              (csvHeaders first) (second :: more)) as [Hkeys Hcount].
  split; [exact Hkeys|]. split; [|exact Hcount].
  apply exact_keys. exact Hkeys.
Qed.

Lemma parseCSV_rows_have_header_keys_witness :
  exists first rest,
    split LF (trim ("id,__proto__" +:+ str1 LF +:+ "1,A" +:+ str1 LF +:+ "2"))
      = first :: rest
    /\ Forall (fun row : Row =>
                 (forall key, key ∈ dom row -> key ∈ csvHeaders first)
                 /\ (forall header,
                       header ∈ csvHeaders first -> header <> "__proto__" ->
                       header ∈ dom row))
              [ ({[ "id" := num 1 ]} : Row) ]
    /\ ("__proto__" ∉ csvHeaders first ->
        Forall (fun row : Row =>
                  dom row =@{gset string} list_to_set (csvHeaders first))
               [ ({[ "id" := num 1 ]} : Row) ])
    /\ length [ ({[ "id" := num 1 ]} : Row) ] =
       length (List.filter
                 (usableLine
                    (fun line => map coerceCsvValue (parseCsvLine line))
                    (csvHeaders first)) rest).
Proof.
  apply (parseCSV_rows_have_header_keys
           ("id,__proto__" +:+ str1 LF +:+ "1,A" +:+ str1 LF +:+ "2")).
  vm_compute. reflexivity.
Defined.

(** X8: [parseTSV] makes exactly one row for each data line that is not
    blank and has as many tab-separated tokens as there are headers.  Every
    key of a row is a trimmed header name, and every header name other than
    [__proto__] is a key of every row; so when no header is [__proto__],
    the keys of each row are exactly the header names. *)
Theorem parseTSV_rows_have_header_keys (tsvText : string) (rows : JsonData) :
  parseTSV tsvText = Ok rows ->
  exists first rest,
    split LF (trim tsvText) = first :: rest
    /\ Forall (fun row : Row =>
                 (forall key,
                     key ∈ dom row -> key ∈ map trim (split TAB first))
                 /\ (forall header,
                       header ∈ map trim (split TAB first) ->
                       header <> "__proto__" -> header ∈ dom row)) rows
    /\ ("__proto__" ∉ map trim (split TAB first) ->
        Forall (fun row : Row =>
                  dom row =@{gset string}
                  list_to_set (map trim (split TAB first))) rows)
    /\ length rows =
       length (List.filter
                 (usableLine (fun line => map coerceTsvValue (split TAB line))
                             (map trim (split TAB first))) rest).
Proof.
  unfold parseTSV. destruct (split LF (trim tsvText)) as [|first [|second more]];
    try discriminate.
  intros H. injection H as <-. exists first, (second :: more).
  split; [reflexivity|].
  destruct (dataRows_spec
              (fun line => map coerceTsvValue (split TAB line))
              (map trim (split TAB first)) (second :: more))
    as [Hkeys Hcount].
  split; [exact Hkeys|]. split; [|exact Hcount].
  apply exact_keys. exact Hkeys.
Qed.

Lemma parseTSV_rows_have_header_keys_witness :
  exists first rest,
    split LF (trim ("id" +:+ str1 TAB +:+ "name" +:+ str1 LF
                    +:+ "1" +:+ str1 TAB +:+ "A")) = first :: rest
    /\ Forall (fun row : Row =>
                 (forall key,
                     key ∈ dom row -> key ∈ map trim (split TAB first))
                 /\ (forall header,
                       header ∈ map trim (split TAB first) ->
                       header <> "__proto__" -> header ∈ dom row))
              [ ({[ "id" := num 1; "name" := VStr "A" ]} : Row) ]
    /\ ("__proto__" ∉ map trim (split TAB first) ->
        Forall (fun row : Row =>
                  dom row =@{gset string}
                  list_to_set (map trim (split TAB first)))
               [ ({[ "id" := num 1; "name" := VStr "A" ]} : Row) ])
    /\ length [ ({[ "id" := num 1; "name" := VStr "A" ]} : Row) ] =
       length (List.filter
                 (usableLine (fun line => map coerceTsvValue (split TAB line))
                             (map trim (split TAB first))) rest).
Proof.
  apply (parseTSV_rows_have_header_keys
           ("id" +:+ str1 TAB +:+ "name" +:+ str1 LF
            +:+ "1" +:+ str1 TAB +:+ "A")).
  vm_compute. reflexivity.
Defined.

Lemma split_lines (sep : ascii) (s : string) :
  if includes s (str1 sep)
  then exists a b t, split sep s = a :: b :: t
  else split sep s = [s].
Proof.
  induction s as [|c s IH]; [reflexivity|].
  rewrite includes_char_cons. cbn [split]. rewrite (Ascii.eqb_sym sep c).
  destruct (Ascii.eqb c sep); cbn [orb].
  - destruct (split_not_nil sep s) as (h & t & ->). eauto.
  - destruct (includes s (str1 sep)).
    + destruct IH as (a & b & t & ->). eauto.
    + rewrite IH. reflexivity.
Qed.

(** X9: both parsers refuse a text exactly when, once trimmed, it has no
    line feed, that is fewer than two lines; otherwise they return rows. *)
Theorem parsers_need_two_lines (text : string) :
  (parseCSV text = Throw "CSV must have at least a header row and one data row"
   <-> includes (trim text) (str1 LF) = false)
  /\ (parseTSV text =
        Throw "Data must have at least a header row and one data row"
      <-> includes (trim text) (str1 LF) = false)
  /\ ((exists rows, parseCSV text = Ok rows)
      <-> includes (trim text) (str1 LF) = true)
  /\ ((exists rows, parseTSV text = Ok rows)
      <-> includes (trim text) (str1 LF) = true).
Proof.
  unfold parseCSV, parseTSV. pose proof (split_lines LF (trim text)) as H.
  destruct (includes (trim text) (str1 LF)).
  - destruct H as (a & b & t & ->).
    repeat split; intros; try discriminate; eauto.
  - rewrite H. repeat split; intros; try discriminate;
      match goal with H : exists _, _ |- _ => destruct H; discriminate end.
Qed.

(** ** The load handlers *)

Lemma validateJson_rows (rows : JsonData) :
  validateJson (JArray (map rowToJson rows)) =
  match rows with [] => ["JSON array cannot be empty"] | _ :: _ => [] end.
Proof. destruct rows; reflexivity. Qed.

(** X10: a dropped [.csv], [.tsv] or [.txt] file whose text the parser
    accepts is loaded exactly when at least one data line had the arity of
    the header line; with no such line the file is refused with the message
    of the empty array and the row set is cleared. *)
Theorem onDrop_table_file (file : File) (others : list File) (st : State)
  (rows : JsonData) :
  let lower := toLowerCase (file_name file) in
  (endsWith lower ".csv" = true /\ parseCSV (file_text file) = Ok rows)
  \/ (endsWith lower ".csv" = false
      /\ endsWith lower ".tsv" || endsWith lower ".txt" = true
      /\ parseTSV (file_text file) = Ok rows) ->
  onDrop (file :: others) st =
  Ok (match rows with
      | [] => mkState None (sqlTabs st) (activeTab st)
                      ["JSON array cannot be empty"] (file_name file) false
      | _ :: _ => mkState (Some (map rowToJson rows)) [] O []
                          (file_name file) false
      end).
Proof.
  intros lower H. unfold onDrop. fold lower.
  assert ((if endsWith lower ".csv"
           then rows <- parseCSV (file_text file) ;;;
                Ok (JArray (map rowToJson rows))
           else if endsWith lower ".tsv" || endsWith lower ".txt"
                then rows <- parseTSV (file_text file) ;;;
                     Ok (JArray (map rowToJson rows))
                else data <- parseJson (file_text file) ;;;
                     unwrapCollectPoints data)
          = Ok (JArray (map rowToJson rows))) as ->.
  { destruct H as [ [H1 H2] | (H1 & H2 & H3) ].
    - rewrite H1, H2. reflexivity.
    - rewrite H1, H2, H3. reflexivity. }
  unfold finishLoad. rewrite validateJson_rows.
  destruct rows; reflexivity.
Qed.

Lemma onDrop_table_file_witness :
  onDrop [mkFile "Items.CSV" ("id,name" +:+ str1 LF +:+ "1")] emptyState =
  Ok (mkState None (sqlTabs emptyState) (activeTab emptyState)
              ["JSON array cannot be empty"] "Items.CSV" false).
Proof.
  apply (onDrop_table_file
           (mkFile "Items.CSV" ("id,name" +:+ str1 LF +:+ "1")) []
           emptyState []).
  left. split; vm_compute; reflexivity.
Defined.

Lemma trimEnd_empty (s : string) :
  isEmpty (trimEnd s) = true -> allChars isWhiteSpace s = true.
Proof.
  induction s as [|c s IH]; [reflexivity|]. cbn [trimEnd allChars].
  destruct (isWhiteSpace c); cbn [andb]; [|discriminate].
  destruct (isEmpty (trimEnd s)); [intros _; auto|discriminate].
Qed.

Lemma trim_empty (s : string) :
  isEmpty (trim s) = true -> allChars isWhiteSpace s = true.
Proof.
  unfold trim. induction s as [|c s IH]; [reflexivity|].
  cbn [trimStart allChars]. destruct (isWhiteSpace c) eqn:Hc; cbn [andb].
  - exact IH.
  - cbn [trimEnd]. rewrite Hc. discriminate.
Qed.

Lemma skipSpace_blank (s : string) :
  allChars isWhiteSpace s = true ->
  skipSpace s = EmptyString
  \/ exists c r, skipSpace s = String c r
                 /\ isWhiteSpace c = true /\ isJsonSpace c = false.
Proof.
  induction s as [|c s IH]; [left; reflexivity|]. cbn [allChars skipSpace].
  intros [Hc Hs]%andb_prop. destruct (isJsonSpace c) eqn:Hj; [auto|].
  right. eauto.
Qed.

Lemma other_space (c : ascii) :
  isWhiteSpace c = true -> isJsonSpace c = false ->
  c = ascii_of_nat 11 \/ c = ascii_of_nat 12 \/ c = ascii_of_nat 160.
Proof.
  destruct c as [[] [] [] [] [] [] [] []]; vm_compute; intros; try discriminate;
    auto.
Qed.

Lemma parseValue_blank (fuel : nat) (s : string) :
  allChars isWhiteSpace s = true ->
  parseValue (S fuel) s = Throw jsonSyntaxError.
Proof.
  intros H. cbn [parseValue].
  destruct (skipSpace_blank s H) as [-> | (c & r & -> & Hw & Hj)];
    [reflexivity|].
  destruct (other_space c Hw Hj) as [-> | [-> | ->] ]; reflexivity.
Qed.

Lemma parseJson_not_blank (text : string) (j : Json) :
  parseJson text = Ok j -> isEmpty (trim text) = false.
Proof.
  intros H. destruct (isEmpty (trim text)) eqn:Hblank; [|reflexivity].
  apply trim_empty in Hblank. unfold parseJson in H.
  replace (2 * String.length text + 2)%nat
    with (S (2 * String.length text + 1)) in H by lia.
  rewrite (parseValue_blank _ _ Hblank) in H. discriminate H.
Qed.

(** X11: a pasted text that is a JSON document is never read as CSV or
    TSV.  When the document is no array it is wrapped as a single element:
    one object is loaded as a row set of one row, and any other value is
    refused with the message for elements that are no objects. *)
Theorem processManualData_single_value (manualData : string) (j : Json)
  (st : State) :
  parseJson manualData = Ok j ->
  (forall items, j <> JArray items) ->
  processManualData manualData st =
  Ok (match j with
      | JObject _ => mkState (Some [j]) [] O [] "Manual Input" false
      | _ => mkState None (sqlTabs st) (activeTab st)
                     ["Array elements must be objects"] "Manual Input" false
      end).
Proof.
  intros Hparse Hscalar. unfold processManualData, parseDataText.
  rewrite (parseJson_not_blank _ _ Hparse), Hparse.
  destruct j; try reflexivity. destruct (Hscalar items eq_refl).
Qed.

Lemma processManualData_single_value_witness :
  processManualData (jsonText "{'id': 7}") emptyState =
  Ok (mkState (Some [JObject {[ "id" := JNumber (Fin 7 0) ]}]) [] O []
              "Manual Input" false).
Proof.
  apply (processManualData_single_value (jsonText "{'id': 7}")
           (JObject {[ "id" := JNumber (Fin 7 0) ]}) emptyState).
  - vm_compute. reflexivity.
  - intros items. discriminate.
Defined.

(** ** Placeholders that the pattern language takes literally *)

Lemma parsePattern_plain_char (c : ascii) (s : string) (st : pstate) :
  isSyntaxChar c = false ->
  parsePattern (String c s) st = parsePattern s (pushTerm (RChar c) Atom st).
Proof.
  destruct c as [[] [] [] [] [] [] [] []]; intros H;
    first [ discriminate H | reflexivity ].
Qed.

Lemma parsePattern_escaped_brace (c : ascii) (s : string) (st : pstate) :
  isBrace c = true ->
  parsePattern (String "\" (String c s)) st =
  parsePattern s (pushTerm (RChar c) Atom st).
Proof.
  unfold isBrace. intros H. apply orb_prop in H.
  destruct H as [H|H]; apply Ascii.eqb_eq in H; subst c; reflexivity.
Qed.

Lemma parsePattern_safe (s : string) :
  allChars isPatternSafe s = true ->
  forall st, stack st = [] ->
    exists p, parsePattern (escapeBraces s) st = Ok p.
Proof.
  induction s as [|c s IH]; intros Hsafe st Hstack.
  - cbn [escapeBraces parsePattern]. rewrite Hstack. eauto.
  - cbn [allChars] in Hsafe. apply andb_prop in Hsafe as [Hc Hs].
    cbn [escapeBraces]. destruct (isBrace c) eqn:Hbrace.
    + rewrite parsePattern_escaped_brace by exact Hbrace.
      apply IH; [exact Hs|exact Hstack].
    + unfold isPatternSafe in Hc. rewrite Hbrace in Hc. cbn [orb] in Hc.
      rewrite parsePattern_plain_char by (destruct (isSyntaxChar c);
                                          [discriminate Hc|reflexivity]).
      apply IH; [exact Hs|exact Hstack].
Qed.

Lemma compile_safe (placeholder : string) :
  allChars isPatternSafe placeholder = true ->
  exists re, compile (escapeBraces placeholder) = Ok re.
Proof.
  intros H. unfold compile.
  destruct (parsePattern_safe placeholder H
              (mkPstate (mkFrame [] []) [] O NotQuantifiable) eq_refl)
    as [p ->].
  eexists. reflexivity.
Qed.

Lemma foldResult_safe (row : Row) (placeholders : list string) :
  Forall (fun p => allChars isPatternSafe p = true) placeholders ->
  forall acc, exists r,
    foldResult (substitutePlaceholder row) placeholders acc = Ok r.
Proof.
  induction 1 as [|p ps Hp _ IH]; intros acc; [eexists; reflexivity|].
  cbn [foldResult]. unfold substitutePlaceholder at 1.
  destruct (compile_safe p Hp) as [re ->]. cbn [bind]. apply IH.
Qed.

Lemma mapResult_total {A B : Type} (f : A -> result B) (l : list A) :
  (forall a, exists b, f a = Ok b) -> exists ys, mapResult f l = Ok ys.
Proof.
  intros Hf. induction l as [|a l [ys IH]]; [eexists; reflexivity|].
  cbn [mapResult]. destruct (Hf a) as [b ->]. rewrite IH. eexists. reflexivity.
Qed.

Lemma renderRow_safe (rowTemplate : string) (rows : JsonData) :
  Forall (fun p => allChars isPatternSafe p = true)
         (singleCurlyMatches rowTemplate) ->
  exists allRows, mapResult (renderRow rowTemplate) rows = Ok allRows.
Proof.
  intros Hsafe. apply mapResult_total. intros row. unfold renderRow.
  destruct (foldResult_safe row _ Hsafe rowTemplate) as [r ->].
  eexists. reflexivity.
Qed.

Lemma renderStatement_safe (template : string) (rows : JsonData) :
  Forall (fun p => allChars isPatternSafe p = true)
         (singleCurlyMatches template) ->
  exists statements,
    mapResult (renderStatement template) rows = Ok statements.
Proof.
  intros Hsafe. apply mapResult_total. intros row. unfold renderStatement.
  apply foldResult_safe. exact Hsafe.
Qed.

(** The placeholders of a part of a text lie within placeholders of the
    text. *)
Lemma scanSingle_app (u v : string) :
  forall opened, exists opened',
    scanSingle (u +:+ v) opened =
    (scanSingle u opened ++ scanSingle v opened')%list.
Proof.
  induction u as [|c u IH]; intros opened.
  - exists opened. destruct opened; reflexivity.
  - rewrite append_cons. cbn [scanSingle]. destruct opened as [run|].
    + destruct (Ascii.eqb c "}").
      * destruct (isEmpty run).
        -- apply IH.
        -- destruct (IH None) as [o' ->]. exists o'. reflexivity.
      * apply IH.
    + apply IH.
Qed.

Lemma scanSingle_covers (t : string) :
  forall inner outer,
    scanCovers inner outer ->
    Forall (fun p => allChars isPatternSafe p = true) (scanSingle t outer) ->
    Forall (fun p => allChars isPatternSafe p = true) (scanSingle t inner).
Proof.
  induction t as [|c t IH]; intros inner outer Hcov Hall; [constructor|].
  cbn [scanSingle] in *. destruct inner as [r1|], outer as [r2|];
    cbn [scanCovers] in Hcov; try contradiction.
  - destruct Hcov as [pre ->]. destruct (Ascii.eqb c "}").
    + destruct (isEmpty r1) eqn:H1.
      * apply (IH None None I).
        destruct (isEmpty (pre +:+ r1)); [exact Hall|].
        inversion Hall; assumption.
      * assert (isEmpty (pre +:+ r1) = false) as Hne.
        { destruct pre; [exact H1|reflexivity]. }
        rewrite Hne in Hall.
        inversion Hall as [|q qs Hq Hqs]; subst. constructor.
        -- rewrite !allChars_append in *.
           repeat match goal with
                  | H : _ && _ = true |- _ => apply andb_prop in H as [? ?]
                  end.
           repeat (apply andb_true_intro; split); assumption.
        -- apply (IH None None I Hqs).
    + apply (IH (Some (r1 +:+ str1 c)) (Some ((pre +:+ r1) +:+ str1 c)));
        [|exact Hall].
      exists pre. apply append_assoc.
  - destruct (Ascii.eqb c "}") eqn:Hclose.
    + assert (Ascii.eqb c "{" = false) as ->.
      { apply Ascii.eqb_eq in Hclose. subst c. reflexivity. }
      apply (IH None None I).
      destruct (isEmpty r2); [exact Hall|]. inversion Hall; assumption.
    + destruct (Ascii.eqb c "{").
      * apply (IH (Some EmptyString) (Some (r2 +:+ str1 c))); [|exact Hall].
        exists (r2 +:+ str1 c). symmetry. apply append_empty_r.
      * apply (IH None (Some (r2 +:+ str1 c)) I Hall).
  - destruct (Ascii.eqb c "{").
    + apply (IH (Some EmptyString) (Some EmptyString)); [|exact Hall].
      exists EmptyString. reflexivity.
    + apply (IH None None I Hall).
Qed.

Lemma placeholders_of_part (pre t post : string) :
  Forall (fun p => allChars isPatternSafe p = true)
         (singleCurlyMatches (pre +:+ t +:+ post)) ->
  Forall (fun p => allChars isPatternSafe p = true) (singleCurlyMatches t).
Proof.
  unfold singleCurlyMatches. intros H.
  destruct (scanSingle_app pre (t +:+ post) None) as [o Ho].
  rewrite Ho in H. apply Forall_app in H as [_ H].
  apply (scanSingle_covers _ None o I) in H.
  destruct (scanSingle_app t post None) as [o' Ho'].
  rewrite Ho' in H. apply Forall_app in H as [H _]. exact H.
Qed.

Lemma trimStart_suffix (s : string) :
  exists blank, s = blank +:+ trimStart s.
Proof.
  induction s as [|c s [blank IH]]; [exists EmptyString; reflexivity|].
  cbn [trimStart]. destruct (isWhiteSpace c).
  - exists (String c blank). rewrite append_cons, <- IH. reflexivity.
  - exists EmptyString. reflexivity.
Qed.

Lemma beforeLast_prefix (ch : ascii) (s : string) :
  forall t, beforeLast ch s = Some t -> exists post, s = t +:+ post.
Proof.
  induction s as [|c s IH]; intros t H; [discriminate H|].
  cbn [beforeLast] in H. destruct (beforeLast ch s) as [t'|].
  - injection H as <-. destruct (IH t' eq_refl) as [post ->].
    exists post. reflexivity.
  - destruct (Ascii.eqb c ch); [|discriminate H]. injection H as <-.
    exists (String c s). reflexivity.
Qed.

Lemma valuesAt_part (s group : string) :
  valuesAt s = Some group -> exists pre post, s = pre +:+ group +:+ post.
Proof.
  unfold valuesAt. destruct (startsWithIgnoreCase s "VALUES"); [|discriminate].
  destruct (trimStart_suffix (dropChars 6 s)) as [blank Hblank].
  destruct (trimStart (dropChars 6 s)) as [|c body]; [discriminate|].
  intros H.
  assert (beforeLast ")" body = Some group) as Hbody.
  { destruct c as [[] [] [] [] [] [] [] []]; first [discriminate H|exact H]. }
  destruct (beforeLast_prefix _ _ _ Hbody) as [post ->].
  exists (takeChars 6 s +:+ blank +:+ str1 c), post.
  rewrite <- (take_drop_chars 6 s) at 1. rewrite Hblank.
  rewrite !append_assoc. reflexivity.
Qed.

Lemma valuesMatchFrom_part (s : string) :
  forall i index group,
    valuesMatchFrom s i = Some (index, group) ->
    exists pre post, s = pre +:+ group +:+ post.
Proof.
  induction s as [|c s IH]; intros i index group H.
  - cbn [valuesMatchFrom] in H.
    destruct (valuesAt EmptyString) as [g|] eqn:Hat; [|discriminate H].
    injection H as _ <-. apply valuesAt_part. exact Hat.
  - cbn [valuesMatchFrom] in H.
    destruct (valuesAt (String c s)) as [g|] eqn:Hat.
    + injection H as _ <-. apply valuesAt_part. exact Hat.
    + destruct (IH _ _ _ H) as (pre & post & ->).
      exists (String c pre), post. reflexivity.
Qed.

Lemma generateSqlTabs_values_path (fuel : nat) (rows : JsonData)
  (batchSize : Z) (template : string) (index : nat) (rowTemplate : string)
  (allRows : list string) (tracked : list (string * bool)) :
  includes (toLowerCase template) "values" = true ->
  valuesMatch template = Some (index, rowTemplate) ->
  isEmpty rowTemplate = false ->
  mapResult (renderRow rowTemplate) rows = Ok allRows ->
  mapResult (renderRowTracking rowTemplate) rows = Ok tracked ->
  1 <= batchSize ->
  (length rows < fuel)%nat ->
  generateSqlTabs fuel rows batchSize template =
  let insertStatement := insertStatementOf template index in
  Some (Ok (SetSqlTabs
    (initialTabs insertStatement (length rows) allRows tracked
     ++ (if batchSize <? Z.of_nat (length rows) then
           imap (fun i chunk =>
                   batchTab insertStatement (Fin (Z.of_nat i + 1) 0)
                     (join commaNewline (renderedRows rowTemplate chunk))
                     (length chunk))
                (chunksOf fuel (Z.to_nat batchSize) rows)
         else []))%list)).
Proof.
  intros Hvalues Hmatch Hgroup Hall Htracked Hsize Hfuel.
  unfold generateSqlTabs. rewrite Hvalues, Hmatch.
  destruct rowTemplate as [|c rowTemplate']; [discriminate Hgroup|].
  rewrite Hall, Htracked. cbv zeta.
  destruct (Z.ltb_spec batchSize (Z.of_nat (length rows))) as [Hlt|Hge];
    [|rewrite app_nil_r; reflexivity].
  set (n := Z.to_nat batchSize).
  assert (batchSize = Z.of_nat n) as Hb by (unfold n; clear - Hsize; lia).
  assert (1 <= n)%nat as Hn by (unfold n; clear - Hsize; lia).
  pose proof (batchLoop_chunks rows n (insertStatementOf template index)
                (String c rowTemplate') allRows Hn Hall fuel 0%nat
                (initialTabs (insertStatementOf template index) (length rows)
                             allRows tracked)) as Hloop.
  rewrite Nat.mul_0_l, drop_0 in Hloop. change (Z.of_nat 0) with 0 in Hloop.
  rewrite Hb at 1. rewrite Hloop by exact Hfuel. reflexivity.
Qed.

(** X12: for a loaded array [items] whose elements are all objects with
    fields that are null, numbers or strings, and [rows] its rows: the
    expansion of a template whose single-brace placeholders hold only
    characters that a pattern takes literally, with a batch size of at
    least 1, never raises and ends: once the loop may test its condition
    more often than there are rows, the run hands over an error list or
    tabs, whatever the rows hold and whatever else the template holds.
    (An array with an element that is no object, or with a field that is
    an array, an object or a boolean, is outside this statement.) *)
Theorem generateSqlScript_returns_for_plain_placeholders (fuel : nat)
  (items : list Json) (rows : JsonData) (template : string) (batchSize : Z) :
  rowsOf items = Some rows ->
  Forall (fun p => allChars isPatternSafe p = true)
         (singleCurlyMatches template) ->
  1 <= batchSize ->
  (length rows < fuel)%nat ->
  exists update,
    generateSqlScript fuel (Some rows) template batchSize = Some (Ok update).
Proof.
  intros _ Hsafe Hsize Hfuel. unfold generateSqlScript.
  destruct (validateSqlTemplate template); [|eauto].
  destruct (Nat.ltb 0 (length (doubleCurlyMatches template))); [eauto|].
  destruct (includes (toLowerCase template) "values") eqn:Hvalues.
  - destruct (valuesMatch template) as [[index rowTemplate]|] eqn:Hmatch.
    + destruct (isEmpty rowTemplate) eqn:Hgroup.
      * unfold generateSqlTabs. rewrite Hvalues, Hmatch.
        destruct rowTemplate; [eauto|discriminate Hgroup].
      * destruct (valuesMatchFrom_part _ _ _ _ Hmatch) as (pre & post & Hpart).
        rewrite Hpart in Hsafe. apply placeholders_of_part in Hsafe.
        destruct (renderRow_safe rowTemplate rows Hsafe) as [allRows Hall].
        destruct (renderRowTracking_ok _ _ _ Hall) as [tracked Htracked].
        rewrite (generateSqlTabs_values_path fuel rows batchSize template
                   index rowTemplate allRows tracked) by assumption.
        eauto.
    + unfold generateSqlTabs. rewrite Hvalues, Hmatch. eauto.
  - unfold generateSqlTabs. rewrite Hvalues.
    destruct (renderStatement_safe template rows Hsafe) as [statements ->].
    eauto.
Qed.

Lemma generateSqlScript_returns_for_plain_placeholders_witness :
  exists update,
    generateSqlScript 3 (Some scenarioRows) scenarioTemplate 1 =
      Some (Ok update).
Proof.
  apply (generateSqlScript_returns_for_plain_placeholders 3
           (map rowToJson scenarioRows) scenarioRows scenarioTemplate 1).
  - vm_compute. reflexivity.
  - repeat constructor.
  - lia.
  - cbn. lia.
Defined.

(** ** The split by NULL and the order of the tabs *)

Lemma foldResult_tracking_flag (row : Row) (placeholders : list string) :
  forall (acc : string) (flag : bool) (r : string * bool),
    foldResult (substituteTracking row) placeholders (acc, flag) = Ok r ->
    snd r =
    flag || existsb (fun p => negb (notNullish (row !! removeBraces p)))
                    placeholders.
Proof.
  induction placeholders as [|p ps IH]; intros acc flag r H.
  - injection H as <-. cbn. rewrite orb_false_r. reflexivity.
  - cbn [foldResult existsb] in *. unfold substituteTracking at 1 in H.
    destruct (compile (escapeBraces p)) as [re| |];
      [|destruct (row !! removeBraces p) as [[| |]|]; discriminate H..].
    destruct (row !! removeBraces p) as [[| |]|]; cbn [bind] in H;
      apply IH in H; rewrite H; cbn [notNullish negb orb];
      rewrite ?orb_true_r; reflexivity.
Qed.

Lemma foldResult_tracking_clean (row : Row) (placeholders : list string) :
  existsb (fun p => negb (notNullish (row !! removeBraces p))) placeholders
  = false ->
  forall (acc : string) (flag : bool),
    foldResult (substituteTracking row) placeholders (acc, flag) =
    (r <- foldResult (substitutePlaceholder row) placeholders acc ;;;
     Ok (r, flag)).
Proof.
  induction placeholders as [|p ps IH]; intros Hclean acc flag;
    [reflexivity|].
  cbn [existsb] in Hclean. apply orb_false_elim in Hclean as [Hp Hps].
  cbn [foldResult]. unfold substituteTracking at 1.
  unfold substitutePlaceholder at 1.
  destruct (row !! removeBraces p) as [[| |]|]; try discriminate Hp;
    destruct (compile (escapeBraces p)) as [re| |]; cbn [bind];
    try reflexivity; apply IH; exact Hps.
Qed.

Lemma tracked_flags (rowTemplate : string) (rows : JsonData) :
  forall tracked,
    mapResult (renderRowTracking rowTemplate) rows = Ok tracked ->
    map snd tracked = map (hasNullKey rowTemplate) rows.
Proof.
  induction rows as [|row rows IH]; intros tracked H.
  - injection H as <-. reflexivity.
  - cbn [mapResult] in H.
    destruct (renderRowTracking rowTemplate row) as [t| |] eqn:Hrow;
      try discriminate H.
    cbn [bind] in H.
    destruct (mapResult (renderRowTracking rowTemplate) rows) as [ts| |];
      try discriminate H.
    injection H as <-. cbn [map]. rewrite (IH ts eq_refl). f_equal.
    unfold renderRowTracking in Hrow.
    destruct (foldResult _ _ _) as [r| |] eqn:Hfold; try discriminate Hrow.
    injection Hrow as <-. cbn [snd].
    apply foldResult_tracking_flag in Hfold. exact Hfold.
Qed.

Lemma tracked_clean_rows (rowTemplate : string) (rows : JsonData) :
  forall tracked,
    mapResult (renderRowTracking rowTemplate) rows = Ok tracked ->
    mapResult (renderRow rowTemplate)
      (List.filter (fun row => negb (hasNullKey rowTemplate row)) rows) =
    Ok (map fst (List.filter (fun p : string * bool => negb (snd p)) tracked)).
Proof.
  induction rows as [|row rows IH]; intros tracked H.
  - injection H as <-. reflexivity.
  - cbn [mapResult] in H.
    destruct (renderRowTracking rowTemplate row) as [t| |] eqn:Hrow;
      try discriminate H.
    cbn [bind] in H.
    destruct (mapResult (renderRowTracking rowTemplate) rows) as [ts| |]
      eqn:Hrest; try discriminate H.
    injection H as <-. specialize (IH ts eq_refl).
    cbn [List.filter]. unfold renderRowTracking in Hrow.
    destruct (hasNullKey rowTemplate row) eqn:Hnull; cbn [negb].
    + destruct (foldResult _ _ _) as [r| |] eqn:Hfold; try discriminate Hrow.
      injection Hrow as <-. cbn [snd].
      apply foldResult_tracking_flag in Hfold. cbn [orb] in Hfold.
      unfold hasNullKey in Hnull. rewrite Hfold, Hnull. cbn [negb]. exact IH.
    + unfold hasNullKey in Hnull.
      rewrite (foldResult_tracking_clean _ _ Hnull) in Hrow.
      destruct (foldResult (substitutePlaceholder row) _ _) as [r| |] eqn:Hfold;
        try discriminate Hrow.
      cbn [bind] in Hrow. injection Hrow as <-. cbn [snd negb fst map].
      cbn [mapResult]. unfold renderRow at 1. rewrite Hfold. cbn [bind].
      rewrite IH. reflexivity.
Qed.

Lemma filter_snd_length {A : Type} (f : A -> bool) (l : list A) :
  forall tracked : list (string * bool),
    map snd tracked = map f l ->
    length (List.filter (fun p : string * bool => snd p) tracked) =
      length (List.filter f l)
    /\ length (List.filter (fun p : string * bool => negb (snd p)) tracked) =
         length (List.filter (fun a => negb (f a)) l).
Proof.
  induction l as [|a l IH]; intros [|[s b] tracked] H; try discriminate H.
  - split; reflexivity.
  - cbn [map snd] in H. injection H as Hb Hrest.
    destruct (IH tracked Hrest) as [IH1 IH2].
    cbn [List.filter snd]. rewrite <- Hb.
    destruct b; cbn [negb length]; rewrite IH1, IH2; split; reflexivity.
Qed.

Lemma filter_split_length {A : Type} (f : A -> bool) (l : list A) :
  (length (List.filter (fun a => negb (f a)) l) + length (List.filter f l)
   = length l)%nat.
Proof.
  induction l as [|a l IH]; [reflexivity|]. cbn [List.filter].
  destruct (f a); cbn [negb length]; lia.
Qed.

Lemma tabOfType_batches {A : Type} (t : TabType) (initial : list SqlTab)
  (f : nat -> A -> SqlTab) (l : list A) :
  t <> batch -> (forall i x, type (f i x) = batch) ->
  tabOfType t (initial ++ imap f l) = tabOfType t initial.
Proof.
  intros Ht Hf. unfold tabOfType. induction initial as [|tab initial IH].
  - cbn [app]. revert f Hf. induction l as [|x l IHl]; intros f Hf;
      [reflexivity|].
    cbn [imap find]. rewrite Hf.
    destruct t; try contradiction; apply IHl; intros; apply Hf.
  - cbn [app find]. rewrite IH. reflexivity.
Qed.

(** X13: for rows whose fields are null, numbers or strings: in the
    expansion of a per-row template with a VALUES clause whose placeholder
    keys name no member of [Object.prototype], a row belongs to
    the tab without NULL values exactly when none of the keys named in the
    row template is missing or null in it.  The tab holds the row strings
    of those rows, rendered as for the tab ALL, and counts them; it is
    absent when there is no such row.  The tab with NULL values counts the
    other rows, and the two counts add up to the number of rows. *)
Theorem split_by_null_keys (fuel : nat) (rows : JsonData)
  (template : string) (batchSize : Z) (index : nat) (rowTemplate : string)
  (allRows : list string) :
  validateSqlTemplate template = [] ->
  doubleCurlyMatches template = [] ->
  includes (toLowerCase template) "values" = true ->
  valuesMatch template = Some (index, rowTemplate) ->
  isEmpty rowTemplate = false ->
  Forall (fun p => isInheritedKey (removeBraces p) = false)
         (singleCurlyMatches rowTemplate) ->
  mapResult (renderRow rowTemplate) rows = Ok allRows ->
  1 <= batchSize ->
  (length rows < fuel)%nat ->
  exists tabs,
    generateSqlScript fuel (Some rows) template batchSize =
      Some (Ok (SetSqlTabs tabs))
    /\ (let clean :=
          List.filter (fun row => negb (hasNullKey rowTemplate row)) rows in
        tabOfType without_null tabs =
        match clean with
        | [] => None
        | _ :: _ =>
            Some (mkSqlTab "without-null" "Without NULL values"
                    (insertStatementOf template index
                     +:+ join commaNewline (renderedRows rowTemplate clean))
                    (length clean) without_null)
        end)
    /\ rowCountOf with_null tabs =
         length (List.filter (hasNullKey rowTemplate) rows)
    /\ (rowCountOf without_null tabs + rowCountOf with_null tabs
        = length rows)%nat.
Proof.
  intros Hvalid Hdouble Hvalues Hmatch Hgroup _ Hall Hsize Hfuel.
  destruct (renderRowTracking_ok _ _ _ Hall) as [tracked Htracked].
  unfold generateSqlScript. rewrite Hvalid, Hdouble.
  cbn [length Nat.ltb Nat.leb].
  rewrite (generateSqlTabs_values_path fuel rows batchSize template index
             rowTemplate allRows tracked) by assumption.
  cbv zeta. eexists. split; [reflexivity|].
  pose proof (tracked_flags _ _ _ Htracked) as Hflags.
  assert (map fst (List.filter (fun p : string * bool => negb (snd p))
                               tracked) =
          renderedRows rowTemplate
            (List.filter (fun row => negb (hasNullKey rowTemplate row)) rows))
    as Hclean.
  { unfold renderedRows. rewrite (tracked_clean_rows _ _ _ Htracked).
    reflexivity. }
  destruct (filter_snd_length (hasNullKey rowTemplate) rows tracked Hflags)
    as [Hnull Hnot].
  pose proof (filter_split_length (hasNullKey rowTemplate) rows) as Hsum.
  set (ins := insertStatementOf template index) in *.
  assert (forall extra,
            (extra = [] \/ exists (f : nat -> JsonData -> SqlTab) l,
                             extra = imap f l
                             /\ forall i x, type (f i x) = batch) ->
            forall t, t <> batch ->
              tabOfType t (initialTabs ins (length rows) allRows tracked
                           ++ extra) =
              tabOfType t (initialTabs ins (length rows) allRows tracked))
    as Hof.
  { intros extra [->|(f & l & -> & Hf)] t Ht.
    - rewrite app_nil_r. reflexivity.
    - apply tabOfType_batches; assumption. }
  match goal with
  | |- context [(initialTabs _ _ _ _ ++ ?e)%list] =>
      assert (e = [] \/ exists (f : nat -> JsonData -> SqlTab) l,
                          e = imap f l /\ forall i x, type (f i x) = batch)
        as Hextra
  end.
  { destruct (batchSize <? Z.of_nat (length rows)); [right|left; reflexivity].
    eexists _, _. split; [reflexivity|]. reflexivity. }
  unfold rowCountOf.
  rewrite !(Hof _ Hextra) by discriminate.
  unfold initialTabs. rewrite !length_map, Hnull, Hnot, Hclean.
  clear Hof Hextra.
  destruct (List.filter (fun row => negb (hasNullKey rowTemplate row)) rows)
    as [|r1 clean] eqn:Hc;
    destruct (List.filter (hasNullKey rowTemplate) rows) as [|r2 dirty]
      eqn:Hd;
    cbn [length Nat.ltb Nat.leb app tabOfType find type rowCount] in *;
    repeat split; try reflexivity; try (clear - Hsum; lia).
Qed.

Lemma split_by_null_keys_witness :
  exists tabs,
    generateSqlScript 3 (Some scenarioRows) scenarioTemplate 1 =
      Some (Ok (SetSqlTabs tabs))
    /\ (let clean :=
          List.filter (fun row => negb (hasNullKey "{id},{name}" row))
                      scenarioRows in
        tabOfType without_null tabs =
        match clean with
        | [] => None
        | _ :: _ =>
            Some (mkSqlTab "without-null" "Without NULL values"
                    (insertStatementOf scenarioTemplate 24
                     +:+ join commaNewline
                           (renderedRows "{id},{name}" clean))
                    (length clean) without_null)
        end)
    /\ rowCountOf with_null tabs =
         length (List.filter (hasNullKey "{id},{name}") scenarioRows)
    /\ (rowCountOf without_null tabs + rowCountOf with_null tabs
        = length scenarioRows)%nat.
Proof.
  apply (split_by_null_keys 3 scenarioRows scenarioTemplate 1 24
           "{id},{name}" ["(1,'A')"; "(2,null)"]);
    first [ vm_compute; reflexivity | lia | (cbn [length scenarioRows]; lia)
          | repeat constructor ].
Defined.

Lemma chunksOf_length {A : Type} (n : nat) :
  (1 <= n)%nat ->
  forall (fuel : nat) (l : list A),
    (length l < fuel)%nat ->
    length (chunksOf fuel n l) = ((length l + n - 1) / n)%nat.
Proof.
  intros Hn. induction fuel as [|fuel IH]; intros l Hfuel; [lia|].
  cbn [chunksOf]. destruct l as [|a l'].
  - cbn [length]. symmetry. apply Nat.div_small. lia.
  - cbn [length]. rewrite IH by (rewrite length_drop; cbn [length] in *; lia).
    rewrite length_drop. cbn [length].
    destruct (Nat.le_gt_cases (S (length l')) n) as [Hle|Hgt].
    + replace (S (length l') - n)%nat with 0%nat by lia.
      rewrite (Nat.div_small (0 + n - 1) n) by lia.
      apply (Nat.div_unique _ n 1%nat (length l')); lia.
    + replace (S (length l') + n - 1)%nat
        with ((S (length l') - n + n - 1) + 1 * n)%nat by lia.
      rewrite Nat.div_add by lia. lia.
Qed.

Lemma totalRowCount_imap {A : Type} (l : list (list A)) :
  forall f : nat -> list A -> SqlTab,
    (forall i x, rowCount (f i x) = length x) ->
    totalRowCount (imap f l) = length (concat l).
Proof.
  induction l as [|x l IH]; intros f Hf; [reflexivity|].
  cbn [imap concat]. unfold totalRowCount in *. cbn [fold_right].
  rewrite Hf, length_app. f_equal. apply IH. intros i y. apply Hf.
Qed.

Lemma type_imap {A : Type} (l : list A) :
  forall f : nat -> A -> SqlTab,
    (forall i x, type (f i x) = batch) ->
    map type (imap f l) = repeat batch (length l).
Proof.
  induction l as [|x l IH]; intros f Hf; [reflexivity|].
  cbn [imap map length repeat]. rewrite Hf. f_equal.
  apply IH. intros i y. apply Hf.
Qed.

Lemma filter_some {A : Type} (f : A -> bool) (l : list A) :
  Nat.ltb 0 (length (List.filter f l)) = existsb f l.
Proof.
  induction l as [|a l IH]; [reflexivity|]. cbn [List.filter existsb].
  destruct (f a); [reflexivity|exact IH].
Qed.

(** X14: for rows whose fields are null, numbers or strings, the tabs of
    a per-row template with a VALUES clause whose placeholder keys name no
    member of [Object.prototype] come in a fixed order: ALL, then the tab without NULL values when some row has all the
    keys of the row template, then the tab with NULL values when some row
    lacks one or holds null under it, then the batches.  With a batch size [b] of at
    least 1 and below the number [n] of rows there are [(n + b - 1) / b]
    batches, that is [n / b] rounded up, and their row counts add up to
    [n]; with a batch size of [n] or more there is none. *)
Theorem tabs_order_and_batch_count (fuel : nat) (rows : JsonData)
  (template : string) (batchSize : Z) (index : nat) (rowTemplate : string)
  (allRows : list string) :
  validateSqlTemplate template = [] ->
  doubleCurlyMatches template = [] ->
  includes (toLowerCase template) "values" = true ->
  valuesMatch template = Some (index, rowTemplate) ->
  isEmpty rowTemplate = false ->
  Forall (fun p => isInheritedKey (removeBraces p) = false)
         (singleCurlyMatches rowTemplate) ->
  mapResult (renderRow rowTemplate) rows = Ok allRows ->
  1 <= batchSize ->
  (length rows < fuel)%nat ->
  exists tabs,
    generateSqlScript fuel (Some rows) template batchSize =
      Some (Ok (SetSqlTabs tabs))
    /\ (let batches :=
          if batchSize <? Z.of_nat (length rows)
          then ((length rows + Z.to_nat batchSize - 1)
                / Z.to_nat batchSize)%nat
          else O in
        map type tabs =
        ([all]
         ++ (if existsb (fun row => negb (hasNullKey rowTemplate row)) rows
             then [without_null] else [])
         ++ (if existsb (hasNullKey rowTemplate) rows
             then [with_null] else [])
         ++ repeat batch batches)%list)
    /\ totalRowCount (batchTabs tabs) =
         (if batchSize <? Z.of_nat (length rows) then length rows else O).
Proof.
  intros Hvalid Hdouble Hvalues Hmatch Hgroup _ Hall Hsize Hfuel.
  destruct (renderRowTracking_ok _ _ _ Hall) as [tracked Htracked].
  unfold generateSqlScript. rewrite Hvalid, Hdouble.
  cbn [length Nat.ltb Nat.leb].
  rewrite (generateSqlTabs_values_path fuel rows batchSize template index
             rowTemplate allRows tracked) by assumption.
  cbv zeta. eexists. split; [reflexivity|].
  pose proof (tracked_flags _ _ _ Htracked) as Hflags.
  destruct (filter_snd_length (hasNullKey rowTemplate) rows tracked Hflags)
    as [Hnull Hnot].
  set (ins := insertStatementOf template index).
  assert (1 <= Z.to_nat batchSize)%nat as Hn by (clear - Hsize; lia).
  unfold batchTabs. rewrite List.filter_app, !map_app.
  fold (batchTabs (initialTabs ins (length rows) allRows tracked)).
  rewrite batchTabs_initialTabs. cbn [app].
  assert (map type (initialTabs ins (length rows) allRows tracked) =
          ([all]
           ++ (if existsb (fun row => negb (hasNullKey rowTemplate row)) rows
               then [without_null] else [])
           ++ (if existsb (hasNullKey rowTemplate) rows
               then [with_null] else []))%list) as ->.
  { unfold initialTabs. rewrite !length_map, Hnull, Hnot, !filter_some.
    destruct (existsb _ rows); destruct (existsb _ rows); reflexivity. }
  destruct (batchSize <? Z.of_nat (length rows)).
  - match goal with
    | |- context [imap ?f ?l] =>
        fold (batchTabs (imap f l));
        rewrite (batchTabs_imap l f) by reflexivity;
        rewrite (type_imap l f) by reflexivity;
        rewrite (totalRowCount_imap l f) by reflexivity
    end.
    rewrite (chunksOf_length _ Hn fuel rows Hfuel).
    destruct (chunksOf_partition (A := Row) _ Hn fuel rows Hfuel)
      as (-> & _ & _).
    rewrite <- !app_assoc. split; reflexivity.
  - cbn [map List.filter repeat]. rewrite <- !app_assoc. split; reflexivity.
Qed.

Lemma tabs_order_and_batch_count_witness :
  exists tabs,
    generateSqlScript 3 (Some scenarioRows) scenarioTemplate 1 =
      Some (Ok (SetSqlTabs tabs))
    /\ (let batches :=
          if 1 <? Z.of_nat (length scenarioRows)
          then ((length scenarioRows + Z.to_nat 1 - 1) / Z.to_nat 1)%nat
          else O in
        map type tabs =
        ([all]
         ++ (if existsb (fun row => negb (hasNullKey "{id},{name}" row))
                        scenarioRows
             then [without_null] else [])
         ++ (if existsb (hasNullKey "{id},{name}") scenarioRows
             then [with_null] else [])
         ++ repeat batch batches)%list)
    /\ totalRowCount (batchTabs tabs) =
         (if 1 <? Z.of_nat (length scenarioRows)
          then length scenarioRows else O).
Proof.
  apply (tabs_order_and_batch_count 3 scenarioRows scenarioTemplate 1 24
           "{id},{name}" ["(1,'A')"; "(2,null)"]);
    first [ vm_compute; reflexivity | lia | (cbn [length scenarioRows]; lia)
          | repeat constructor ].
Defined.

(** ** Building a template by clicks *)

Lemma countChar_append (ch : ascii) (a b : string) :
  countChar ch (a +:+ b) = (countChar ch a + countChar ch b)%nat.
Proof.
  induction a as [|c a IH]; [reflexivity|]. rewrite append_cons.
  cbn [countChar]. rewrite IH. lia.
Qed.

Lemma indexOfChar_append (ch : ascii) (a b : string) :
  countChar ch a = O ->
  indexOfChar ch (a +:+ String ch b) = Some (String.length a).
Proof.
  induction a as [|c a IH]; intros H.
  - rewrite append_nil. cbn [indexOfChar String.length].
    rewrite Ascii.eqb_refl. reflexivity.
  - rewrite append_cons. cbn [countChar] in H. cbn [indexOfChar String.length].
    destruct (Ascii.eqb c ch); [discriminate H|]. rewrite IH by exact H.
    reflexivity.
Qed.

Lemma takeChars_append (a b : string) : takeChars (String.length a) (a +:+ b) = a.
Proof.
  induction a as [|c a IH]; [destruct b; reflexivity|].
  rewrite append_cons. cbn [String.length takeChars]. rewrite IH. reflexivity.
Qed.

Lemma dropChars_append (a b : string) : dropChars (String.length a) (a +:+ b) = b.
Proof.
  induction a as [|c a IH]; [reflexivity|].
  rewrite append_cons. cbn [String.length dropChars]. exact IH.
Qed.

Lemma click_inside (key pre inside post : string) :
  noParens pre -> noParens inside -> noParens post ->
  handlePlaceholderClick key true
    (pre +:+ String "(" (inside +:+ String ")" post)) =
  pre +:+ String "("
    (inside +:+ (if isEmpty (trim inside) then EmptyString else ", ")
     +:+ placeholderOf key +:+ String ")" post).
Proof.
  intros [Hpo Hpc] [Hio Hic] [Hqo Hqc]. unfold handlePlaceholderClick.
  set (prev := pre +:+ String "(" (inside +:+ String ")" post)).
  assert (isEmpty prev = false) as -> by (unfold prev; destruct pre; reflexivity).
  assert (countChar "(" prev = 1%nat) as ->.
  { unfold prev. rewrite countChar_append. cbn [countChar].
    rewrite countChar_append. cbn [countChar]. cbn. lia. }
  assert (countChar ")" prev = 1%nat) as ->.
  { unfold prev. rewrite countChar_append. cbn [countChar].
    rewrite countChar_append. cbn [countChar]. cbn. lia. }
  cbn [Nat.eqb andb].
  assert (prev = (pre +:+ String "(" inside) +:+ String ")" post) as Hprev.
  { unfold prev. rewrite append_assoc, append_cons. reflexivity. }
  assert (indexOfChar ")" prev = Some (String.length (pre +:+ String "(" inside)))
    as ->.
  { rewrite Hprev. apply indexOfChar_append.
    rewrite countChar_append. cbn [countChar]. cbn. lia. }
  assert (indexOfChar "(" prev = Some (String.length pre)) as ->.
  { unfold prev. apply indexOfChar_append. exact Hpo. }
  assert (String.length (pre +:+ String "(" inside)
          = S (String.length pre + String.length inside)) as Hlen.
  { rewrite length_append. cbn [String.length]. lia. }
  assert (Nat.ltb (String.length pre)
                  (String.length (pre +:+ String "(" inside)) = true) as ->.
  { apply Nat.ltb_lt. lia. }
  assert (slice (S (String.length pre))
                (String.length (pre +:+ String "(" inside)) prev = inside)
    as ->.
  { unfold slice.
    replace (S (String.length pre))
      with (String.length (pre +:+ str1 "("))
      by (rewrite length_append; cbn; lia).
    replace prev with ((pre +:+ str1 "(") +:+ (inside +:+ String ")" post))
      by (unfold prev; rewrite append_assoc; reflexivity).
    rewrite dropChars_append.
    replace (String.length (pre +:+ String "(" inside)
             - String.length (pre +:+ str1 "("))%nat
      with (String.length inside)
      by (rewrite Hlen, length_append; cbn; lia).
    apply takeChars_append. }
  rewrite Hprev at 1 2. rewrite takeChars_append, dropChars_append.
  unfold placeholderOf.
  repeat first [rewrite append_assoc | rewrite append_cons | rewrite append_nil].
  reflexivity.
Qed.

Lemma noParens_placeholderOf (key : string) :
  noParens key -> noParens (placeholderOf key).
Proof.
  intros [Ho Hc]. unfold noParens, placeholderOf.
  rewrite !countChar_append. cbn [countChar]. cbn. lia.
Qed.

Lemma trim_not_blank (c : ascii) (s : string) :
  isWhiteSpace c = false -> isEmpty (trim (String c s)) = false.
Proof.
  intros Hc. unfold trim. cbn [trimStart]. rewrite Hc. cbn [trimEnd].
  rewrite Hc. reflexivity.
Qed.

Lemma parameter_list_facts (keys : list string) :
  Forall noParens keys ->
  noParens (join ", " (map placeholderOf keys))
  /\ isEmpty (trim (join ", " (map placeholderOf keys))) =
       match keys with [] => true | _ :: _ => false end.
Proof.
  induction 1 as [|k ks Hk Hks [IHp IHe]]; [repeat split|].
  cbn [map join]. destruct (map placeholderOf ks) as [|p ps] eqn:Hmap.
  - split; [apply noParens_placeholderOf; exact Hk|].
    apply trim_not_blank. reflexivity.
  - split; [|apply trim_not_blank; reflexivity].
    destruct (noParens_placeholderOf k Hk) as [Ho Hc], IHp as [Ho' Hc'].
    unfold noParens. rewrite !countChar_append, Ho, Hc, Ho', Hc'.
    split; reflexivity.
Qed.

Lemma join_snoc (sep : string) (parts : list string) (last : string) :
  join sep (parts ++ [last]) =
  join sep parts +:+ (match parts with [] => EmptyString | _ :: _ => sep end)
  +:+ last.
Proof.
  induction parts as [|p ps IH]; [reflexivity|].
  cbn [app]. destruct ps as [|q qs].
  - cbn [app join]. reflexivity.
  - change (join sep (p :: (q :: qs) ++ [last]))
      with (p +:+ sep +:+ join sep ((q :: qs) ++ [last])).
    rewrite IH. change (join sep (p :: q :: qs))
      with (p +:+ sep +:+ join sep (q :: qs)).
    rewrite !append_assoc. reflexivity.
Qed.

(** X15: clicks with the modifier held on the keys [k1 .. kn], one after
    the other, on a template with one pair of parentheses that is empty,
    fill the pair with the placeholders of the keys in the order of the
    clicks, separated by a comma and a space; the text around the pair is
    kept.  The keys and the text around the pair hold no parenthesis. *)
Theorem clicks_build_parameter_list (pre post : string) (keys : list string) :
  noParens pre -> noParens post -> Forall noParens keys ->
  fold_left (fun template key => handlePlaceholderClick key true template)
            keys (pre +:+ "()" +:+ post) =
  pre +:+ "(" +:+ join ", " (map placeholderOf keys) +:+ ")" +:+ post.
Proof.
  intros Hpre Hpost Hkeys.
  assert (forall done,
            Forall noParens done ->
            fold_left (fun template key =>
                         handlePlaceholderClick key true template) keys
              (pre +:+ String "("
                 (join ", " (map placeholderOf done) +:+ String ")" post)) =
            pre +:+ String "("
              (join ", " (map placeholderOf (done ++ keys))
               +:+ String ")" post)) as Hgen.
  { induction Hkeys as [|k ks Hk Hks IH]; intros done Hdone.
    - rewrite app_nil_r. reflexivity.
    - cbn [fold_left].
      destruct (parameter_list_facts done Hdone) as [Hnp Hblank].
      rewrite (click_inside k pre _ post Hpre Hnp Hpost), Hblank.
      replace (done ++ k :: ks)%list with ((done ++ [k]) ++ ks)%list
        by (rewrite <- app_assoc; reflexivity).
      rewrite <- IH by (apply Forall_app; split; [exact Hdone|];
                        constructor; [exact Hk|constructor]).
      rewrite map_app. cbn [map]. rewrite join_snoc.
      destruct done; cbn [map]; rewrite !append_assoc; reflexivity. }
  specialize (Hgen [] (Forall_nil_2 _)). cbn [app map join] in Hgen.
  rewrite append_nil in Hgen.
  change (pre +:+ "()" +:+ post) with (pre +:+ String "(" (String ")" post)).
  rewrite Hgen. reflexivity.
Qed.

Lemma clicks_build_parameter_list_witness :
  fold_left (fun template key => handlePlaceholderClick key true template)
            ["id"; "name"] ("INSERT INTO t VALUES " +:+ "()" +:+ ";") =
  "INSERT INTO t VALUES " +:+ "("
  +:+ join ", " (map placeholderOf ["id"; "name"]) +:+ ")" +:+ ";".
Proof.
  apply (clicks_build_parameter_list "INSERT INTO t VALUES " ";"
           ["id"; "name"]).
  - split; reflexivity.
  - split; reflexivity.
  - repeat constructor.
Defined.

Lemma scanSingle_run (key : string) :
  allChars (fun c => negb (isBrace c)) key = true ->
  forall run rest,
    scanSingle (key +:+ String "}" rest) (Some run) =
    if isEmpty (run +:+ key) then scanSingle rest None
    else (str1 "{" +:+ (run +:+ key) +:+ str1 "}") :: scanSingle rest None.
Proof.
  induction key as [|c key IH]; intros Hkey run rest.
  - rewrite append_nil, append_empty_r. reflexivity.
  - cbn [allChars] in Hkey. apply andb_prop in Hkey as [Hc Hkey].
    rewrite append_cons. cbn [scanSingle].
    assert (Ascii.eqb c "}" = false) as ->.
    { unfold isBrace in Hc. destruct (Ascii.eqb c "}"); [|reflexivity].
      rewrite orb_true_r in Hc. discriminate Hc. }
    rewrite (IH Hkey).
    replace ((run +:+ str1 c) +:+ key) with (run +:+ String c key)
      by (rewrite append_assoc; reflexivity).
    reflexivity.
Qed.

Lemma filterChars_id (keep : ascii -> bool) (s : string) :
  allChars keep s = true -> filterChars keep s = s.
Proof.
  induction s as [|c s IH]; [reflexivity|]. cbn [allChars filterChars].
  intros [Hc Hs]%andb_prop. rewrite Hc, (IH Hs). reflexivity.
Qed.

Lemma filterChars_append (keep : ascii -> bool) (a b : string) :
  filterChars keep (a +:+ b) = filterChars keep a +:+ filterChars keep b.
Proof.
  induction a as [|c a IH]; [reflexivity|]. rewrite append_cons.
  cbn [filterChars]. rewrite IH. destruct (keep c); reflexivity.
Qed.

(** X16: a plain click on a key sets the template to the placeholder of the
    key.  When the key is not empty and holds no brace, the engine reads
    that template back as exactly this one placeholder, and reads the key
    back from the placeholder. *)
Theorem clicked_placeholder_round_trip (key prev : string) :
  isEmpty key = false ->
  allChars (fun c => negb (isBrace c)) key = true ->
  singleCurlyMatches (handlePlaceholderClick key false prev) =
    [handlePlaceholderClick key false prev]
  /\ removeBraces (handlePlaceholderClick key false prev) = key.
Proof.
  intros Hne Hkey. unfold handlePlaceholderClick. split.
  - unfold singleCurlyMatches.
    change ("{" +:+ key +:+ "}")
      with (String "{" (key +:+ String "}" EmptyString)).
    cbn [scanSingle]. rewrite Ascii.eqb_refl.
    rewrite (scanSingle_run key Hkey). rewrite append_nil, Hne.
    reflexivity.
  - unfold removeBraces. rewrite !filterChars_append.
    rewrite (filterChars_id _ key Hkey).
    change (filterChars (fun c => negb (isBrace c)) "{") with EmptyString.
    change (filterChars (fun c => negb (isBrace c)) "}") with EmptyString.
    rewrite append_nil. apply append_empty_r.
Qed.

Lemma clicked_placeholder_round_trip_witness :
  singleCurlyMatches (handlePlaceholderClick "id" false "SELECT 1") =
    [handlePlaceholderClick "id" false "SELECT 1"]
  /\ removeBraces (handlePlaceholderClick "id" false "SELECT 1") = "id".
Proof.
  apply (clicked_placeholder_round_trip "id" "SELECT 1"); reflexivity.
Defined.

(** ** The template history *)

Lemma history_filter_texts (keep : Templates.TemplateHistory -> bool)
  (history : list Templates.TemplateHistory) :
  NoDup (map Templates.template history) ->
  NoDup (map Templates.template (List.filter keep history)).
Proof.
  induction history as [|t history IH]; intros H; [constructor|].
  cbn [map] in H. apply NoDup_cons in H as [Hnew Hrest].
  cbn [List.filter]. destruct (keep t); [|exact (IH Hrest)].
  cbn [map]. apply NoDup_cons. split; [|exact (IH Hrest)].
  intros Hin. apply Hnew. apply list_elem_of_In in Hin.
  apply list_elem_of_In. apply in_map_iff in Hin as (u & Hu & Hin).
  apply in_map_iff. exists u. split; [exact Hu|].
  apply filter_In in Hin. apply Hin.
Qed.

Lemma history_text_removed (text : string)
  (history : list Templates.TemplateHistory) :
  Forall (fun t => Templates.template t <> text)
         (List.filter
            (fun t => negb (String.eqb (Templates.template t) text)) history).
Proof.
  apply Forall_forall. intros t Hin. apply list_elem_of_In in Hin.
  apply filter_In in Hin as [_ Hneq]. intros Heq.
  rewrite Heq, String.eqb_refl in Hneq. discriminate Hneq.
Qed.

Lemma history_imap_texts
  (f : nat -> Templates.TemplateHistory -> Templates.TemplateHistory)
  (history : list Templates.TemplateHistory) :
  (forall i t, Templates.template (f i t) = Templates.template t) ->
  map Templates.template (imap f history) = map Templates.template history.
Proof.
  revert f. induction history as [|t history IH]; intros f Hf; [reflexivity|].
  cbn [imap map]. rewrite Hf. f_equal. apply IH. intros i u. apply Hf.
Qed.

(** X17: a successful [saveTemplate] puts the new entry, with the trimmed
    name and the template text as it is, in front of the history, and the
    text occurs in no other entry: entries that held the same text are
    dropped, all others are kept.  With a blank name or a blank template
    nothing is saved and the history is as before. *)
Theorem saveTemplate_text_once (newId created used : string)
  (st : Templates.State) :
  let st' := Templates.saveTemplate newId created used st in
  let text := Templates.sqlTemplate st in
  if isEmpty (trim (Templates.templateName st)) || isEmpty (trim text)
  then Templates.templateHistory st' = Templates.templateHistory st
       /\ Templates.errors st' = ["Template name and content are required"]
  else exists rest,
         Templates.templateHistory st' =
           Templates.mkTemplateHistory
             newId (trim (Templates.templateName st)) text created used
           :: rest
         /\ Forall (fun t => Templates.template t <> text) rest
         /\ (forall t, In t rest <->
                       In t (Templates.templateHistory st)
                       /\ Templates.template t <> text)
         /\ Templates.errors st' = [].
Proof.
  cbv zeta. unfold Templates.saveTemplate.
  destruct (isEmpty (trim (Templates.templateName st))
            || isEmpty (trim (Templates.sqlTemplate st)));
    [split; reflexivity|].
  eexists. split; [reflexivity|]. split; [apply history_text_removed|].
  split; [|reflexivity]. intros t. rewrite filter_In.
  split; intros [Hin Hneq]; (split; [exact Hin|]).
  - intros Heq. rewrite Heq, String.eqb_refl in Hneq. discriminate Hneq.
  - apply negb_true_iff. apply String.eqb_neq. exact Hneq.
Qed.

(** X18: the history never comes to hold one template text twice: when its
    texts are pairwise different, they are so again after [saveTemplate],
    after [loadTemplate] and after [deleteTemplate], whatever the
    arguments. *)
Theorem history_texts_stay_distinct (st : Templates.State)
  (newId created used templateId : string) (now : nat -> string)
  (chosen : Templates.TemplateHistory) :
  NoDup (map Templates.template (Templates.templateHistory st)) ->
  NoDup (map Templates.template
           (Templates.templateHistory
              (Templates.saveTemplate newId created used st)))
  /\ NoDup (map Templates.template
              (Templates.templateHistory
                 (Templates.loadTemplate now chosen st)))
  /\ NoDup (map Templates.template
              (Templates.templateHistory
                 (Templates.deleteTemplate templateId st))).
Proof.
  intros H. repeat split.
  - unfold Templates.saveTemplate.
    destruct (isEmpty (trim (Templates.templateName st))
              || isEmpty (trim (Templates.sqlTemplate st))); [exact H|].
    cbn [Templates.templateHistory map Templates.template].
    apply NoDup_cons. split; [|apply history_filter_texts; exact H].
    intros Hin. apply list_elem_of_In, in_map_iff in Hin as (t & Ht & Hin).
    pose proof (history_text_removed (Templates.sqlTemplate st)
                  (Templates.templateHistory st)) as Hall.
    rewrite Forall_forall in Hall. apply (Hall t); [|exact Ht].
    apply list_elem_of_In. exact Hin.
  - unfold Templates.loadTemplate. cbn [Templates.templateHistory].
    rewrite history_imap_texts; [exact H|].
    intros i t. destruct (String.eqb _ _); reflexivity.
  - unfold Templates.deleteTemplate. cbn [Templates.templateHistory].
    apply history_filter_texts. exact H.
Qed.

Lemma history_texts_stay_distinct_witness :
  let st :=
    Templates.mkState
      [Templates.mkTemplateHistory "1" "first" "SELECT {a}" "t0" "t0";
       Templates.mkTemplateHistory "2" "second" "SELECT {b}" "t1" "t1"]
      "again" "SELECT {b}" [] true in
  NoDup (map Templates.template
           (Templates.templateHistory
              (Templates.saveTemplate "3" "t2" "t2" st)))
  /\ NoDup (map Templates.template
              (Templates.templateHistory
                 (Templates.loadTemplate (fun _ => "t3")
                    (Templates.mkTemplateHistory "1" "first" "SELECT {a}"
                                                 "t0" "t0") st)))
  /\ NoDup (map Templates.template
              (Templates.templateHistory (Templates.deleteTemplate "2" st))).
Proof.
  cbv zeta.
  apply (history_texts_stay_distinct
           (Templates.mkState
              [Templates.mkTemplateHistory "1" "first" "SELECT {a}" "t0" "t0";
               Templates.mkTemplateHistory "2" "second" "SELECT {b}" "t1" "t1"]
              "again" "SELECT {b}" [] true)
           "3" "t2" "t2" "2" (fun _ => "t3")
           (Templates.mkTemplateHistory "1" "first" "SELECT {a}" "t0" "t0")).
  cbn. repeat (apply NoDup_cons_2; [intros Hin; repeat
      (apply elem_of_cons in Hin as [Hin|Hin]; [discriminate Hin|]);
      inversion Hin|]).
  apply NoDup_nil_2.
Defined.

Lemma filter_all {A : Type} (keep : A -> bool) (l : list A) :
  Forall (fun a => keep a = true) l -> List.filter keep l = l.
Proof.
  induction 1 as [|a l Ha _ IH]; [reflexivity|].
  cbn [List.filter]. rewrite Ha, IH. reflexivity.
Qed.

(** X19: deleting an entry right after saving it gives back the history as
    it was, when the identifier drawn for it was fresh and no entry held
    the template text. *)
Theorem deleteTemplate_undoes_saveTemplate (newId created used : string)
  (st : Templates.State) :
  isEmpty (trim (Templates.templateName st)) = false ->
  isEmpty (trim (Templates.sqlTemplate st)) = false ->
  Forall (fun t => Templates.id t <> newId) (Templates.templateHistory st) ->
  Forall (fun t => Templates.template t <> Templates.sqlTemplate st)
         (Templates.templateHistory st) ->
  Templates.templateHistory
    (Templates.deleteTemplate newId
       (Templates.saveTemplate newId created used st)) =
  Templates.templateHistory st.
Proof.
  intros Hname Htext Hfresh Hnew.
  unfold Templates.deleteTemplate, Templates.saveTemplate.
  rewrite Hname, Htext.
  cbn [orb Templates.templateHistory List.filter Templates.id].
  rewrite String.eqb_refl. cbn [negb].
  rewrite (filter_all
             (fun t => negb (String.eqb (Templates.template t)
                                        (Templates.sqlTemplate st)))).
  - apply filter_all. eapply Forall_impl; [exact Hfresh|]. cbn beta.
    intros t Ht. apply negb_true_iff, String.eqb_neq. exact Ht.
  - eapply Forall_impl; [exact Hnew|]. cbn beta.
    intros t Ht. apply negb_true_iff, String.eqb_neq. exact Ht.
Qed.

Lemma deleteTemplate_undoes_saveTemplate_witness :
  let st :=
    Templates.mkState
      [Templates.mkTemplateHistory "1" "first" "SELECT {a}" "t0" "t0"]
      "second" "SELECT {b}" [] false in
  Templates.templateHistory
    (Templates.deleteTemplate "2" (Templates.saveTemplate "2" "t1" "t1" st)) =
  Templates.templateHistory st.
Proof.
  cbv zeta.
  apply (deleteTemplate_undoes_saveTemplate "2" "t1" "t1"
           (Templates.mkState
              [Templates.mkTemplateHistory "1" "first" "SELECT {a}" "t0" "t0"]
              "second" "SELECT {b}" [] false)).
  - reflexivity.
  - reflexivity.
  - repeat constructor. discriminate.
  - repeat constructor. discriminate.
Defined.

(** ** The values of an aggregate token *)

Lemma number_eqb_scaled (m1 e1 m2 e2 E : Z) :
  E <= e1 -> E <= e2 ->
  number_eqb (Fin m1 e1) (Fin m2 e2) = true <->
  m1 * 10 ^ (e1 - E) = m2 * 10 ^ (e2 - E).
Proof.
  intros H1 H2. unfold number_eqb. rewrite Z.eqb_eq.
  set (e := Z.min e1 e2).
  assert (E <= e) as He by (unfold e; lia).
  assert (e <= e1 /\ e <= e2) as [He1 He2] by (unfold e; lia).
  replace (e1 - E) with ((e1 - e) + (e - E)) by lia.
  replace (e2 - E) with ((e2 - e) + (e - E)) by lia.
  rewrite !Z.pow_add_r by lia. rewrite !Z.mul_assoc.
  assert (10 ^ (e - E) <> 0) as Hnz by (apply Z.pow_nonzero; lia).
  split; intros H.
  - rewrite H. reflexivity.
  - apply Z.mul_cancel_r in H; assumption.
Qed.

Lemma number_eqb_sym (x y : number) : number_eqb x y = number_eqb y x.
Proof.
  destruct x as [|s1|m1 e1], y as [|s2|m2 e2]; try reflexivity.
  - cbn. destruct s1, s2; reflexivity.
  - unfold number_eqb. rewrite (Z.min_comm e2 e1). apply Z.eqb_sym.
Qed.

Lemma number_eqb_trans (x y z : number) :
  number_eqb x y = true -> number_eqb y z = true -> number_eqb x z = true.
Proof.
  destruct x as [|s1|m1 e1], y as [|s2|m2 e2], z as [|s3|m3 e3];
    try discriminate.
  - cbn. destruct s1, s2, s3; try discriminate; reflexivity.
  - set (E := Z.min e1 (Z.min e2 e3)).
    rewrite (number_eqb_scaled m1 e1 m2 e2 E) by (unfold E; lia).
    rewrite (number_eqb_scaled m2 e2 m3 e3 E) by (unfold E; lia).
    rewrite (number_eqb_scaled m1 e1 m3 e3 E) by (unfold E; lia).
    congruence.
Qed.

Lemma strictEquals_sym (a b : unknown) : strictEquals a b = strictEquals b a.
Proof.
  destruct a as [[|x|s]|], b as [[|y|t]|]; try reflexivity.
  - apply number_eqb_sym.
  - apply String.eqb_sym.
Qed.

Lemma strictEquals_trans (a b c : unknown) :
  strictEquals a b = true -> strictEquals b c = true ->
  strictEquals a c = true.
Proof.
  destruct a as [[|x|s]|], b as [[|y|t]|], c as [[|z|u]|]; try discriminate;
    try reflexivity.
  - apply number_eqb_trans.
  - cbn. rewrite !String.eqb_eq. congruence.
Qed.

Lemma indexOf_spec (arr : list unknown) (v : unknown) :
  match indexOf arr v with
  | Some i =>
      (exists x, arr !! i = Some x /\ strictEquals x v = true)
      /\ forall j x, (j < i)%nat -> arr !! j = Some x ->
                     strictEquals x v = false
  | None => forall x, In x arr -> strictEquals x v = false
  end.
Proof.
  induction arr as [|a arr IH]; [intros x []|]. cbn [indexOf].
  destruct (strictEquals a v) eqn:Ha.
  - split; [exists a; split; [reflexivity|exact Ha]|]. intros j x Hj. lia.
  - destruct (indexOf arr v) as [i|].
    + destruct IH as [Hat Hbefore]. split; [exact Hat|].
      intros [|j] x Hj Hx.
      * injection Hx as <-. exact Ha.
      * apply (Hbefore j x); [lia|exact Hx].
    + intros x [<-|Hin]; [exact Ha|apply IH; exact Hin].
Qed.

Lemma filterIndexed_In {A : Type} (p : A -> nat -> bool) (l : list A) :
  forall k x,
    In x (filterIndexed p k l) <->
    exists i, l !! i = Some x /\ p x (k + i)%nat = true.
Proof.
  induction l as [|a l IH]; intros k x.
  - split; [intros []|intros (i & Hi & _); discriminate Hi].
  - cbn [filterIndexed]. split.
    + intros H. destruct (p a k) eqn:Hp.
      * destruct H as [<-|H].
        -- exists O. rewrite Nat.add_0_r. split; [reflexivity|exact Hp].
        -- apply IH in H as (i & Hi & Hpi). exists (S i).
           rewrite Nat.add_succ_r. split; assumption.
      * apply IH in H as (i & Hi & Hpi). exists (S i).
        rewrite Nat.add_succ_r. split; assumption.
    + intros ([|i] & Hi & Hpi).
      * injection Hi as <-. rewrite Nat.add_0_r in Hpi. rewrite Hpi.
        left. reflexivity.
      * rewrite Nat.add_succ_r in Hpi.
        assert (In x (filterIndexed p (S k) l)) as Hin
          by (apply IH; exists i; split; assumption).
        destruct (p a k); [right|]; exact Hin.
Qed.

Lemma doubleQuotes_inj (a : string) :
  forall b, doubleQuotes a = doubleQuotes b -> a = b.
Proof.
  induction a as [|c a IH]; intros [|d b] H; cbn [doubleQuotes] in H.
  - reflexivity.
  - destruct (Ascii.eqb d squote); discriminate H.
  - destruct (Ascii.eqb c squote); discriminate H.
  - destruct (Ascii.eqb_spec c squote) as [->|Hc],
             (Ascii.eqb_spec d squote) as [->|Hd].
    + injection H as H. rewrite (IH b H). reflexivity.
    + injection H as H _. congruence.
    + injection H as H _. congruence.
    + injection H as -> H. rewrite (IH b H). reflexivity.
Qed.

Lemma append_inj_l (a b t : string) : a +:+ t = b +:+ t -> a = b.
Proof.
  revert b. induction a as [|c a IH]; intros [|d b] H.
  - reflexivity.
  - apply (f_equal String.length) in H. rewrite !length_append in H.
    cbn [String.length] in H. lia.
  - apply (f_equal String.length) in H. rewrite !length_append in H.
    cbn [String.length] in H. lia.
  - rewrite !append_cons in H. injection H as -> H. rewrite (IH b H).
    reflexivity.
Qed.

Lemma sqlQuote_inj (a b : string) : sqlQuote a = sqlQuote b -> a = b.
Proof.
  unfold sqlQuote, str1. rewrite !append_cons, !append_nil.
  intros H. injection H as H. apply append_inj_l in H.
  apply doubleQuotes_inj. exact H.
Qed.

Lemma numberToString_head (x : number) :
  exists c s, numberToString x = String c s /\ Ascii.eqb c squote = false.
Proof.
  destruct x as [|[]|m e]; try (eexists _, _; split; reflexivity).
  unfold numberToString.
  destruct (Z.eqb_spec m 0) as [->|Hm0]; [eexists _, _; split; reflexivity|].
  destruct (Z.ltb_spec m 0) as [Hneg|Hpos];
    [eexists _, _; split; reflexivity|].
  assert (0 < Z.abs_N m)%N as Hm by lia.
  destruct (positiveToString_parse (Z.abs_N m) e Hm)
    as ([_ (c & s & -> & Hc)] & _).
  exists c, s. split; [reflexivity|].
  destruct (digit_facts c Hc) as (Hnum & _).
  destruct (numericChar_facts c Hnum) as (_ & Hq & _).
  unfold isQuote in Hq. apply orb_false_elim in Hq. apply Hq.
Qed.

Lemma numberToString_inj (x y : number) :
  number_eqb x x = true -> number_eqb y y = true ->
  numberToString x = numberToString y -> number_eqb x y = true.
Proof.
  assert (forall m e s,
            numberToString (Fin m e) <> numberToString (Infinity s)) as Hinf.
  { intros m e s H. destruct (coerce_numberToString m e) as (x' & Hx & _ & Heq).
    rewrite H in Hx. destruct s; vm_compute in Hx; injection Hx as <-;
      discriminate Heq. }
  destruct x as [|s1|m1 e1], y as [|s2|m2 e2]; try discriminate; intros _ _ H.
  - destruct s1, s2; first [reflexivity|discriminate H].
  - symmetry in H. destruct (Hinf _ _ _ H).
  - destruct (Hinf _ _ _ H).
  - destruct (coerce_numberToString m1 e1) as (x1 & Hx1 & _ & Heq1).
    destruct (coerce_numberToString m2 e2) as (x2 & Hx2 & _ & Heq2).
    rewrite H, Hx2 in Hx1. injection Hx1 as <-.
    rewrite number_eqb_sym in Heq1.
    exact (number_eqb_trans _ _ _ Heq1 Heq2).
Qed.

Lemma sqlText_inj (a b : unknown) :
  notNullish a = true -> notNullish b = true ->
  strictEquals a a = true -> strictEquals b b = true ->
  sqlText a = sqlText b -> strictEquals a b = true.
Proof.
  destruct a as [[|x|s]|], b as [[|y|t]|]; try discriminate;
    intros _ _ Ha Hb H; cbn [sqlText ToString strictEquals] in *.
  - apply numberToString_inj; assumption.
  - destruct (numberToString_head x) as (c & r & Hx & Hc).
    rewrite Hx in H. unfold sqlQuote, str1 in H. rewrite append_cons in H.
    injection H as -> _. discriminate Hc.
  - destruct (numberToString_head y) as (c & r & Hy & Hc).
    rewrite Hy in H. unfold sqlQuote, str1 in H. rewrite append_cons in H.
    injection H as <- _. discriminate Hc.
  - apply sqlQuote_inj in H. subst t. apply String.eqb_refl.
Qed.

Lemma first_occurrences_distinct (arr : list unknown) :
  forall (l : list unknown) (k : nat),
    (forall i x, l !! i = Some x -> arr !! (k + i)%nat = Some x) ->
    NoDup
      (map sqlText
         (filterIndexed
            (fun value index =>
               notNullish value
               && match indexOf arr value with
                  | Some i => Nat.eqb i index
                  | None => false
                  end) k l)).
Proof.
  induction l as [|a l IH]; intros k Harr; [constructor|].
  assert (forall i x, l !! i = Some x -> arr !! (S k + i)%nat = Some x)
    as Harr'.
  { intros i x Hi. specialize (Harr (S i) x Hi).
    rewrite Nat.add_succ_r in Harr. exact Harr. }
  cbn [filterIndexed].
  destruct (notNullish a
            && match indexOf arr a with
               | Some i => Nat.eqb i k
               | None => false
               end) eqn:Hkeep; [|apply IH; exact Harr'].
  cbn [map]. apply NoDup_cons. split; [|apply IH; exact Harr'].
  intros Hin. apply list_elem_of_In, in_map_iff in Hin as (b & Hab & Hb).
  apply filterIndexed_In in Hb as (i & Hi & Hkeepb).
  apply andb_prop in Hkeep as [Hna Hia], Hkeepb as [Hnb Hib].
  pose proof (indexOf_spec arr a) as Hsa.
  pose proof (indexOf_spec arr b) as Hsb.
  destruct (indexOf arr a) as [ia|]; [|discriminate Hia].
  destruct (indexOf arr b) as [ib|]; [|discriminate Hib].
  apply Nat.eqb_eq in Hia, Hib. subst ia ib.
  destruct Hsa as [(a' & Ha' & Haa) _], Hsb as [(b' & Hb' & Hbb) Hbefore].
  pose proof (Harr O a eq_refl) as Hka. rewrite Nat.add_0_r in Hka.
  rewrite Hka in Ha'. injection Ha' as <-.
  rewrite (Harr' i b Hi) in Hb'. injection Hb' as <-.
  assert (strictEquals a b = true) as Heq
    by (apply sqlText_inj; [assumption..|symmetry; exact Hab]).
  rewrite (Hbefore k a) in Heq; [discriminate Heq|lia|exact Hka].
Qed.

(** X20: for a loaded array [items] whose elements are all objects with
    fields that are null, numbers or strings, [jsonData] its rows, and a key
    that names no member of [Object.prototype]: the values that an
    aggregate token of this key stands for are pairwise different as SQL
    text, no value is listed twice.  (Fields that are arrays or objects,
    which [indexOf] tells apart by identity, are outside this
    statement.) *)
Theorem aggregateValues_distinct (items : list Json) (jsonData : JsonData)
  (key : string) :
  rowsOf items = Some jsonData ->
  isInheritedKey key = false ->
  NoDup (aggregateValues jsonData key).
Proof.
  intros _ _. unfold aggregateValues.
  apply (first_occurrences_distinct
           (map (fun row : Row => row !! key) jsonData)
           (map (fun row : Row => row !! key) jsonData) O).
  intros i x Hi. exact Hi.
Qed.

Lemma aggregateValues_distinct_witness :
  NoDup (aggregateValues scenarioRows "name").
Proof.
  apply (aggregateValues_distinct (map rowToJson scenarioRows) scenarioRows
           "name").
  - vm_compute. reflexivity.
  - reflexivity.
Defined.

(** X21: for a loaded array [items] whose elements are all objects with
    fields that are null, numbers or strings, [jsonData] its rows, and a key
    that names no member of [Object.prototype]: the values of an aggregate
    token of this key are those of the rows.  Each one is the SQL text of a
    value that some row holds under the key and that is neither null nor
    NaN; and every such value of a row is listed, as the SQL text of the
    first value of the rows that is equal to it. *)
Theorem aggregateValues_members (items : list Json) (jsonData : JsonData)
  (key : string) :
  rowsOf items = Some jsonData ->
  isInheritedKey key = false ->
  (forall text,
     In text (aggregateValues jsonData key) ->
     exists row value,
       In row jsonData /\ row !! key = Some value
       /\ value <> VNull /\ value <> VNum NaN
       /\ text = sqlText (Some value))
  /\ (forall row value,
        In row jsonData -> row !! key = Some value ->
        value <> VNull ->
        strictEquals (Some value) (Some value) = true ->
        exists first,
          strictEquals (Some first) (Some value) = true
          /\ In (sqlText (Some first)) (aggregateValues jsonData key)).
Proof.
  intros _ _. unfold aggregateValues.
  set (arr := map (fun row : Row => row !! key) jsonData).
  split.
  - intros text Hin. apply in_map_iff in Hin as (v & <- & Hv).
    apply filterIndexed_In in Hv as (i & Hi & Hkeep).
    apply andb_prop in Hkeep as [Hnn Hidx].
    unfold arr in Hi. rewrite list_lookup_fmap in Hi.
    destruct (jsonData !! i) as [row|] eqn:Hrow; [|discriminate Hi].
    cbn in Hi. injection Hi as Hv.
    destruct v as [value|]; [|discriminate Hnn].
    exists row, value. repeat split.
    + apply list_elem_of_In. eapply list_elem_of_lookup_2. exact Hrow.
    + exact Hv.
    + intros ->. discriminate Hnn.
    + intros ->. pose proof (indexOf_spec arr (Some (VNum NaN))) as Hs.
      destruct (indexOf arr (Some (VNum NaN))) as [j|]; [|discriminate Hidx].
      destruct Hs as [(x & _ & Hx) _].
      destruct x as [[|[]|]|]; discriminate Hx.
  - intros row value Hrow Hkey Hnull Hself.
    assert (In (Some value) arr) as Hin.
    { unfold arr. apply in_map_iff. exists row. split; assumption. }
    pose proof (indexOf_spec arr (Some value)) as Hs.
    destruct (indexOf arr (Some value)) as [i|] eqn:Hidx.
    + destruct Hs as [(x & Hx & Hxv) Hbefore].
      assert (exists first, x = Some first) as [first ->].
      { destruct x as [first|]; [eauto|].
        destruct value; discriminate Hxv. }
      exists first. split; [exact Hxv|].
      apply in_map_iff. exists (Some first). split; [reflexivity|].
      apply filterIndexed_In. exists i. split; [exact Hx|].
      apply andb_true_intro. split.
      * destruct first; [|reflexivity..].
        destruct value; [destruct (Hnull eq_refl)|discriminate Hxv..].
      * pose proof (indexOf_spec arr (Some first)) as Hf.
        destruct (indexOf arr (Some first)) as [j|].
        -- destruct Hf as [(y & Hy & Hyf) Hfirst].
           apply Nat.eqb_eq. cbn [Nat.add].
           destruct (Nat.lt_trichotomy j i) as [Hlt|[Heq|Hgt]];
             [|exact Heq|].
           ++ pose proof (strictEquals_trans _ _ _ Hyf Hxv) as Habs.
              rewrite (Hbefore j y Hlt Hy) in Habs. discriminate Habs.
           ++ assert (strictEquals (Some first) (Some first) = true) as Hff.
              { pose proof Hxv as Hvx. rewrite strictEquals_sym in Hvx.
                exact (strictEquals_trans _ _ _ Hxv Hvx). }
              rewrite (Hfirst i (Some first) Hgt Hx) in Hff. discriminate Hff.
        -- assert (strictEquals (Some first) (Some first) = true) as Hff.
           { pose proof Hxv as Hvx. rewrite strictEquals_sym in Hvx.
             exact (strictEquals_trans _ _ _ Hxv Hvx). }
           rewrite (Hf (Some first)) in Hff; [discriminate Hff|].
           apply list_elem_of_In. eapply list_elem_of_lookup_2. exact Hx.
    + rewrite (Hs (Some value) Hin) in Hself. discriminate Hself.
Qed.

Lemma aggregateValues_members_witness :
  (forall text,
     In text (aggregateValues scenarioRows "name") ->
     exists row value,
       In row scenarioRows /\ row !! "name" = Some value
       /\ value <> VNull /\ value <> VNum NaN
       /\ text = sqlText (Some value))
  /\ (forall row value,
        In row scenarioRows -> row !! "name" = Some value ->
        value <> VNull ->
        strictEquals (Some value) (Some value) = true ->
        exists first,
          strictEquals (Some first) (Some value) = true
          /\ In (sqlText (Some first)) (aggregateValues scenarioRows "name")).
Proof.
  apply (aggregateValues_members (map rowToJson scenarioRows) scenarioRows
           "name").
  - vm_compute. reflexivity.
  - reflexivity.
Defined.

(** ** Substitution as replacement of text *)

Lemma parsePattern_literal (s : string) :
  allChars isPatternSafe s = true ->
  forall st, stack st = [] ->
    parsePattern (escapeBraces s) st =
    Ok (closeFrame
          (mkFrame (alts (cur st))
                   (rev (map RChar (list_ascii_of_string s))
                    ++ terms (cur st))),
        ngroups st).
Proof.
  induction s as [|c s IH]; intros Hsafe st Hstack.
  - cbn [escapeBraces parsePattern]. rewrite Hstack.
    destruct st as [[a t] k n l]. reflexivity.
  - cbn [allChars] in Hsafe. apply andb_prop in Hsafe as [Hc Hs].
    assert (parsePattern (escapeBraces (String c s)) st =
            parsePattern (escapeBraces s) (pushTerm (RChar c) Atom st)) as ->.
    { cbn [escapeBraces]. destruct (isBrace c) eqn:Hbrace.
      - apply parsePattern_escaped_brace. exact Hbrace.
      - apply parsePattern_plain_char. unfold isPatternSafe in Hc.
        rewrite Hbrace in Hc. cbn [orb] in Hc.
        destruct (isSyntaxChar c); [discriminate Hc|reflexivity]. }
    rewrite (IH Hs) by exact Hstack.
    cbn [pushTerm cur alts terms ngroups list_ascii_of_string map rev].
    rewrite <- app_assoc. reflexivity.
Qed.

Lemma compile_literal (placeholder : string) :
  allChars isPatternSafe placeholder = true ->
  compile (escapeBraces placeholder) =
  Ok (mkRegExp (literalTree placeholder) O).
Proof.
  intros H. unfold compile.
  rewrite (parsePattern_literal placeholder H
             (mkPstate (mkFrame [] []) [] O NotQuantifiable) eq_refl).
  cbn [bind fst snd cur alts terms ngroups]. rewrite app_nil_r. reflexivity.
Qed.

Lemma matcher_seq_char (c : ascii) (acc : regex) (x : mstate)
  (k : mstate -> option mstate) :
  matcher (match acc with REmpty => RChar c | _ => RSeq (RChar c) acc end) x k
  = matcher (RChar c) x (fun y => matcher acc y k).
Proof. destruct acc; reflexivity. Qed.

Lemma literalTree_cons (c : ascii) (s : string) :
  literalTree (String c s) =
  match literalTree s with
  | REmpty => RChar c
  | _ => RSeq (RChar c) (literalTree s)
  end.
Proof.
  unfold literalTree, seqOf. cbn [list_ascii_of_string map rev].
  rewrite fold_left_app. reflexivity.
Qed.

Lemma matcher_literal (s : string) :
  forall (x : mstate) (k : mstate -> option mstate),
    matcher (literalTree s) x k =
    if startsWith (remaining x) s
    then k (mkMstate (endIndex x + String.length s)
                     (dropChars (String.length s) (remaining x))
                     (captures x))
    else None.
Proof.
  induction s as [|c s IH]; intros x k.
  - rewrite startsWith_empty. destruct x as [i r caps].
    cbn [endIndex remaining captures String.length dropChars].
    rewrite Nat.add_0_r. reflexivity.
  - rewrite literalTree_cons, matcher_seq_char. cbn [matcher].
    destruct x as [i r caps]. cbn [endIndex remaining captures].
    destruct r as [|a r]; [reflexivity|].
    cbn [startsWith String.length dropChars]. rewrite (Ascii.eqb_sym c a).
    destruct (Ascii.eqb a c); [|reflexivity]. cbn [andb].
    rewrite IH. cbn [endIndex remaining captures].
    rewrite Nat.add_succ_r. reflexivity.
Qed.

Lemma findIndex_shift (sub : string) (s : string) :
  forall i, findIndex s sub i = option_map (Nat.add i) (findIndex s sub O).
Proof.
  induction s as [|c s IH]; intros i.
  - cbn [findIndex]. destruct (startsWith EmptyString sub); cbn;
      [rewrite Nat.add_0_r|]; reflexivity.
  - cbn [findIndex]. destruct (startsWith (String c s) sub).
    + cbn. rewrite Nat.add_0_r. reflexivity.
    + rewrite (IH (S i)), (IH 1%nat).
      destruct (findIndex s sub O) as [j|]; cbn; [f_equal; lia|reflexivity].
Qed.

Lemma searchFrom_literal (pattern : string) (s : string) :
  forall p,
    searchFrom (mkRegExp (literalTree pattern) O) p s =
    match findIndex s pattern O with
    | Some i =>
        Some ((p + i)%nat,
              mkMstate (p + i + String.length pattern)
                       (dropChars (i + String.length pattern) s) [])
    | None => None
    end.
Proof.
  induction s as [|c s IH]; intros p.
  - cbn [searchFrom findIndex tree groupCount]. rewrite matcher_literal.
    cbn [remaining endIndex captures].
    destruct (startsWith EmptyString pattern); [|reflexivity].
    rewrite Nat.add_0_r. reflexivity.
  - cbn [searchFrom findIndex tree groupCount]. rewrite matcher_literal.
    cbn [remaining endIndex captures].
    destruct (startsWith (String c s) pattern).
    + rewrite Nat.add_0_r. reflexivity.
    + rewrite IH, (findIndex_shift pattern s 1).
      destruct (findIndex s pattern O) as [i|]; [|reflexivity].
      cbn [option_map Nat.add dropChars].
      rewrite !Nat.add_succ_r. reflexivity.
Qed.

Lemma substitute_plain (template matched whole : string) (position : nat)
  (caps : list (option (nat * nat))) :
  includes template "$" = false ->
  substitute template matched whole position caps = template.
Proof.
  induction template as [|c t IH]; [reflexivity|].
  change (includes (String c t) "$") with (includes (String c t) (str1 "$")).
  rewrite includes_char_cons. intros H. apply orb_false_elim in H as [Hc Ht].
  rewrite Ascii.eqb_sym in Hc. cbn [substitute]. rewrite Hc. cbn [negb]. rewrite (IH Ht). reflexivity.
Qed.

Lemma replaceEvery_skip (pattern value : string) (s : string) :
  forall skip,
    replaceEvery pattern value s skip =
    replaceEvery pattern value (dropChars skip s) O.
Proof.
  induction s as [|c s IH]; intros [|skip]; try reflexivity.
  cbn [replaceEvery dropChars]. apply IH.
Qed.

Lemma replaceEvery_findIndex (pattern value : string) (s : string) :
  isEmpty pattern = false ->
  replaceEvery pattern value s O =
  match findIndex s pattern O with
  | Some i =>
      takeChars i s +:+ value
      +:+ replaceEvery pattern value
            (dropChars (i + String.length pattern) s) O
  | None => s
  end.
Proof.
  intros Hne. induction s as [|c s IH].
  - cbn [findIndex replaceEvery]. destruct pattern; [discriminate Hne|].
    reflexivity.
  - cbn [findIndex replaceEvery]. destruct (startsWith (String c s) pattern).
    + rewrite replaceEvery_skip. destruct pattern as [|d pattern];
        [discriminate Hne|].
      replace (String.length (String d pattern) - 1)%nat
        with (String.length pattern) by (cbn [String.length]; lia).
      cbn [String.length Nat.add dropChars takeChars].
      rewrite append_nil. reflexivity.
    + rewrite (findIndex_shift pattern s 1), IH.
      destruct (findIndex s pattern O) as [i|]; reflexivity.
Qed.

Lemma replaceAllFrom_literal (pattern value whole : string) :
  isEmpty pattern = false ->
  includes value "$" = false ->
  forall (fuel p : nat) (s : string),
    (String.length s < fuel)%nat ->
    replaceAllFrom fuel (mkRegExp (literalTree pattern) O) whole p s value =
    replaceEvery pattern value s O.
Proof.
  intros Hne Hplain. induction fuel as [|fuel IH]; intros p s Hfuel; [lia|].
  cbn [replaceAllFrom]. rewrite searchFrom_literal.
  rewrite (replaceEvery_findIndex pattern value s Hne).
  destruct (findIndex s pattern O) as [i|] eqn:Hfind; [|reflexivity].
  cbn [endIndex remaining captures].
  assert (1 <= String.length pattern)%nat as Hlen
    by (clear - Hne; destruct pattern;
        [discriminate Hne|cbn [String.length]; lia]).
  replace (Nat.eqb (p + i + String.length pattern) (p + i)) with false
    by (symmetry; apply Nat.eqb_neq; lia).
  rewrite substitute_plain by exact Hplain.
  replace (p + i - p)%nat with i by lia.
  assert (1 <= String.length s)%nat as Hs.
  { clear - Hne Hfind. destruct s; [|cbn [String.length]; lia].
    destruct pattern; [discriminate Hne|discriminate Hfind]. }
  rewrite IH; [reflexivity|].
  rewrite length_dropChars. clear - Hfuel Hlen Hs. lia.
Qed.

Lemma substitutePlaceholder_replaces_text (row : Row)
  (processedRow placeholder : string) :
  isEmpty placeholder = false ->
  allChars isPatternSafe placeholder = true ->
  includes (replacementValue row placeholder) "$" = false ->
  substitutePlaceholder row processedRow placeholder =
  Ok (replaceEvery placeholder (replacementValue row placeholder)
                   processedRow O).
Proof.
  intros Hne Hsafe Hplain. unfold substitutePlaceholder.
  rewrite (compile_literal placeholder Hsafe). cbn [bind].
  unfold replaceRegExp. f_equal.
  apply (replaceAllFrom_literal placeholder _ processedRow Hne Hplain).
  lia.
Qed.

Lemma scanSingle_not_empty (s : string) :
  forall opened, Forall (fun p => isEmpty p = false) (scanSingle s opened).
Proof.
  induction s as [|c s IH]; intros opened; [constructor|].
  cbn [scanSingle]. destruct opened as [run|]; [|apply IH].
  destruct (Ascii.eqb c "}"); [|apply IH].
  destruct (isEmpty run); [apply IH|]. constructor; [reflexivity|apply IH].
Qed.

Lemma foldResult_replaces_text (row : Row) (placeholders : list string) :
  Forall (fun p => isEmpty p = false) placeholders ->
  Forall (fun p => allChars isPatternSafe p = true
                   /\ includes (replacementValue row p) "$" = false)
         placeholders ->
  forall text,
    foldResult (substitutePlaceholder row) placeholders text =
    Ok (fold_left (fun text p => replaceEvery p (replacementValue row p) text O)
                  placeholders text).
Proof.
  induction placeholders as [|p ps IH]; intros Hne Hsafe text; [reflexivity|].
  apply Forall_cons in Hne as [Hp Hps], Hsafe as [[Hs Hd] Hsafe].
  cbn [foldResult fold_left].
  rewrite (substitutePlaceholder_replaces_text row text p Hp Hs Hd).
  cbn [bind]. apply IH; assumption.
Qed.

(** X22: for a row whose fields are null, numbers or strings: when the
    placeholders of a row template hold only characters that a pattern
    takes literally, their keys name no member of [Object.prototype] and
    the texts to put in hold no dollar sign,
    rendering a row is a plain replacement of text and does not raise: for
    each placeholder in turn, every occurrence in the text reached so far,
    found from left to right without overlap, is replaced by the value the
    row holds under its key (NULL when the row has no such key); the ALL
    and batch paths put the result in parentheses, the statement path takes
    it as it is. *)
Theorem renderRow_replaces_text (rowTemplate : string) (row : Row) :
  Forall (fun p => allChars isPatternSafe p = true
                   /\ isInheritedKey (removeBraces p) = false
                   /\ includes (replacementValue row p) "$" = false)
         (singleCurlyMatches rowTemplate) ->
  let replaced :=
    fold_left (fun text p => replaceEvery p (replacementValue row p) text O)
              (singleCurlyMatches rowTemplate) rowTemplate in
  renderRow rowTemplate row = Ok ("(" +:+ replaced +:+ ")")
  /\ renderStatement rowTemplate row = Ok replaced.
Proof.
  intros Hsafe. cbv zeta. unfold renderRow, renderStatement.
  assert (Forall (fun p => allChars isPatternSafe p = true
                           /\ includes (replacementValue row p) "$" = false)
                 (singleCurlyMatches rowTemplate)) as Hsafe'.
  { eapply Forall_impl; [exact Hsafe|]. cbn beta.
    intros p (Hp & _ & Hd). split; assumption. }
  rewrite (foldResult_replaces_text row _
             (scanSingle_not_empty rowTemplate None) Hsafe').
  split; reflexivity.
Qed.

Lemma renderRow_replaces_text_witness :
  let row : Row := {[ "id" := num 7; "name" := VStr "A" ]} in
  let replaced :=
    fold_left (fun text p => replaceEvery p (replacementValue row p) text O)
              (singleCurlyMatches "{id},{name},{id}") "{id},{name},{id}" in
  renderRow "{id},{name},{id}" row = Ok ("(" +:+ replaced +:+ ")")
  /\ renderStatement "{id},{name},{id}" row = Ok replaced.
Proof.
  cbv zeta.
  apply (renderRow_replaces_text "{id},{name},{id}"
           {[ "id" := num 7; "name" := VStr "A" ]}).
  repeat constructor.
Defined.

Lemma startsWith_refl (s : string) : startsWith s s = true.
Proof.
  induction s as [|c s IH]; [reflexivity|]. cbn [startsWith].
  rewrite Ascii.eqb_refl. exact IH.
Qed.

Lemma takeChars_all (s : string) : takeChars (String.length s) s = s.
Proof.
  rewrite <- (append_empty_r s) at 2. apply takeChars_append.
Qed.

Lemma dropChars_all (s : string) : dropChars (String.length s) s = EmptyString.
Proof.
  rewrite <- (append_empty_r s) at 2. apply dropChars_append.
Qed.

Lemma singleCurlyMatches_placeholderOf (key : string) :
  isEmpty key = false ->
  allChars (fun c => negb (isBrace c)) key = true ->
  singleCurlyMatches (placeholderOf key) = [placeholderOf key]
  /\ removeBraces (placeholderOf key) = key.
Proof.
  intros Hne Hkey. unfold placeholderOf. split.
  - unfold singleCurlyMatches.
    change ("{" +:+ key +:+ "}")
      with (String "{" (key +:+ String "}" EmptyString)).
    cbn [scanSingle]. rewrite Ascii.eqb_refl.
    rewrite (scanSingle_run key Hkey). rewrite append_nil, Hne.
    reflexivity.
  - unfold removeBraces. rewrite !filterChars_append.
    rewrite (filterChars_id _ key Hkey).
    change (filterChars (fun c => negb (isBrace c)) "{") with EmptyString.
    change (filterChars (fun c => negb (isBrace c)) "}") with EmptyString.
    rewrite append_nil. apply append_empty_r.
Qed.

Lemma plain_key_facts (key : string) :
  allChars (fun c => negb (isSyntaxChar c)) key = true ->
  allChars (fun c => negb (isBrace c)) key = true
  /\ allChars isPatternSafe (placeholderOf key) = true.
Proof.
  intros H. split.
  - eapply allChars_impl; [|exact H]. intros c Hc.
    destruct c as [[] [] [] [] [] [] [] []];
      first [discriminate Hc|reflexivity].
  - unfold placeholderOf. rewrite !allChars_append.
    assert (allChars isPatternSafe key = true) as ->.
    { eapply allChars_impl; [|exact H]. intros c Hc. unfold isPatternSafe.
      rewrite Hc. apply orb_true_r. }
    reflexivity.
Qed.

(** X23: a dollar form in the data is expanded, not copied: for a row whose
    value under the key is the two-character string made of a dollar sign
    and an ampersand, the row rendered from the placeholder of that key
    holds, between the quotes, the text of the placeholder itself instead of
    the value.  This holds for every key that is not empty and holds no
    syntax character of the pattern language. *)
Theorem renderRow_expands_dollar_forms (key : string) (row : Row) :
  isEmpty key = false ->
  allChars (fun c => negb (isSyntaxChar c)) key = true ->
  row !! key = Some (VStr "$&") ->
  renderRow (placeholderOf key) row =
  Ok ("(" +:+ str1 squote +:+ placeholderOf key +:+ str1 squote +:+ ")").
Proof.
  intros Hne Hplain Hrow.
  destruct (plain_key_facts key Hplain) as [Hbrace Hsafe].
  destruct (singleCurlyMatches_placeholderOf key Hne Hbrace)
    as [Hmatches Hkey].
  unfold renderRow. rewrite Hmatches. cbn [foldResult].
  unfold substitutePlaceholder. rewrite Hkey, Hrow.
  rewrite (compile_literal _ Hsafe). cbn [bind].
  set (p := placeholderOf key).
  assert (isEmpty p = false) as Hp by reflexivity.
  assert (1 <= String.length p)%nat as Hlen
    by (destruct p; [discriminate Hp|cbn [String.length]; lia]).
  unfold replaceRegExp.
  replace (String.length p + 2)%nat with (S (S (String.length p))) by lia.
  cbn [replaceAllFrom]. rewrite searchFrom_literal.
  assert (findIndex p p O = Some O) as ->.
  { destruct p; [discriminate Hp|]. cbn [findIndex].
    rewrite startsWith_refl. reflexivity. }
  cbn [endIndex remaining captures Nat.add Nat.sub takeChars].
  rewrite dropChars_all.
  replace (Nat.eqb (String.length p) 0) with false
    by (symmetry; apply Nat.eqb_neq; lia).
  cbn [replaceAllFrom]. rewrite searchFrom_literal.
  assert (findIndex EmptyString p O = None) as ->
    by (destruct p; [discriminate Hp|reflexivity]).
  unfold slice. rewrite Nat.sub_0_r. cbn [dropChars]. rewrite takeChars_all.
  change (sqlQuote "$&")
    with (String squote (String "$" (String "&" (str1 squote)))).
  cbn [substitute Ascii.eqb Bool.eqb negb str1].
  change (Ascii.eqb squote "$") with false. cbn [negb]. unfold str1.
  repeat first [rewrite append_nil | rewrite append_empty_r
               | rewrite append_cons | rewrite append_assoc].
  reflexivity.
Qed.

Lemma renderRow_expands_dollar_forms_witness :
  renderRow (placeholderOf "name") {[ "name" := VStr "$&" ]} =
  Ok ("(" +:+ str1 squote +:+ placeholderOf "name" +:+ str1 squote +:+ ")").
Proof.
  apply (renderRow_expands_dollar_forms "name" {[ "name" := VStr "$&" ]});
    reflexivity.
Defined.

Lemma replaceEvery_self (pattern value : string) :
  isEmpty pattern = false -> replaceEvery pattern value pattern O = value.
Proof.
  intros Hne. destruct pattern as [|c pattern]; [discriminate Hne|].
  cbn [replaceEvery]. rewrite startsWith_refl, replaceEvery_skip.
  replace (String.length (String c pattern) - 1)%nat
    with (String.length pattern) by (cbn [String.length]; lia).
  rewrite dropChars_all. cbn [replaceEvery]. apply append_empty_r.
Qed.

(** X24: a value that is null is written in two ways.  For every key that
    is not empty and holds no syntax character of the pattern language, and
    every row that holds null under it, the row rendered from the
    placeholder of the key is [(null)] in the ALL, batch and statement
    paths, which turn only a missing key into NULL, and [(NULL)], flagged
    as having a NULL, in the split by NULL. *)
Theorem null_value_rendered_two_ways (key : string) (row : Row) :
  isEmpty key = false ->
  allChars (fun c => negb (isSyntaxChar c)) key = true ->
  row !! key = Some VNull ->
  renderRow (placeholderOf key) row = Ok "(null)"
  /\ renderStatement (placeholderOf key) row = Ok "null"
  /\ renderRowTracking (placeholderOf key) row = Ok ("(NULL)", true).
Proof.
  intros Hne Hplain Hrow.
  destruct (plain_key_facts key Hplain) as [Hbrace Hsafe].
  destruct (singleCurlyMatches_placeholderOf key Hne Hbrace)
    as [Hmatches Hkey].
  assert (isEmpty (placeholderOf key) = false) as Hp by reflexivity.
  assert (forall value,
            includes value "$" = false ->
            replaceRegExp (mkRegExp (literalTree (placeholderOf key)) O)
                          (placeholderOf key) value = value) as Hreplace.
  { intros value Hvalue. unfold replaceRegExp.
    rewrite (replaceAllFrom_literal _ value _ Hp Hvalue) by lia.
    apply replaceEvery_self. exact Hp. }
  unfold renderRow, renderStatement, renderRowTracking.
  rewrite Hmatches. cbn [foldResult].
  unfold substitutePlaceholder, substituteTracking.
  rewrite Hkey, Hrow, (compile_literal _ Hsafe). cbn [bind ToString].
  rewrite !Hreplace by reflexivity. repeat split; reflexivity.
Qed.

Lemma null_value_rendered_two_ways_witness :
  renderRow (placeholderOf "name") {[ "name" := VNull ]} = Ok "(null)"
  /\ renderStatement (placeholderOf "name") {[ "name" := VNull ]} = Ok "null"
  /\ renderRowTracking (placeholderOf "name") {[ "name" := VNull ]} =
       Ok ("(NULL)", true).
Proof.
  apply (null_value_rendered_two_ways "name" {[ "name" := VNull ]});
    reflexivity.
Defined.

(** ** When the expansion ends *)

(** X25: the expansion fails to end in exactly one situation: the template
    is valid, has no aggregate token, holds the word [values] and a VALUES
    clause with a row template that is not empty, the rows render without
    raising, there is at least one row, and the batch size is zero or
    below.  In that situation the loop is still running after any number
    of tests of its condition; in every other one the run has handed over
    its result, or raised, once the loop may test its condition one time
    more than there are rows.  In particular the statement path and the
    aggregate path end for every batch size. *)
Theorem generateSqlScript_never_returns_iff (rows : JsonData)
  (template : string) (batchSize : Z) :
  let stuck :=
    validateSqlTemplate template = []
    /\ doubleCurlyMatches template = []
    /\ includes (toLowerCase template) "values" = true
    /\ (exists index rowTemplate allRows,
          valuesMatch template = Some (index, rowTemplate)
          /\ isEmpty rowTemplate = false
          /\ mapResult (renderRow rowTemplate) rows = Ok allRows)
    /\ batchSize <= 0
    /\ rows <> [] in
  (stuck ->
   forall fuel, generateSqlScript fuel (Some rows) template batchSize = None)
  /\ (generateSqlScript (S (length rows)) (Some rows) template batchSize = None
      -> stuck).
Proof.
  cbv zeta. split.
  - intros (Hvalid & Hdouble & Hvalues
            & (index & rowTemplate & allRows & Hmatch & Hgroup & Hall)
            & Hsize & Hrows) fuel.
    exact (generateSqlScript_nonpositive_batch_diverges fuel rows template
             batchSize index rowTemplate allRows Hvalid Hdouble Hvalues
             Hmatch Hgroup Hall Hrows Hsize).
  - intros H. pose proof H as H1. unfold generateSqlScript in H.
    destruct (validateSqlTemplate template) eqn:Hvalid; [|discriminate H].
    destruct (doubleCurlyMatches template) eqn:Hdouble; [|discriminate H].
    cbn [length Nat.ltb Nat.leb] in H.
    assert (generateSqlTabs (S (length rows)) rows batchSize template = None)
      as H2 by exact H.
    unfold generateSqlTabs in H.
    destruct (includes (toLowerCase template) "values") eqn:Hvalues.
    2:{ destruct (mapResult _ rows); discriminate H. }
    destruct (valuesMatch template) as [[index rowTemplate]|] eqn:Hmatch;
      [|discriminate H].
    destruct (isEmpty rowTemplate) eqn:Hgroup.
    { destruct rowTemplate; [discriminate H|discriminate Hgroup]. }
    destruct rowTemplate as [|c rowTemplate']; [discriminate Hgroup|].
    destruct (mapResult (renderRow (String c rowTemplate')) rows)
      as [allRows| |] eqn:Hall; [|discriminate H..].
    destruct (renderRowTracking_ok _ _ _ Hall) as [tracked Htracked].
    repeat split; try reflexivity.
    + exists index, (String c rowTemplate'), allRows.
      repeat split; assumption.
    + destruct (Z.le_gt_cases batchSize 0) as [Hle|Hgt]; [exact Hle|].
      rewrite (generateSqlTabs_values_path (S (length rows)) rows batchSize
                 template index (String c rowTemplate') allRows tracked) in H2;
        [discriminate H2|try assumption..]; lia.
    + intros ->. cbn [mapResult length batchLoop] in H.
      destruct (batchSize <? Z.of_nat 0); discriminate H.
Qed.

Lemma validateSqlTemplate_messages (template message : string) :
  In message (validateSqlTemplate template) ->
  message = "SQL template cannot be empty"
  \/ message = "INSERT statements must contain 'VALUES' clause"
  \/ message = "Invalid VALUES clause format. Use: VALUES ({placeholder})".
Proof.
  unfold validateSqlTemplate.
  destruct (isEmpty (trim template)); [intros [<-|[]]; auto|].
  destruct (negb _); [intros []|].
  destruct (includes (toLowerCase template) "insert into"); cbn [andb].
  - destruct (negb _), (valuesMatch template); cbn [app In];
      intuition auto.
  - intros [].
Qed.

(** X26: a template that passes validation can still be refused when it is
    expanded.  The run ends with the single error that no VALUES clause
    could be found exactly when the template is valid, has no aggregate
    token, holds the word [values], and either does not match the VALUES
    pattern or matches it with nothing between the parentheses; this does
    not depend on the rows or on the batch size. *)
Theorem values_clause_error_iff (fuel : nat) (rows : JsonData)
  (template : string) (batchSize : Z) :
  generateSqlScript fuel (Some rows) template batchSize =
    Some (Ok (SetErrors
      ["Invalid SQL template. Could not find a 'VALUES (...)' clause."]))
  <->
  validateSqlTemplate template = []
  /\ doubleCurlyMatches template = []
  /\ includes (toLowerCase template) "values" = true
  /\ (valuesMatch template = None
      \/ exists index, valuesMatch template = Some (index, EmptyString)).
Proof.
  unfold generateSqlScript. split.
  - intros H.
    destruct (validateSqlTemplate template) as [|e es] eqn:Hvalid.
    2:{ exfalso. injection H as He _.
        destruct (validateSqlTemplate_messages template e) as [E|[E|E]];
          [rewrite Hvalid; left; reflexivity|..];
          rewrite E in He; discriminate He. }
    destruct (doubleCurlyMatches template) eqn:Hdouble; [|discriminate H].
    cbn [length Nat.ltb Nat.leb] in H. unfold generateSqlTabs in H.
    destruct (includes (toLowerCase template) "values") eqn:Hvalues.
    2:{ destruct (mapResult _ rows); discriminate H. }
    repeat split; try reflexivity.
    destruct (valuesMatch template) as [[index rowTemplate]|];
      [|left; reflexivity].
    destruct rowTemplate as [|c rowTemplate']; [right; eauto|].
    exfalso.
    destruct (mapResult (renderRow _) rows); try discriminate H.
    destruct (mapResult (renderRowTracking _) rows); try discriminate H.
    destruct (batchSize <? _); [|discriminate H].
    destruct (batchLoop _ _ _ _ _ _ _) as [[| |]|]; discriminate H.
  - intros (Hvalid & Hdouble & Hvalues & Hmatch).
    rewrite Hvalid, Hdouble. cbn [length Nat.ltb Nat.leb].
    unfold generateSqlTabs. rewrite Hvalues.
    destruct Hmatch as [->|[index ->]]; reflexivity.
Qed.
